(** * MindSpace: scheduling and mood time-series core

    A shallow embedding of the scheduling and mood-tracking logic of the
    MindSpace client (appointments.js, utils.js, mood-tracker.js,
    therapist.js, db.js), followed by the properties of that logic.

    Conventions of the embedding.
    - JavaScript numbers that the code only ever uses as integers (record
      keys, minutes, hours, epoch milliseconds) are [Z]; the engine's
      arithmetic is exact on integers below 2^53.  The one place where
      the code leaves the integers, the mean intensity and its rounding
      in [MoodUtils], is carried out on binary64 floats.  A mood
      intensity, which the code compares and stores without checking that
      it is a number, is a [JSNumber]: an integer, NaN or [undefined].
    - A [Date] is its time value: [Some t] for [t] milliseconds since the
      epoch, [None] for an Invalid Date (whose numeric value is NaN, so
      every comparison with it is false).  Reading a date string
      ([new Date(string)]) and moving a date to its local midnight
      ([setHours(0, 0, 0, 0)]) depend on the engine and its time zone and
      are parameters of the operations; the weekday and the day of the
      month are read on naive wall-clock time, with no time-zone offset
      and no daylight saving.  ISO timestamps produced by [toISOString]
      are kept as the time value they spell.
    - Status strings that the code only ever writes from a fixed set are
      enumerations.
    - A string is a sequence of characters with codes below 256, the
      code units [charCodeAt] returns for them.
    - [async] functions run to completion one after the other; an awaited
      promise that rejects is an exception thrown at the [await].  The
      database fails by not opening: every call of [mindspaceDB] then
      rejects, for the whole operation.
    - A loop whose exit depends on its arguments takes fuel, and an
      operation that runs out of it does not return.

    The definitions come first, in the order of the source files; the
    properties follow, and at the end their instances on one example
    world. *)

From Stdlib Require Import ZArith List String Ascii Bool Lia.
From Stdlib Require Import DecimalString Floats QArith Permutation Sorted.
Import ListNotations.
Open Scope Z_scope.

(** ** Strings and values of the engine *)

(** [Number.prototype.toString] on an integer. *)
Definition toString (n : Z) : string :=
  NilZero.string_of_int (Z.to_int n).

Fixpoint repeat_string (n : nat) (fill : string) : string :=
  match n with
  | O => EmptyString
  | S n' => (fill ++ repeat_string n' fill)%string
  end.

(** [String.prototype.padStart] with a one-character filler. *)
Definition padStart (targetLength : nat) (fill : string) (s : string) : string :=
  (repeat_string (targetLength - String.length s) fill ++ s)%string.

(** [Array.prototype.includes] on an array of strings. *)
Definition includes (l : list string) (x : string) : bool :=
  existsb (String.eqb x) l.

(** A value found where the code expects a number and does not check
    that it has one: an integer, NaN, or [undefined] (an absent field). *)
Inductive JSNumber :=
| Integer (z : Z)
| NaN
| Undefined.

(** [a < b]: false as soon as one side is NaN, which [undefined]
    converts to. *)
Definition JSNumber_lt (a b : JSNumber) : bool :=
  match a, b with
  | Integer x, Integer y => x <? y
  | _, _ => false
  end.

(** [a + b] on numbers. *)
Definition JSNumber_add (a b : JSNumber) : JSNumber :=
  match a, b with
  | Integer x, Integer y => Integer (x + y)
  | _, _ => NaN
  end.

(** The string an element contributes to [Array.prototype.join]:
    [undefined] contributes the empty string. *)
Definition JSNumber_joined (a : JSNumber) : string :=
  match a with
  | Integer z => toString z
  | NaN => "NaN"
  | Undefined => EmptyString
  end.

(** [a || b] where [a] may be [undefined]: zero and the empty string are
    falsy as well. *)
Definition or_number (a : option Z) (b : Z) : Z :=
  match a with
  | Some 0 | None => b
  | Some n => n
  end.

Definition or_string (a : option string) (b : string) : string :=
  match a with
  | Some EmptyString | None => b
  | Some s => s
  end.

(** [Array.prototype.slice(start, end)]: negative indices count from the
    end of the array, [end = None] is an omitted argument. *)
Definition slice {A : Type} (l : list A) (start : Z) (end_ : option Z) : list A :=
  let len := Z.of_nat (List.length l) in
  let k := if start <? 0 then Z.max (len + start) 0 else Z.min start len in
  let final :=
    match end_ with
    | None => len
    | Some e => if e <? 0 then Z.max (len + e) 0 else Z.min e len
    end in
  firstn (Z.to_nat (final - k)) (skipn (Z.to_nat k) l).

(** [Array.prototype.sort(compareFn)]: a stable sort; a comparator result
    of NaN ([None]) counts as zero.  The element [x] is put after exactly
    the elements it compares greater than. *)
Definition comparator_positive (c : option Z) : bool :=
  match c with
  | Some v => 0 <? v
  | None => false
  end.

Fixpoint sort_insert {A : Type} (compareFn : A -> A -> option Z) (x : A) (l : list A)
    : list A :=
  match l with
  | [] => [x]
  | y :: l' =>
      if comparator_positive (compareFn x y) then y :: sort_insert compareFn x l'
      else x :: l
  end.

Definition sort {A : Type} (compareFn : A -> A -> option Z) (l : list A) : list A :=
  fold_right (sort_insert compareFn) [] l.

(** [[...new Set(l)]]: the distinct elements in order of first occurrence. *)
Fixpoint unique_from (seen : list string) (l : list string) : list string :=
  match l with
  | [] => []
  | x :: l' =>
      if includes seen x then unique_from seen l'
      else x :: unique_from (x :: seen) l'
  end.

Definition unique (l : list string) : list string := unique_from [] l.

(** ** Dates *)

Definition msPerDay : Z := 1000 * 60 * 60 * 24.

(** [new Date(v)] on a number keeps [v] only inside the range of time
    values. *)
Definition TimeClip (t : option Z) : option Z :=
  match t with
  | Some v => if Z.abs v <=? 8640000000000000 then Some v else None
  | None => None
  end.

(** [a - b], [a < b] and [a > b] on dates. *)
Definition Date_sub (a b : option Z) : option Z :=
  match a, b with
  | Some x, Some y => Some (x - y)
  | _, _ => None
  end.

Definition Date_lt (a b : option Z) : bool :=
  match a, b with
  | Some x, Some y => x <? y
  | _, _ => false
  end.

Definition Date_gt (a b : option Z) : bool := Date_lt b a.

(** [d.getTime() + minutes * 60000]. *)
Definition Date_addMinutes (d : option Z) (minutes : Z) : option Z :=
  match d with
  | Some t => Some (t + minutes * 60000)
  | None => None
  end.

(** [d.setHours(0, 0, 0, 0)] depends on the time zone of the engine; the
    operations below take it as a parameter.  These are two instances,
    used for the worked examples: the local midnight before [t] when local
    time is UTC, and when local time is UTC plus a fixed [offset]
    (milliseconds, negative west of Greenwich). *)
Definition naiveStartOfDay (t : Z) : Z := t - t mod msPerDay.


(** [d.getDay()] on a valid date. *)
Definition Date_getDay (t : Z) : Z := (t / msPerDay + 4) mod 7.

(** The date strings the application writes: [YYYY-MM-DD], optionally
    followed by a blank and [HH:MM].  This reading of them is used for the
    worked examples; the operations below take the engine's parser as a
    parameter. *)
Definition digits (s : string) : option Z :=
  option_map Z.of_uint (NilZero.uint_of_string s).

Definition days_from_civil (y m d : Z) : Z :=
  let y' := if m <=? 2 then y - 1 else y in
  let era := y' / 400 in
  let yoe := y' - era * 400 in
  let mp := (m + 9) mod 12 in
  let doy := (153 * mp + 2) / 5 + d - 1 in
  let doe := yoe * 365 + yoe / 4 - yoe / 100 + doy in
  era * 146097 + doe - 719468.

Definition parse_date_part (s : string) : option Z :=
  match digits (substring 0 4 s), digits (substring 5 2 s), digits (substring 8 2 s) with
  | Some y, Some m, Some d =>
      if String.eqb (substring 4 1 s) "-" && String.eqb (substring 7 1 s) "-"
         && (1 <=? m) && (m <=? 12) && (1 <=? d) && (d <=? 31)
      then Some (days_from_civil y m d * msPerDay)
      else None
  | _, _, _ => None
  end.

Definition parse_time_part (s : string) : option Z :=
  match digits (substring 0 2 s), digits (substring 3 2 s) with
  | Some h, Some mi =>
      if String.eqb (substring 2 1 s) ":" && (h <=? 23) && (mi <=? 59)
      then Some ((h * 60 + mi) * 60000)
      else None
  | _, _ => None
  end.

Definition naiveDateParse (s : string) : option Z :=
  if (String.length s =? 10)%nat then parse_date_part s
  else if (String.length s =? 16)%nat && String.eqb (substring 10 1 s) " " then
    match parse_date_part (substring 0 10 s), parse_time_part (substring 11 5 s) with
    | Some d, Some t => Some (d + t)
    | _, _ => None
    end
  else None.

(** ** Numbers of MoodUtils: binary64 *)

(** The float nearest to an integer (ties to even). *)
Definition Z2float (z : Z) : float :=
  SF2Prim (binary_normalize prec emax z 0 false).

(** The binary64 value of a [JSNumber]. *)
Definition JSNumber_toFloat (a : JSNumber) : float :=
  match a with
  | Integer z => Z2float z
  | NaN | Undefined => nan
  end.

(** The float nearest to [p / q] for [0 <= p] and [0 < q]: the quotient is
    taken with more than 53 bits and a sticky bit, then rounded once. *)
Definition nearest_float (p q : Z) : float :=
  if p =? 0 then 0%float
  else
    let k := Z.max 0 (64 + Z.log2 q - Z.log2 p) in
    let num := p * 2 ^ k in
    let sticky := if num mod q =? 0 then 0 else 1 in
    SF2Prim (binary_normalize prec emax (2 * (num / q) + sticky) (- k - 1) false).

(** The string [x.toFixed(1)] returns, kept as the numeral it spells:
    [Fixed1 neg n] is the decimal string of [n / 10] with one fractional
    digit, after a minus sign when [neg]; [Plain x] is the result of the
    ordinary number-to-string conversion, which [toFixed] falls back to for
    NaN, the infinities and magnitudes of at least 10^21. *)
Inductive NumericString :=
| Fixed1 (negative : bool) (tenths : Z)
| Plain (x : float).

(** [Number.prototype.toFixed(1)]: among the integers [n], the one for
    which [n / 10] is closest to the exact value of [|x|], the larger one
    when two are equally close. *)
Definition toFixed1 (x : float) : NumericString :=
  match Prim2SF x with
  | S754_zero _ => Fixed1 false 0
  | S754_finite s m e =>
      if (1e21 <=? abs x)%float then Plain x
      else
        let n :=
          if 0 <=? e then 10 * (Zpos m * 2 ^ e)
          else (20 * Zpos m + 2 ^ (- e)) / 2 ^ (1 - e) in
        Fixed1 s n
  | _ => Plain x
  end.

(** What [calculateAverage] returns: the number [0] or a string. *)
Inductive Average :=
| AvgNumber (x : float)
| AvgString (s : NumericString).

(** The conversion to a number that the subtraction [recentAvg - olderAvg]
    applies to its operands. *)
Definition NumericString_toNumber (s : NumericString) : float :=
  match s with
  | Fixed1 neg n =>
      let v := nearest_float n 10 in
      if neg then (- v)%float else v
  | Plain x => x
  end.

Definition ToNumber (v : Average) : float :=
  match v with
  | AvgNumber x => x
  | AvgString s => NumericString_toNumber s
  end.

(** ** Data model (the object stores of db.js) *)

Inductive Status := confirmed | completed | cancelled.

Definition Status_eqb (a b : Status) : bool :=
  match a, b with
  | confirmed, confirmed | completed, completed | cancelled, cancelled => true
  | _, _ => false
  end.

Inductive ConnectionStatus := active | inactive.

Definition ConnectionStatus_eqb (a b : ConnectionStatus) : bool :=
  match a, b with
  | active, active | inactive, inactive => true
  | _, _ => false
  end.

(** A record's [id] is absent until the store's key generator assigns it. *)
Record Appointment := mkAppointment {
  apt_id : option Z;
  apt_userId : Z;
  apt_therapistId : Z;
  apt_date : string;
  apt_time : string;
  apt_duration : Z;
  apt_type : string;
  apt_status : Status;
  apt_notes : string;
  apt_createdAt : Z;
  apt_cancelledAt : option Z;
  apt_completedAt : option Z;
  apt_rescheduledAt : option Z
}.

(** A mood entry; [updatedAt] is absent until [updateMood] writes it. *)
Record MoodEntry := mkMoodEntry {
  mood_id : option Z;
  mood_userId : Z;
  mood_mood : string;
  mood_intensity : JSNumber;
  mood_notes : option string;
  mood_date : string;
  mood_timestamp : Z;
  mood_updatedAt : option Z
}.

Record Connection := mkConnection {
  conn_id : option Z;
  conn_userId : Z;
  conn_therapistId : Z;
  conn_connectedDate : Z;
  conn_status : ConnectionStatus
}.

(** Of a therapist only the fields the scheduling code reads. *)
Record Therapist := mkTherapist {
  th_id : option Z;
  th_name : string;
  th_specialization : string;
  th_availability : list string
}.

(** The argument objects of [bookAppointment] and [logMood]; an optional
    field may be absent. *)
Record AppointmentData := mkAppointmentData {
  ad_therapistId : Z;
  ad_date : string;
  ad_time : string;
  ad_duration : option Z;
  ad_type : option string;
  ad_notes : option string
}.

Record MoodData := mkMoodData {
  md_mood : string;
  md_intensity : JSNumber;
  md_notes : option string;
  md_date : string
}.

(** The result objects [{ success, message, appointmentId | moodId }]. *)
Record Result := mkResult {
  success : bool;
  message : string;
  resultId : option Z
}.

Definition failure (msg : string) : Result :=
  {| success := false; message := msg; resultId := None |}.

(** Field assignments on a fetched record. *)
Definition set_apt_id (k : Z) (a : Appointment) : Appointment :=
  mkAppointment (Some k) (apt_userId a) (apt_therapistId a) (apt_date a) (apt_time a)
    (apt_duration a) (apt_type a) (apt_status a) (apt_notes a) (apt_createdAt a)
    (apt_cancelledAt a) (apt_completedAt a) (apt_rescheduledAt a).

Definition cancel_fields (now : Z) (a : Appointment) : Appointment :=
  mkAppointment (apt_id a) (apt_userId a) (apt_therapistId a) (apt_date a) (apt_time a)
    (apt_duration a) (apt_type a) cancelled (apt_notes a) (apt_createdAt a)
    (Some now) (apt_completedAt a) (apt_rescheduledAt a).

Definition set_mood_id (k : Z) (m : MoodEntry) : MoodEntry :=
  mkMoodEntry (Some k) (mood_userId m) (mood_mood m) (mood_intensity m) (mood_notes m)
    (mood_date m) (mood_timestamp m) (mood_updatedAt m).

Definition overwrite_mood (d : MoodData) (now : Z) (m : MoodEntry) : MoodEntry :=
  mkMoodEntry (mood_id m) (mood_userId m) (md_mood d) (md_intensity d) (md_notes d)
    (mood_date m) now (mood_updatedAt m).

Definition set_conn_id (k : Z) (c : Connection) : Connection :=
  mkConnection (Some k) (conn_userId c) (conn_therapistId c) (conn_connectedDate c)
    (conn_status c).

Definition set_th_id (k : Z) (t : Therapist) : Therapist :=
  mkTherapist (Some k) (th_name t) (th_specialization t) (th_availability t).

(** ** The database (db.js) *)

(** An object store with [keyPath: 'id'] and [autoIncrement]: its records
    in key order, and the next key of its generator. *)
Record ObjectStore (T : Type) := mkStore {
  rows : list T;
  nextKey : Z
}.
Arguments mkStore {T} _ _.
Arguments rows {T} _.
Arguments nextKey {T} _.

(** The world an operation runs in: whether the database can be opened
    ([ensureReady] rejects otherwise), the wall clock, and the stores. *)
Record World := mkWorld {
  available : bool;
  clock : Z;
  therapists : ObjectStore Therapist;
  userTherapists : ObjectStore Connection;
  appointments : ObjectStore Appointment;
  moods : ObjectStore MoodEntry
}.

(** How an [async] function ends: with a value, with a thrown exception
    (a rejected promise), or never within the fuel given to its loops. *)
Inductive Outcome (A : Type) :=
| Returned (a : A)
| Thrown
| OutOfFuel.
Arguments Returned {A} _.
Arguments Thrown {A}.
Arguments OutOfFuel {A}.

Definition M (A : Type) : Type := World -> Outcome A * World.

Definition ret {A : Type} (a : A) : M A := fun w => (Returned a, w).

Definition bind {A B : Type} (m : M A) (k : A -> M B) : M B :=
  fun w =>
    match m w with
    | (Returned a, w') => k a w'
    | (Thrown, w') => (Thrown, w')
    | (OutOfFuel, w') => (OutOfFuel, w')
    end.

Notation "x <- m ;; k" := (bind m (fun x => k))
  (at level 61, m at next level, right associativity).
Notation "m ;;; k" := (bind m (fun _ => k))
  (at level 61, right associativity).

Definition throw {A : Type} : M A := fun w => (Thrown, w).

(** [try { body } catch (error) { handler }]. *)
Definition try_catch {A : Type} (body handler : M A) : M A :=
  fun w =>
    match body w with
    | (Thrown, w') => handler w'
    | r => r
    end.

(** A loop that may not end. *)
Definition run_loop {A : Type} (r : option A) : M A :=
  fun w =>
    match r with
    | Some a => (Returned a, w)
    | None => (OutOfFuel, w)
    end.

(** [new Date()], as a time value. *)
Definition Date_now : M Z := fun w => (Returned (clock w), w).

(** A store of the database: how to reach it in the world, and the key of
    a record. *)
Record StoreRef (T : Type) := mkStoreRef {
  store_of : World -> ObjectStore T;
  with_store : ObjectStore T -> World -> World;
  key_of : T -> option Z;
  with_key : Z -> T -> T
}.
Arguments store_of {T} _ _.
Arguments with_store {T} _ _ _.
Arguments key_of {T} _ _.
Arguments with_key {T} _ _ _.

Definition therapists_store : StoreRef Therapist :=
  mkStoreRef Therapist therapists
    (fun s w => mkWorld (available w) (clock w) s (userTherapists w) (appointments w) (moods w))
    th_id set_th_id.

Definition userTherapists_store : StoreRef Connection :=
  mkStoreRef Connection userTherapists
    (fun s w => mkWorld (available w) (clock w) (therapists w) s (appointments w) (moods w))
    conn_id set_conn_id.

Definition appointments_store : StoreRef Appointment :=
  mkStoreRef Appointment appointments
    (fun s w => mkWorld (available w) (clock w) (therapists w) (userTherapists w) s (moods w))
    apt_id set_apt_id.

Definition moods_store : StoreRef MoodEntry :=
  mkStoreRef MoodEntry moods
    (fun s w => mkWorld (available w) (clock w) (therapists w) (userTherapists w) (appointments w) s)
    mood_id set_mood_id.

Definition has_key {T : Type} (st : StoreRef T) (key : Z) (r : T) : bool :=
  match key_of st r with
  | Some k => k =? key
  | None => false
  end.

(** [ensureReady]: every operation first awaits the opening of the
    database, which rejects when the database is not available. *)
Definition ensureReady : M unit :=
  fun w => if available w then (Returned tt, w) else (Thrown, w).

(** [add]: the record is stored under the next generated key (the code
    never adds a record that already carries an [id]). *)
Definition db_add {T : Type} (st : StoreRef T) (data : T) : M Z :=
  ensureReady ;;;
  fun w =>
    let s := store_of st w in
    let k := nextKey s in
    (Returned k, with_store st (mkStore (rows s ++ [with_key st k data]) (k + 1)) w).

(** [get]: the record stored under [key], or [undefined]. *)
Definition db_get {T : Type} (st : StoreRef T) (key : Z) : M (option T) :=
  ensureReady ;;;
  fun w => (Returned (find (has_key st key) (rows (store_of st w))), w).

(** [getByIndex]: the records whose indexed field equals [value], in key
    order. *)
Definition db_getByIndex {T : Type} (st : StoreRef T) (field : T -> Z) (value : Z)
    : M (list T) :=
  ensureReady ;;;
  fun w => (Returned (filter (fun r => field r =? value) (rows (store_of st w))), w).

(** [put]: replaces the record stored under the key of [data], or stores
    [data] at its place in key order when no record has that key. *)
Fixpoint replace_row {T : Type} (st : StoreRef T) (k : Z) (data : T) (l : list T) : list T :=
  match l with
  | [] => []
  | r :: l' => if has_key st k r then data :: l' else r :: replace_row st k data l'
  end.

Fixpoint insert_row {T : Type} (st : StoreRef T) (k : Z) (data : T) (l : list T) : list T :=
  match l with
  | [] => [data]
  | r :: l' =>
      match key_of st r with
      | Some k' => if k <? k' then data :: l else r :: insert_row st k data l'
      | None => r :: insert_row st k data l'
      end
  end.

Definition put_row {T : Type} (st : StoreRef T) (k : Z) (data : T) (l : list T) : list T :=
  if existsb (has_key st k) l then replace_row st k data l else insert_row st k data l.

Definition db_update {T : Type} (st : StoreRef T) (data : T) : M Z :=
  ensureReady ;;;
  fun w =>
    let s := store_of st w in
    match key_of st data with
    | Some k =>
        (Returned k, with_store st (mkStore (put_row st k data (rows s)) (Z.max (nextKey s) (k + 1))) w)
    | None =>
        let k := nextKey s in
        (Returned k, with_store st (mkStore (rows s ++ [with_key st k data]) (k + 1)) w)
    end.

(** ** DateUtils.generateTimeSlots (utils.js) *)

(** One slot label: [Math.floor(currentTime / 60)] is the floor division
    of [Z], [currentTime % 60] the remainder with the sign of the dividend. *)
Definition formatSlot (currentTime : Z) : string :=
  let hours := currentTime / 60 in
  let minutes := Z.rem currentTime 60 in
  (padStart 2 "0" (toString hours) ++ ":" ++ padStart 2 "0" (toString minutes))%string.

(** The [while] loop of [generateTimeSlots].  Each unit of fuel pays for
    one evaluation of the loop condition; [None] means the fuel ran out
    before the condition became false. *)
Fixpoint generateTimeSlots_loop (fuel : nat) (currentTime endTime duration : Z)
    (slots : list string) : option (list string) :=
  match fuel with
  | O => None
  | S fuel' =>
      if currentTime + duration <=? endTime then
        generateTimeSlots_loop fuel' (currentTime + duration) endTime duration
          (slots ++ [formatSlot currentTime])
      else Some slots
  end.

Definition generateTimeSlots (fuel : nat) (startHour endHour duration : Z)
    : option (list string) :=
  let slots := [] in
  let currentTime := startHour * 60 in
  let endTime := endHour * 60 in
  generateTimeSlots_loop fuel currentTime endTime duration slots.

(** The number of slots that fit: the number of [k >= 0] with
    [startHour*60 + (k+1)*duration <= endHour*60]. *)
Definition slotCount (startHour endHour duration : Z) : nat :=
  Z.to_nat ((endHour * 60 - startHour * 60) / duration).

(** ** MoodUtils (utils.js) *)

(** A mood category; the emoji of the source is left out. *)
Record MoodCategory := mkMoodCategory {
  cat_name : string;
  cat_color : string
}.

Definition moodCategories : list MoodCategory :=
  [ mkMoodCategory "Happy" "#52B788";
    mkMoodCategory "Sad" "#6C757D";
    mkMoodCategory "Anxious" "#FFC107";
    mkMoodCategory "Angry" "#DC3545";
    mkMoodCategory "Calm" "#B7E4C7";
    mkMoodCategory "Stressed" "#FF6B6B";
    mkMoodCategory "Energetic" "#FFD93D";
    mkMoodCategory "Tired" "#95A5A6";
    mkMoodCategory "Hopeful" "#52B788";
    mkMoodCategory "Overwhelmed" "#E67E22" ].

Definition getMoodByName (name : string) : option MoodCategory :=
  find (fun m => String.eqb (cat_name m) name) moodCategories.

Definition sumIntensity (moods : list MoodEntry) : JSNumber :=
  fold_left (fun acc mood => JSNumber_add acc (mood_intensity mood)) moods (Integer 0).

Definition calculateAverage (moods : list MoodEntry) : Average :=
  if (List.length moods =? 0)%nat then AvgNumber 0
  else
    let sum := sumIntensity moods in
    AvgString (toFixed1 (JSNumber_toFloat sum / Z2float (Z.of_nat (List.length moods)))).

Inductive Trend := improving | declining | stable.

Definition getMoodTrend (moods : list MoodEntry) : Trend :=
  if (List.length moods <? 2)%nat then stable
  else
    let recent := slice moods (-7) None in
    let older := slice moods (-14) (Some (-7)) in
    if (List.length older =? 0)%nat then stable
    else
      let recentAvg := calculateAverage recent in
      let olderAvg := calculateAverage older in
      let diff := (ToNumber recentAvg - ToNumber olderAvg)%float in
      if (0.5 <? diff)%float then improving
      else if (diff <? -0.5)%float then declining
      else stable.

(** The sum of the intensities that are integers, and the exact mean
    intensity, for comparison with the rounded one. *)
Definition intensityTotal (moods : list MoodEntry) : Z :=
  fold_left (fun acc mood => acc + match mood_intensity mood with
                                   | Integer i => i
                                   | NaN | Undefined => 0
                                   end) moods 0.

Definition exactMean (moods : list MoodEntry) : Q :=
  (inject_Z (intensityTotal moods) / inject_Z (Z.of_nat (List.length moods)))%Q.

(** ** TherapistManager.isConnected (therapist.js) *)

Definition TherapistManager_isConnected (userId therapistId : Z) : M bool :=
  try_catch
    (connections <- db_getByIndex userTherapists_store conn_userId userId ;;
     ret (existsb (fun conn => (conn_therapistId conn =? therapistId)
                               && ConnectionStatus_eqb (conn_status conn) active)
            connections))
    (ret false).

(** ** AppointmentManager (appointments.js) and MoodTracker
       (mood-tracker.js) *)

Section Core.

(** The engine's [new Date(string)]: the time value the string denotes,
    [None] for an Invalid Date. *)
Variable Date_parse : string -> option Z.

(** The engine's [d.setHours(0, 0, 0, 0)] on a valid date: the time value
    of the local midnight that begins the local day of the argument. *)
Variable startOfDay : Z -> Z.

(** [new Date(apt.date + ' ' + apt.time)]. *)
Definition dateTimeOf (date time : string) : option Z :=
  Date_parse (date ++ " " ++ time)%string.

Definition aptDateTime (apt : Appointment) : option Z :=
  dateTimeOf (apt_date apt) (apt_time apt).

Definition days : list string :=
  ["Sunday"; "Monday"; "Tuesday"; "Wednesday"; "Thursday"; "Friday"; "Saturday"]%string.

(** [days[new Date(date).getDay()]]; [None] is [undefined], the element at
    index NaN. *)
Definition getDayOfWeek (date : string) : option string :=
  match Date_parse date with
  | Some t => nth_error days (Z.to_nat (Date_getDay t))
  | None => None
  end.

Definition isSlotAvailable (therapistId : Z) (date time : string) : M bool :=
  try_catch
    (appointments <- db_getByIndex appointments_store apt_therapistId therapistId ;;
     let conflict :=
       find (fun apt => String.eqb (apt_date apt) date
                        && String.eqb (apt_time apt) time
                        && negb (Status_eqb (apt_status apt) cancelled))
         appointments in
     ret (match conflict with Some _ => false | None => true end))
    (ret false).

Definition bookAppointment (userId : Z) (appointmentData : AppointmentData) : M Result :=
  try_catch
    (isConnected <- TherapistManager_isConnected userId (ad_therapistId appointmentData) ;;
     if negb isConnected then
       ret (failure "You must be connected with this therapist first")
     else
       isAvailable <- isSlotAvailable (ad_therapistId appointmentData)
                        (ad_date appointmentData) (ad_time appointmentData) ;;
       if negb isAvailable then
         ret (failure "This time slot is no longer available")
       else
         createdAt <- Date_now ;;
         let appointment :=
           {| apt_id := None;
              apt_userId := userId;
              apt_therapistId := ad_therapistId appointmentData;
              apt_date := ad_date appointmentData;
              apt_time := ad_time appointmentData;
              apt_duration := or_number (ad_duration appointmentData) 50;
              apt_type := or_string (ad_type appointmentData) "Regular Session";
              apt_status := confirmed;
              apt_notes := or_string (ad_notes appointmentData) "";
              apt_createdAt := createdAt;
              apt_cancelledAt := None;
              apt_completedAt := None;
              apt_rescheduledAt := None |} in
         appointmentId <- db_add appointments_store appointment ;;
         ret {| success := true;
                message := "Appointment booked successfully";
                resultId := Some appointmentId |})
    (ret (failure "Failed to book appointment")).

(** [duration = None] is an omitted argument, which takes the default of
    the parameter. *)
Definition getAvailableSlots (fuel : nat) (therapistId : Z) (date : string)
    (duration : option Z) : M (list string) :=
  let duration := match duration with Some d => d | None => 50 end in
  try_catch
    (therapist <- db_get therapists_store therapistId ;;
     match therapist with
     | None => ret []
     | Some therapist =>
         let dayOfWeek := getDayOfWeek date in
         if negb (match dayOfWeek with
                  | Some day => includes (th_availability therapist) day
                  | None => false
                  end)
         then ret []
         else
           allSlots <- run_loop (generateTimeSlots fuel 9 17 duration) ;;
           allAppointments <- db_getByIndex appointments_store apt_therapistId therapistId ;;
           let dateAppointments :=
             filter (fun apt => String.eqb (apt_date apt) date
                                && negb (Status_eqb (apt_status apt) cancelled))
               allAppointments in
           let bookedTimes := map apt_time dateAppointments in
           let availableSlots := filter (fun slot => negb (includes bookedTimes slot)) allSlots in
           ret availableSlots
     end)
    (ret []).

Definition getUpcomingAppointments (userId : Z) : M (list Appointment) :=
  try_catch
    (allAppointments <- db_getByIndex appointments_store apt_userId userId ;;
     now <- Date_now ;;
     let upcoming :=
       filter (fun apt => Date_gt (aptDateTime apt) (Some now)
                          && Status_eqb (apt_status apt) confirmed)
         allAppointments in
     ret (sort (fun a b => Date_sub (aptDateTime a) (aptDateTime b)) upcoming))
    (ret []).

Definition getPastAppointments (userId : Z) : M (list Appointment) :=
  try_catch
    (allAppointments <- db_getByIndex appointments_store apt_userId userId ;;
     now <- Date_now ;;
     let past :=
       filter (fun apt => Date_lt (aptDateTime apt) (Some now)
                          || Status_eqb (apt_status apt) completed)
         allAppointments in
     ret (sort (fun a b => Date_sub (aptDateTime b) (aptDateTime a)) past))
    (ret []).

Definition getCancelledAppointments (userId : Z) : M (list Appointment) :=
  try_catch
    (allAppointments <- db_getByIndex appointments_store apt_userId userId ;;
     let cancelled_ := filter (fun apt => Status_eqb (apt_status apt) cancelled) allAppointments in
     ret (sort (fun a b => Date_sub (aptDateTime b) (aptDateTime a)) cancelled_))
    (ret []).

Definition cancelAppointment (appointmentId : Z) : M Result :=
  try_catch
    (appointment <- db_get appointments_store appointmentId ;;
     match appointment with
     | None => ret (failure "Appointment not found")
     | Some appointment =>
         if Status_eqb (apt_status appointment) cancelled then
           ret (failure "Appointment is already cancelled")
         else
           now <- Date_now ;;
           let appointment := cancel_fields now appointment in
           db_update appointments_store appointment ;;;
           ret {| success := true;
                  message := "Appointment cancelled successfully";
                  resultId := None |}
     end)
    (ret (failure "Failed to cancel appointment")).

Definition getAppointmentsByDate (userId : Z) (date : string) : M (list Appointment) :=
  try_catch
    (allAppointments <- db_getByIndex appointments_store apt_userId userId ;;
     ret (filter (fun apt => String.eqb (apt_date apt) date) allAppointments))
    (ret []).

(** The [for] loop of [hasConflict], with its [continue] and its early
    [return true]. *)
Fixpoint hasConflict_loop (startTime endTime : option Z) (appointments : list Appointment)
    : bool :=
  match appointments with
  | [] => false
  | apt :: rest =>
      if Status_eqb (apt_status apt) cancelled then
        hasConflict_loop startTime endTime rest
      else
        let aptStart := aptDateTime apt in
        let aptEnd := TimeClip (Date_addMinutes aptStart (apt_duration apt)) in
        if Date_lt startTime aptEnd && Date_gt endTime aptStart then true
        else hasConflict_loop startTime endTime rest
  end.

Definition hasConflict (userId : Z) (date time : string) (duration : Z) : M bool :=
  try_catch
    (appointments <- getAppointmentsByDate userId date ;;
     let startTime := dateTimeOf date time in
     let endTime := TimeClip (Date_addMinutes startTime duration) in
     ret (hasConflict_loop startTime endTime appointments))
    (ret true). (* Return true on error to be safe *)

Definition getMoodsByDate (userId : Z) (date : string) : M (list MoodEntry) :=
  try_catch
    (allMoods <- db_getByIndex moods_store mood_userId userId ;;
     ret (filter (fun mood => String.eqb (mood_date mood) date) allMoods))
    (ret []).

Definition logMood (userId : Z) (moodData : MoodData) : M Result :=
  try_catch
    (match getMoodByName (md_mood moodData) with
     | None => ret (failure "Invalid mood selected")
     | Some validMood =>
         if JSNumber_lt (md_intensity moodData) (Integer 1)
            || JSNumber_lt (Integer 10) (md_intensity moodData) then
           ret (failure "Intensity must be between 1 and 10")
         else
           existingEntries <- getMoodsByDate userId (md_date moodData) ;;
           match existingEntries with
           | existing :: _ =>
               now <- Date_now ;;
               let existing := overwrite_mood moodData now existing in
               db_update moods_store existing ;;;
               ret {| success := true;
                      message := "Mood entry updated";
                      resultId := mood_id existing |}
           | [] =>
               now <- Date_now ;;
               let mood :=
                 {| mood_id := None;
                    mood_userId := userId;
                    mood_mood := md_mood moodData;
                    mood_intensity := md_intensity moodData;
                    mood_notes := Some (or_string (md_notes moodData) "");
                    mood_date := md_date moodData;
                    mood_timestamp := now;
                    mood_updatedAt := None |} in
               moodId <- db_add moods_store mood ;;
               ret {| success := true;
                      message := "Mood logged successfully";
                      resultId := Some moodId |}
           end
     end)
    (ret (failure "Failed to log mood")).

(** The [for] loop of [calculateStreak]: [diffDays === streak] is false
    for the NaN an invalid date gives. *)
Fixpoint calculateStreak_loop (currentDate : Z) (dates : list string) (streak : Z) : Z :=
  match dates with
  | [] => streak
  | dateStr :: rest =>
      match option_map startOfDay (Date_parse dateStr) with
      | Some moodDate =>
          let diffDays := (currentDate - moodDate) / msPerDay in
          if diffDays =? streak then calculateStreak_loop currentDate rest (streak + 1)
          else streak
      | None => streak
      end
  end.

(** [calculateStreak] reads the clock ([new Date()]); [now] is that
    reading. *)
Definition calculateStreak (now : Z) (moods : list MoodEntry) : Z :=
  if (List.length moods =? 0)%nat then 0
  else
    let dates :=
      sort (fun a b => Date_sub (Date_parse b) (Date_parse a))
        (unique (map mood_date moods)) in
    let currentDate := startOfDay now in
    calculateStreak_loop currentDate dates 0.

(** ** Notions used to state the properties *)

(** The windows [getMoodTrend] compares, written with list operations: the
    last seven entries, and the up to seven entries before them. *)
Definition recentWindow (moods : list MoodEntry) : list MoodEntry :=
  skipn (List.length moods - 7) moods.

Definition olderWindow (moods : list MoodEntry) : list MoodEntry :=
  firstn (Nat.min 7 (List.length moods - 7)) (skipn (List.length moods - 14) moods).

(** The mean intensity of a window as the trend sees it: divided in
    binary64, written with one decimal by [toFixed(1)] and read back. *)
Definition roundedMean (window : list MoodEntry) : float :=
  NumericString_toNumber
    (toFixed1 (JSNumber_toFloat (sumIntensity window)
               / Z2float (Z.of_nat (List.length window)))).

(** The integer nearest to [10 * sum / n], the larger one of two equally
    near: the exact mean [sum / n] in tenths, rounded half up. *)
Definition roundTenths (sum n : Z) : Z := (20 * sum + n) / (2 * n).

Definition NumericString_eqb (a b : NumericString) : bool :=
  match a, b with
  | Fixed1 na ta, Fixed1 nb tb => Bool.eqb na nb && (ta =? tb)
  | _, _ => false
  end.

(** [toFixed(1)] of the binary64 quotient [s / n] spells the exact mean
    rounded half up. *)
Definition meanCheck (n s : nat) : bool :=
  NumericString_eqb
    (toFixed1 (Z2float (Z.of_nat s) / Z2float (Z.of_nat n)))
    (Fixed1 false (roundTenths (Z.of_nat s) (Z.of_nat n))).

Definition classifyDifference (diff : float) : Trend :=
  if (0.5 <? diff)%float then improving
  else if (diff <? -0.5)%float then declining
  else stable.

(** ** Data of the worked examples *)

Definition moodOn (date : string) (intensity : Z) : MoodEntry :=
  {| mood_id := None; mood_userId := 1; mood_mood := "Calm";
     mood_intensity := Integer intensity; mood_notes := Some EmptyString;
     mood_date := date; mood_timestamp := 0; mood_updatedAt := None |}.

Definition fortnight : list string :=
  ["2025-07-01"; "2025-07-02"; "2025-07-03"; "2025-07-04"; "2025-07-05"; "2025-07-06";
   "2025-07-07"; "2025-07-08"; "2025-07-09"; "2025-07-10"; "2025-07-11"; "2025-07-12";
   "2025-07-13"; "2025-07-14"]%string.

(** Seven entries at intensity 4 followed, chronologically, by seven at 8. *)
Definition moods_4_then_8 : list MoodEntry :=
  map (fun p => moodOn (fst p) (snd p))
    (combine fortnight [4; 4; 4; 4; 4; 4; 4; 8; 8; 8; 8; 8; 8; 8]).

(** Seven entries of total intensity 11 followed by seven of total 15. *)
Definition moods_11_then_15 : list MoodEntry :=
  map (fun p => moodOn (fst p) (snd p))
    (combine fortnight [1; 1; 1; 2; 2; 2; 2; 2; 2; 2; 2; 2; 2; 3]).

(** Seven entries of total intensity 27 followed by seven of total 31:
    the rounded means are 3.9 and 4.4. *)
Definition moods_27_then_31 : list MoodEntry :=
  map (fun p => moodOn (fst p) (snd p))
    (combine fortnight [4; 4; 4; 4; 4; 4; 3; 4; 4; 4; 4; 5; 5; 5]).

(** ** Store contents, as the properties speak of them *)

(** The user has an active connection to the therapist, and the database
    can be read. *)
Definition activeConnection (w : World) (userId therapistId : Z) : Prop :=
  available w = true
  /\ exists c, In c (rows (userTherapists w))
               /\ conn_userId c = userId
               /\ conn_therapistId c = therapistId
               /\ conn_status c = active.

(** Some appointment of the therapist that is not cancelled has this date
    and time. *)
Definition slotTaken (w : World) (therapistId : Z) (date time : string) : Prop :=
  exists a, In a (rows (appointments w))
            /\ apt_therapistId a = therapistId
            /\ apt_date a = date
            /\ apt_time a = time
            /\ apt_status a <> cancelled.

(** The test [isSlotAvailable] applies to an appointment of the therapist. *)
Definition slotConflict (date time : string) (apt : Appointment) : bool :=
  String.eqb (apt_date apt) date && String.eqb (apt_time apt) time
  && negb (Status_eqb (apt_status apt) cancelled).

(** The appointment that [bookAppointment] builds. *)
Definition bookedAppointment (w : World) (userId : Z) (data : AppointmentData) : Appointment :=
  {| apt_id := Some (nextKey (appointments w));
     apt_userId := userId;
     apt_therapistId := ad_therapistId data;
     apt_date := ad_date data;
     apt_time := ad_time data;
     apt_duration := match ad_duration data with
                     | None | Some 0 => 50
                     | Some d => d
                     end;
     apt_type := match ad_type data with
                 | None | Some EmptyString => "Regular Session"
                 | Some t => t
                 end;
     apt_status := confirmed;
     apt_notes := match ad_notes data with
                  | None => EmptyString
                  | Some n => n
                  end;
     apt_createdAt := clock w;
     apt_cancelledAt := None;
     apt_completedAt := None;
     apt_rescheduledAt := None |}.

(** The world after one more appointment has been stored. *)
Definition withNewAppointment (w : World) (a : Appointment) : World :=
  mkWorld (available w) (clock w) (therapists w) (userTherapists w)
    (mkStore (rows (appointments w) ++ [a]) (nextKey (appointments w) + 1))
    (moods w).

(** The record stored under a key. *)
Definition appointmentById (w : World) (id : Z) : option Appointment :=
  find (has_key appointments_store id) (rows (appointments w)).

Definition moodEntriesFor (w : World) (userId : Z) (date : string) : list MoodEntry :=
  filter (fun mood => String.eqb (mood_date mood) date)
    (filter (fun r => mood_userId r =? userId) (rows (moods w))).

Definition sameUserAndDate (userId : Z) (date : string) (m : MoodEntry) : bool :=
  (mood_userId m =? userId) && String.eqb (mood_date m) date.

(** At most one mood entry per user and calendar date. *)
Definition oneEntryPerDay (w : World) : Prop :=
  forall userId date, (List.length (moodEntriesFor w userId date) <= 1)%nat.

(** What the key generator guarantees of a store: every record has a key,
    below the next key to be generated, and no two records share a key. *)
Definition keysGenerated {T : Type} (st : StoreRef T) (w : World) : Prop :=
  NoDup (map (key_of st) (rows (store_of st w)))
  /\ forall r, In r (rows (store_of st w)) ->
               exists k, key_of st r = Some k /\ k < nextKey (store_of st w).

(** The request passes the validation of [logMood]: its mood is a known
    category, and its intensity is not an integer below 1 or above 10. *)
Definition validMoodData (d : MoodData) : Prop :=
  (exists c, In c moodCategories /\ cat_name c = md_mood d)
  /\ match md_intensity d with
     | Integer i => 1 <= i <= 10
     | NaN | Undefined => True
     end.

(** The world after the mood store has been replaced. *)
Definition withMoods (w : World) (s : ObjectStore MoodEntry) : World :=
  mkWorld (available w) (clock w) (therapists w) (userTherapists w) (appointments w) s.

Definition withAppointments (w : World) (s : ObjectStore Appointment) : World :=
  mkWorld (available w) (clock w) (therapists w) (userTherapists w) s (moods w).

(** The appointments of a user, as the index on [userId] returns them. *)
Definition appointmentsOfUser (w : World) (userId : Z) : list Appointment :=
  filter (fun r => apt_userId r =? userId) (rows (appointments w)).

(** An instant strictly before another; an invalid date is before and
    after nothing. *)
Definition instantBefore (a b : option Z) : Prop :=
  exists x y, a = Some x /\ b = Some y /\ x < y.

(** The end of the interval that starts at [start] and lasts [duration]
    minutes. *)
Definition intervalEnd (start : option Z) (duration : Z) : option Z :=
  TimeClip (Date_addMinutes start duration).

(** The therapist works on the weekday of the date. *)
Definition worksOn (th : Therapist) (date : string) : bool :=
  match getDayOfWeek date with
  | Some day => includes (th_availability th) day
  | None => false
  end.

(** The times of the therapist's appointments on a date that are not
    cancelled. *)
Definition bookedTimes (w : World) (therapistId : Z) (date : string) : list string :=
  map apt_time
    (filter (fun apt => String.eqb (apt_date apt) date
                        && negb (Status_eqb (apt_status apt) cancelled))
       (filter (fun r => apt_therapistId r =? therapistId) (rows (appointments w)))).

Definition therapistById (w : World) (id : Z) : option Therapist :=
  find (has_key therapists_store id) (rows (therapists w)).

(** ** The world of the worked examples

    It is Thursday 2025-07-10, 12:00.  User 1 is connected to therapist 1,
    who works Monday to Thursday.  The user has a confirmed appointment on
    Monday 2025-07-14 at 09:00, a cancelled one the same day at 09:50, a
    cancelled one in the past (2025-07-01), and one on 2025-07-21 that is
    already marked completed.  Two moods are logged, for the 9th and the
    10th. *)

Definition appointment1 : Appointment :=
  mkAppointment (Some 1) 1 1 "2025-07-14" "09:00" 50 "Regular Session" confirmed ""
    1751900000000 None None None.

Definition appointment2 : Appointment :=
  mkAppointment (Some 2) 1 1 "2025-07-14" "09:50" 50 "Regular Session" cancelled ""
    1751900000000 (Some 1752000000000) None None.

Definition appointment3 : Appointment :=
  mkAppointment (Some 3) 1 1 "2025-07-01" "09:00" 50 "Regular Session" cancelled ""
    1751000000000 (Some 1751100000000) None None.

Definition appointment4 : Appointment :=
  mkAppointment (Some 4) 1 1 "2025-07-21" "09:00" 50 "Regular Session" completed ""
    1751900000000 None (Some 1752000000000) None.

Definition mood1 : MoodEntry :=
  mkMoodEntry (Some 1) 1 "Calm" (Integer 6) (Some EmptyString) "2025-07-09" 1752062400000
    None.

Definition mood2 : MoodEntry :=
  mkMoodEntry (Some 2) 1 "Tired" (Integer 4) (Some EmptyString) "2025-07-10" 1752138000000
    None.

Definition exampleWorld : World :=
  {| available := true;
     clock := 1752148800000;
     therapists :=
       mkStore [mkTherapist (Some 1) "Dr. Sarah Mitchell" "Anxiety & Stress Management"
                  ["Monday"; "Tuesday"; "Wednesday"; "Thursday"]%string] 2;
     userTherapists := mkStore [mkConnection (Some 1) 1 1 1751800000000 active] 2;
     appointments := mkStore [appointment1; appointment2; appointment3; appointment4] 5;
     moods := mkStore [mood1; mood2] 3 |}.

(** The same world with a database that cannot be opened. *)
Definition brokenWorld : World :=
  mkWorld false (clock exampleWorld) (therapists exampleWorld) (userTherapists exampleWorld)
    (appointments exampleWorld) (moods exampleWorld).








(** Requests of the worked examples. *)
Definition requestCancelledSlot : AppointmentData :=
  mkAppointmentData 1 "2025-07-14" "09:50" (Some 60) (Some "Follow-up"%string)
    (Some "bring notes"%string).

Definition requestWithoutOptions : AppointmentData :=
  mkAppointmentData 1 "2025-07-15" "10:00" (Some 0) None None.

Definition moodRequest1 : MoodData :=
  mkMoodData "Happy" (Integer 8) (Some "good day"%string) "2025-07-11".

Definition moodRequest2 : MoodData := mkMoodData "Anxious" (Integer 3) None "2025-07-11".

(** A request whose intensity is missing, and one whose intensity is
    NaN. *)
Definition moodRequestNoIntensity : MoodData :=
  mkMoodData "Calm" Undefined (Some "no slider"%string) "2025-07-11".

Definition moodRequestNaN : MoodData :=
  mkMoodData "Calm" NaN (Some "no slider"%string) "2025-07-11".

(** ** The rest of the database interface (db.js) *)

(** [delete]: removes the record stored under [key], if there is one. *)
Definition db_delete {T : Type} (st : StoreRef T) (key : Z) : M unit :=
  ensureReady ;;;
  fun w =>
    let s := store_of st w in
    (Returned tt,
     with_store st (mkStore (filter (fun r => negb (has_key st key r)) (rows s)) (nextKey s)) w).

(** ** The rest of AppointmentManager (appointments.js) *)

Definition reschedule_fields (newDate newTime : string) (now : Z) (a : Appointment)
    : Appointment :=
  mkAppointment (apt_id a) (apt_userId a) (apt_therapistId a) newDate newTime
    (apt_duration a) (apt_type a) (apt_status a) (apt_notes a) (apt_createdAt a)
    (apt_cancelledAt a) (apt_completedAt a) (Some now).

Definition complete_fields (now : Z) (a : Appointment) : Appointment :=
  mkAppointment (apt_id a) (apt_userId a) (apt_therapistId a) (apt_date a) (apt_time a)
    (apt_duration a) (apt_type a) completed (apt_notes a) (apt_createdAt a)
    (apt_cancelledAt a) (Some now) (apt_rescheduledAt a).

Definition notes_fields (notes : string) (a : Appointment) : Appointment :=
  mkAppointment (apt_id a) (apt_userId a) (apt_therapistId a) (apt_date a) (apt_time a)
    (apt_duration a) (apt_type a) (apt_status a) notes (apt_createdAt a)
    (apt_cancelledAt a) (apt_completedAt a) (apt_rescheduledAt a).

Definition getAllAppointments (userId : Z) : M (list Appointment) :=
  try_catch
    (appointments <- db_getByIndex appointments_store apt_userId userId ;;
     ret (sort (fun a b => Date_sub (aptDateTime b) (aptDateTime a)) appointments))
    (ret []).

(** [None] is the [undefined] of a missing record, or the [null] of the
    [catch]. *)
Definition getAppointmentById (appointmentId : Z) : M (option Appointment) :=
  try_catch (db_get appointments_store appointmentId) (ret None).

Definition rescheduleAppointment (appointmentId : Z) (newDate newTime : string) : M Result :=
  try_catch
    (appointment <- db_get appointments_store appointmentId ;;
     match appointment with
     | None => ret (failure "Appointment not found")
     | Some appointment =>
         if Status_eqb (apt_status appointment) cancelled then
           ret (failure "Cannot reschedule a cancelled appointment")
         else
           isAvailable <- isSlotAvailable (apt_therapistId appointment) newDate newTime ;;
           if negb isAvailable then
             ret (failure "The new time slot is not available")
           else
             now <- Date_now ;;
             let appointment := reschedule_fields newDate newTime now appointment in
             db_update appointments_store appointment ;;;
             ret {| success := true;
                    message := "Appointment rescheduled successfully";
                    resultId := None |}
     end)
    (ret (failure "Failed to reschedule appointment")).

Definition completeAppointment (appointmentId : Z) : M Result :=
  try_catch
    (appointment <- db_get appointments_store appointmentId ;;
     match appointment with
     | None => ret (failure "Appointment not found")
     | Some appointment =>
         now <- Date_now ;;
         let appointment := complete_fields now appointment in
         db_update appointments_store appointment ;;;
         ret {| success := true;
                message := "Appointment marked as completed";
                resultId := None |}
     end)
    (ret (failure "Failed to complete appointment")).

Definition updateNotes (appointmentId : Z) (notes : string) : M Result :=
  try_catch
    (appointment <- db_get appointments_store appointmentId ;;
     match appointment with
     | None => ret (failure "Appointment not found")
     | Some appointment =>
         let appointment := notes_fields notes appointment in
         db_update appointments_store appointment ;;;
         ret {| success := true;
                message := "Notes updated successfully";
                resultId := None |}
     end)
    (ret (failure "Failed to update notes")).

(** The statistics object; [totalHours] is the string of [toFixed(1)], or
    the number 0 of the [catch]. *)
Record AppointmentStats := mkAppointmentStats {
  stats_total : nat;
  stats_upcoming : nat;
  stats_completed : nat;
  stats_cancelled : nat;
  stats_totalHours : Average
}.

Definition getAppointmentStats (userId : Z) : M AppointmentStats :=
  try_catch
    (appointments <- getAllAppointments userId ;;
     now <- Date_now ;;
     let total := List.length appointments in
     let upcoming :=
       List.length
         (filter (fun apt => Date_gt (aptDateTime apt) (Some now)
                             && Status_eqb (apt_status apt) confirmed)
            appointments) in
     let completed_ :=
       List.length (filter (fun apt => Status_eqb (apt_status apt) completed) appointments) in
     let cancelled_ :=
       List.length (filter (fun apt => Status_eqb (apt_status apt) cancelled) appointments) in
     let totalMinutes :=
       fold_left (fun sum apt => sum + apt_duration apt)
         (filter (fun apt => Status_eqb (apt_status apt) completed) appointments) 0 in
     let totalHours := toFixed1 (Z2float totalMinutes / 60) in
     ret (mkAppointmentStats total upcoming completed_ cancelled_ (AvgString totalHours)))
    (ret (mkAppointmentStats 0 0 0 0 (AvgNumber 0))).

Definition getNextAppointment (userId : Z) : M (option Appointment) :=
  try_catch
    (upcoming <- getUpcomingAppointments userId ;;
     ret (match upcoming with
          | first :: _ => Some first
          | [] => None
          end))
    (ret None).

Definition getAppointmentsWithTherapist (userId therapistId : Z) : M (list Appointment) :=
  try_catch
    (userAppointments <- db_getByIndex appointments_store apt_userId userId ;;
     ret (filter (fun apt => apt_therapistId apt =? therapistId) userAppointments))
    (ret []).

(** ** DateUtils.getWeekRange and getWeekAppointments *)

(** The civil date (year, month, day of the month) of a day number, the
    inverse of [days_from_civil]. *)
Definition civil_from_days (z : Z) : Z * Z * Z :=
  let z := z + 719468 in
  let era := z / 146097 in
  let doe := z - era * 146097 in
  let yoe := (doe - doe / 1460 + doe / 36524 - doe / 146096) / 365 in
  let y := yoe + era * 400 in
  let doy := doe - (365 * yoe + yoe / 4 - yoe / 100) in
  let mp := (5 * doy + 2) / 153 in
  let d := doy - (153 * mp + 2) / 5 + 1 in
  let m := if mp <? 10 then mp + 3 else mp - 9 in
  (if m <=? 2 then y + 1 else y, m, d).

(** [d.getDate()]: the day of the month. *)
Definition Date_getDate (t : Z) : Z :=
  let '(_, _, d) := civil_from_days (t / msPerDay) in d.

(** [d.setDate(date)]: the day [date] of the month of [d], counted on
    into the neighbouring months when [date] is not a day of that month,
    at the time of day of [d]; the new time value. *)
Definition Date_setDate (t : Z) (date : Z) : Z :=
  let '(y, m, _) := civil_from_days (t / msPerDay) in
  (days_from_civil y m 1 + date - 1) * msPerDay + t mod msPerDay.

(** [getWeekRange(date)]: [d] is one object, moved twice. *)
Definition getWeekRange (date : Z) : Z * Z :=
  let d := date in
  let day := Date_getDay d in
  let diff := Date_getDate d - day in
  let d := Date_setDate d diff in
  let start := d in
  let d := Date_setDate d (diff + 6) in
  let end_ := d in
  (start, end_).

(** [a >= b] and [a <= b] on dates. *)
Definition Date_ge (a b : option Z) : bool :=
  match a, b with
  | Some x, Some y => y <=? x
  | _, _ => false
  end.

Definition Date_le (a b : option Z) : bool := Date_ge b a.

Definition getWeekAppointments (userId : Z) : M (list Appointment) :=
  try_catch
    (now <- Date_now ;;
     let '(start, end_) := getWeekRange now in
     allAppointments <- db_getByIndex appointments_store apt_userId userId ;;
     ret (filter (fun apt =>
                    let aptDate := Date_parse (apt_date apt) in
                    Date_ge aptDate (Some start) && Date_le aptDate (Some end_)
                    && negb (Status_eqb (apt_status apt) cancelled))
            allAppointments))
    (ret []).

(** ** The rest of TherapistManager (therapist.js) *)

(** The store has a unique index on the pair (userId, therapistId); the
    test before the [add] keeps the [add] from ever violating it. *)
Definition connectTherapist (userId therapistId : Z) : M Result :=
  try_catch
    (existingConnections <- db_getByIndex userTherapists_store conn_userId userId ;;
     let alreadyConnected :=
       existsb (fun conn => conn_therapistId conn =? therapistId) existingConnections in
     if alreadyConnected then
       ret (failure "You are already connected with this therapist")
     else
       now <- Date_now ;;
       let connection :=
         {| conn_id := None;
            conn_userId := userId;
            conn_therapistId := therapistId;
            conn_connectedDate := now;
            conn_status := active |} in
       db_add userTherapists_store connection ;;;
       ret {| success := true;
              message := "Successfully connected with therapist";
              resultId := None |})
    (ret (failure "Failed to connect with therapist")).

(** A stored connection always has its [id]; [delete] with an [undefined]
    key throws. *)
Definition disconnectTherapist (userId therapistId : Z) : M Result :=
  try_catch
    (connections <- db_getByIndex userTherapists_store conn_userId userId ;;
     let connection := find (fun conn => conn_therapistId conn =? therapistId) connections in
     match connection with
     | None => ret (failure "Connection not found")
     | Some connection =>
         match conn_id connection with
         | Some id => db_delete userTherapists_store id
         | None => throw
         end ;;;
         ret {| success := true;
                message := "Successfully disconnected from therapist";
                resultId := None |}
     end)
    (ret (failure "Failed to disconnect from therapist")).

Definition getTherapistAvailability (fuel : nat) (therapistId : Z) (date : string)
    : M (list string) :=
  try_catch
    (therapist <- db_get therapists_store therapistId ;;
     match therapist with
     | None => ret []
     | Some therapist =>
         let dayOfWeek := getDayOfWeek date in
         if negb (match dayOfWeek with
                  | Some day => includes (th_availability therapist) day
                  | None => false
                  end)
         then ret []
         else
           allAppointments <- db_getByIndex appointments_store apt_therapistId therapistId ;;
           let dateAppointments :=
             filter (fun apt => String.eqb (apt_date apt) date
                                && negb (Status_eqb (apt_status apt) cancelled))
               allAppointments in
           allSlots <- run_loop (generateTimeSlots fuel 9 17 50) ;;
           let bookedTimes := map apt_time dateAppointments in
           let availableSlots := filter (fun slot => negb (includes bookedTimes slot)) allSlots in
           ret availableSlots
     end)
    (ret []).

(** ** The rest of MoodTracker (mood-tracker.js) *)

Definition getMoodHistory (userId : Z) : M (list MoodEntry) :=
  try_catch
    (moods <- db_getByIndex moods_store mood_userId userId ;;
     ret (sort (fun a b => Some (mood_timestamp b - mood_timestamp a)) moods))
    (ret []).

Record MoodStats := mkMoodStats {
  ms_totalEntries : nat;
  ms_currentStreak : Z;
  ms_avgIntensity : Average;
  ms_trend : Trend
}.

Definition getMoodStats (userId : Z) : M MoodStats :=
  try_catch
    (moods <- getMoodHistory userId ;;
     if (List.length moods =? 0)%nat then ret (mkMoodStats 0 0 (AvgNumber 0) stable)
     else
       let avgIntensity := calculateAverage moods in
       now <- Date_now ;;
       let currentStreak := calculateStreak now moods in
       let trend := getMoodTrend moods in
       ret (mkMoodStats (List.length moods) currentStreak avgIntensity trend))
    (ret (mkMoodStats 0 0 (AvgNumber 0) stable)).

(** The [updates] object of [updateMood]; an absent field is [None]. *)
Record MoodUpdates := mkMoodUpdates {
  up_mood : option string;
  up_intensity : JSNumber;
  up_notes : option string
}.

Definition set_mood_mood (name : string) (m : MoodEntry) : MoodEntry :=
  mkMoodEntry (mood_id m) (mood_userId m) name (mood_intensity m) (mood_notes m)
    (mood_date m) (mood_timestamp m) (mood_updatedAt m).

Definition set_mood_intensity (intensity : JSNumber) (m : MoodEntry) : MoodEntry :=
  mkMoodEntry (mood_id m) (mood_userId m) (mood_mood m) intensity (mood_notes m)
    (mood_date m) (mood_timestamp m) (mood_updatedAt m).

Definition set_mood_notes (notes : option string) (m : MoodEntry) : MoodEntry :=
  mkMoodEntry (mood_id m) (mood_userId m) (mood_mood m) (mood_intensity m) notes
    (mood_date m) (mood_timestamp m) (mood_updatedAt m).

Definition set_mood_updatedAt (now : Z) (m : MoodEntry) : MoodEntry :=
  mkMoodEntry (mood_id m) (mood_userId m) (mood_mood m) (mood_intensity m) (mood_notes m)
    (mood_date m) (mood_timestamp m) (Some now).

(** The field checks and assignments of [updateMood] on the fetched
    record, up to the first rejected field: [inl] is the message of the
    early [return].  An intensity is taken as given unless it is
    [undefined]. *)
Definition apply_updates (updates : MoodUpdates) (mood : MoodEntry) : string + MoodEntry :=
  let afterMood :=
    match up_mood updates with
    | Some (String _ _ as name) =>
        match getMoodByName name with
        | Some validMood => inr (set_mood_mood name mood)
        | None => inl "Invalid mood"%string
        end
    | _ => inr mood
    end in
  match afterMood with
  | inl msg => inl msg
  | inr mood =>
      let afterIntensity :=
        match up_intensity updates with
        | Undefined => inr mood
        | intensity =>
            if JSNumber_lt intensity (Integer 1) || JSNumber_lt (Integer 10) intensity
            then inl "Intensity must be between 1 and 10"%string
            else inr (set_mood_intensity intensity mood)
        end in
      match afterIntensity with
      | inl msg => inl msg
      | inr mood =>
          inr (match up_notes updates with
               | Some notes => set_mood_notes (Some notes) mood
               | None => mood
               end)
      end
  end.

Definition updateMood (moodId : Z) (updates : MoodUpdates) : M Result :=
  try_catch
    (mood <- db_get moods_store moodId ;;
     match mood with
     | None => ret (failure "Mood entry not found")
     | Some mood =>
         match apply_updates updates mood with
         | inl msg => ret (failure msg)
         | inr mood =>
             now <- Date_now ;;
             let mood := set_mood_updatedAt now mood in
             db_update moods_store mood ;;;
             ret {| success := true;
                    message := "Mood updated successfully";
                    resultId := None |}
         end
     end)
    (ret (failure "Failed to update mood")).

Definition deleteMood (moodId : Z) : M Result :=
  try_catch
    (mood <- db_get moods_store moodId ;;
     match mood with
     | None => ret (failure "Mood entry not found")
     | Some mood =>
         db_delete moods_store moodId ;;;
         ret {| success := true; message := "Mood entry deleted"; resultId := None |}
     end)
    (ret (failure "Failed to delete mood")).

Definition getMoodById (moodId : Z) : M (option MoodEntry) :=
  try_catch (db_get moods_store moodId) (ret None).

(** [s.replace(/,/g, ';')]. *)
Fixpoint replace_commas (s : string) : string :=
  match s with
  | EmptyString => EmptyString
  | String c rest =>
      String (if Ascii.eqb c ","%char then ";"%char else c) (replace_commas rest)
  end.

(** [a.join(sep)] on an array of strings. *)
Fixpoint join (sep : string) (l : list string) : string :=
  match l with
  | [] => EmptyString
  | [x] => x
  | x :: l' => (x ++ sep ++ join sep l')%string
  end.

Definition newline : string := String (ascii_of_nat 10) EmptyString.

(** One row of the export; [m.notes.replace] throws a TypeError when the
    notes are [undefined]. *)
Definition export_row (m : MoodEntry) : option (list string) :=
  match mood_notes m with
  | Some notes =>
      Some [mood_date m; mood_mood m; JSNumber_joined (mood_intensity m);
            replace_commas notes]
  | None => None
  end.

Fixpoint export_rows (moods : list MoodEntry) : option (list (list string)) :=
  match moods with
  | [] => Some []
  | m :: rest =>
      match export_row m with
      | Some row =>
          match export_rows rest with
          | Some rows => Some (row :: rows)
          | None => None
          end
      | None => None
      end
  end.

Record ExportResult := mkExportResult {
  ex_success : bool;
  ex_data : option string;
  ex_format : option string;
  ex_message : option string
}.

Definition csvHeader : list string := ["Date"; "Mood"; "Intensity"; "Notes"]%string.

Definition exportMoodData (userId : Z) : M ExportResult :=
  try_catch
    (moods <- getMoodHistory userId ;;
     match export_rows moods with
     | None => throw
     | Some rows =>
         let csv := join newline (map (join ",") (csvHeader :: rows)) in
         ret (mkExportResult true (Some csv) (Some "csv"%string) None)
     end)
    (ret (mkExportResult false None None (Some "Failed to export data"%string))).

(** ** AuthUtils.hashPassword (utils.js) *)

(** The conversion to a signed 32-bit integer that the bit operators
    apply. *)
Definition ToInt32 (z : Z) : Z := (z + 2 ^ 31) mod 2 ^ 32 - 2 ^ 31.

(** [s.charCodeAt(i)], for a string of code units below 256. *)
Definition charCode (c : ascii) : Z := Z.of_nat (nat_of_ascii c).

Fixpoint hashPassword_loop (password : string) (hash : Z) : Z :=
  match password with
  | EmptyString => hash
  | String c rest =>
      let char := charCode c in
      let hash := (ToInt32 (ToInt32 hash * 2 ^ 5) - hash) + char in
      let hash := ToInt32 hash in
      hashPassword_loop rest hash
  end.

Definition hashPassword (password : string) : string :=
  toString (hashPassword_loop password 0).

(** ** Further notions used to state the properties *)

(** No two appointments of one therapist that are not cancelled share a
    date and time. *)
Definition noDoubleBooking (w : World) : Prop :=
  forall a b,
    In a (rows (appointments w)) -> In b (rows (appointments w)) ->
    apt_therapistId a = apt_therapistId b ->
    apt_date a = apt_date b -> apt_time a = apt_time b ->
    apt_status a <> cancelled -> apt_status b <> cancelled ->
    a = b.

(** The start instant of an appointment, zero when its date is invalid. *)
Definition aptTime (a : Appointment) : Z :=
  match aptDateTime a with
  | Some t => t
  | None => 0
  end.

(** The user has some connection record to the therapist, whatever its
    status. *)
Definition connectionRecord (w : World) (userId therapistId : Z) : Prop :=
  exists c, In c (rows (userTherapists w))
            /\ conn_userId c = userId /\ conn_therapistId c = therapistId.

(** At most one connection record per user and therapist (what the unique
    index of the store demands). *)
Definition oneConnectionPerPair (w : World) : Prop :=
  forall a b,
    In a (rows (userTherapists w)) -> In b (rows (userTherapists w)) ->
    conn_userId a = conn_userId b -> conn_therapistId a = conn_therapistId b ->
    a = b.

Definition withConnections (w : World) (s : ObjectStore Connection) : World :=
  mkWorld (available w) (clock w) (therapists w) s (appointments w) (moods w).

(** The connection record that [connectTherapist] stores. *)
Definition newConnection (w : World) (userId therapistId : Z) : Connection :=
  mkConnection (Some (nextKey (userTherapists w))) userId therapistId (clock w) active.

Definition moodById (w : World) (id : Z) : option MoodEntry :=
  find (has_key moods_store id) (rows (moods w)).

Definition moodsOfUser (w : World) (userId : Z) : list MoodEntry :=
  filter (fun r => mood_userId r =? userId) (rows (moods w)).

(** The mood of an entry is a known category; its intensity is an integer
    from 1 to 10. *)
Definition knownMood (m : MoodEntry) : Prop :=
  exists c, In c moodCategories /\ cat_name c = mood_mood m.

Definition validEntry (m : MoodEntry) : Prop :=
  knownMood m /\ exists i, mood_intensity m = Integer i /\ 1 <= i <= 10.

Definition allMoodsKnown (w : World) : Prop :=
  forall m, In m (rows (moods w)) -> knownMood m.

Definition allEntriesValid (w : World) : Prop :=
  forall m, In m (rows (moods w)) -> validEntry m.

(** The updates pass the validation of [updateMood]: a mood that is given
    and not the empty string is a known category, and the intensity is not
    an integer below 1 or above 10 (NaN passes). *)
Definition acceptableUpdates (updates : MoodUpdates) : Prop :=
  match up_mood updates with
  | Some (String _ _ as name) => exists c, In c moodCategories /\ cat_name c = name
  | _ => True
  end
  /\ match up_intensity updates with
     | Integer i => 1 <= i <= 10
     | NaN | Undefined => True
     end.

(** The entry after the given fields have been overwritten, and after the
    update has been stamped as well. *)
Definition overwrittenFields (updates : MoodUpdates) (m : MoodEntry) : MoodEntry :=
  mkMoodEntry (mood_id m) (mood_userId m)
    (match up_mood updates with
     | Some (String _ _ as name) => name
     | _ => mood_mood m
     end)
    (match up_intensity updates with
     | Undefined => mood_intensity m
     | intensity => intensity
     end)
    (match up_notes updates with
     | Some n => Some n
     | None => mood_notes m
     end)
    (mood_date m) (mood_timestamp m) (mood_updatedAt m).

Definition updatedEntry (updates : MoodUpdates) (now : Z) (m : MoodEntry) : MoodEntry :=
  set_mood_updatedAt now (overwrittenFields updates m).

(** The rows of the export, for entries that all have notes. *)
Definition exportLine (m : MoodEntry) : list string :=
  [mood_date m; mood_mood m; JSNumber_joined (mood_intensity m);
   replace_commas (match mood_notes m with Some n => n | None => EmptyString end)].

(** The polynomial that [hashPassword] evaluates, before wrapping. *)
Fixpoint polynomial31 (password : string) (acc : Z) : Z :=
  match password with
  | EmptyString => acc
  | String c rest => polynomial31 rest (31 * acc + charCode c)
  end.

(** The label of minute [k] of the day has five characters and reads back
    as that minute. *)
Definition slotLabelCheck (minute : Z) : bool :=
  match parse_time_part (formatSlot minute) with
  | Some t => (t =? minute * 60000) && (String.length (formatSlot minute) =? 5)%nat
  | None => false
  end.

Fixpoint slotLabelCheck_from (n : nat) (minute : Z) : bool :=
  match n with
  | O => true
  | S n' => slotLabelCheck minute && slotLabelCheck_from n' (minute + 1)
  end.

(** A day number and a time of day as one time value. *)
Definition atDay (day timeOfDay : Z) : Z := day * msPerDay + timeOfDay.

(** [getWeekRange] in day numbers. *)
Definition weekRangeDays (day : Z) : Z * Z :=
  let '(y, m, d) := civil_from_days day in
  let weekday := (day + 4) mod 7 in
  let diff := d - weekday in
  let startDay := days_from_civil y m 1 + diff - 1 in
  let '(y', m', _) := civil_from_days startDay in
  (startDay, days_from_civil y' m' 1 + (diff + 6) - 1).

(** What [getWeekRange] should give and gives when the Sunday of the week
    lies in the month of the date; otherwise the end lies before the
    start. *)
Definition weekRangeCheck (day : Z) : bool :=
  let '(_, _, d) := civil_from_days day in
  let weekday := (day + 4) mod 7 in
  let '(startDay, endDay) := weekRangeDays day in
  if weekday <? d
  then (startDay =? day - weekday) && (endDay =? startDay + 6)
  else (startDay =? day - weekday) && (endDay <? startDay).

(** The check for [n] successive days from [day] on. *)
Fixpoint weekRangeCheck_from (n : nat) (day : Z) : bool :=
  match n with
  | O => true
  | S n' => weekRangeCheck day && weekRangeCheck_from n' (day + 1)
  end.

(** Day numbers of 2000-01-01 and 2100-01-01. *)
Definition day2000 : Z := 10957.
Definition day2100 : Z := 47482.

(** ** Further data of the worked examples *)

(** Wednesday 2025-07-02, 10:30: the Sunday of this week is in June.  The
    user has one more confirmed appointment, on Thursday of this week. *)
Definition appointment5 : Appointment :=
  mkAppointment (Some 5) 1 1 "2025-07-03" "10:00" 50 "Regular Session" confirmed ""
    1751000000000 None None None.

Definition earlyJulyWorld : World :=
  mkWorld true 1751452200000 (therapists exampleWorld) (userTherapists exampleWorld)
    (mkStore [appointment1; appointment2; appointment3; appointment4; appointment5] 6)
    (moods exampleWorld).

(** Fourteen daily entries of user 1, at noon from 2025-07-01 on: seven at
    intensity 4, then seven at intensity 8.  It is 2025-07-14, 12:00. *)
Definition risingMoods : list MoodEntry :=
  map (fun k => mkMoodEntry (Some (Z.of_nat k)) 1 "Calm"
                  (Integer (if (k <=? 7)%nat then 4 else 8))
                  (Some EmptyString) (nth (k - 1) fortnight EmptyString)
                  (1751371200000 + Z.of_nat (k - 1) * msPerDay) None)
    (seq 1 14).

Definition risingWorld : World :=
  mkWorld true 1752494400000 (therapists exampleWorld) (userTherapists exampleWorld)
    (appointments exampleWorld) (mkStore risingMoods 15).

(** Updates of the worked examples: a new mood and intensity, and an
    intensity that is NaN. *)
Definition moodUpdateValid : MoodUpdates :=
  mkMoodUpdates (Some "Happy"%string) (Integer 9) None.

Definition moodUpdateNaN : MoodUpdates := mkMoodUpdates None NaN None.

(** A request for the date of [mood2] that carries no notes. *)
Definition moodRequestNoNotes : MoodData := mkMoodData "Calm" (Integer 5) None "2025-07-10".

(** A request to see therapist 2 at the time of the appointment with
    therapist 1. *)
Definition requestOtherTherapist : AppointmentData :=
  mkAppointmentData 2 "2025-07-14" "09:00" (Some 50) None None.

Definition twoTherapistsWorld : World :=
  mkWorld true (clock exampleWorld) (therapists exampleWorld)
    (mkStore [mkConnection (Some 1) 1 1 1751800000000 active;
              mkConnection (Some 2) 1 2 1751800000000 active] 3)
    (appointments exampleWorld) (moods exampleWorld).

(** * Properties *)

(** [tauto] and [intuition] read the parameter [startOfDay : Z -> Z] as an
    implication among the hypotheses; it is put aside where the goal does
    not mention it. *)
Ltac tauto' := try clear startOfDay; tauto.
Tactic Notation "intuition'" tactic(t) := try clear startOfDay; intuition t.

(** ** The monad of operations *)

Lemma bind_returned {A B : Type} (m : M A) (k : A -> M B) (w w' : World) (a : A) :
  m w = (Returned a, w') -> bind m k w = k a w'.
Proof. intro H. unfold bind. now rewrite H. Qed.

Lemma ensureReady_available (w : World) :
  available w = true -> ensureReady w = (Returned tt, w).
Proof. intro H. unfold ensureReady. now rewrite H. Qed.

Lemma ensureReady_unavailable (w : World) :
  available w = false -> ensureReady w = (Thrown, w).
Proof. intro H. unfold ensureReady. now rewrite H. Qed.

Lemma db_getByIndex_available {T : Type} (st : StoreRef T) (field : T -> Z) (v : Z) (w : World) :
  available w = true ->
  db_getByIndex st field v w =
    (Returned (filter (fun r => field r =? v) (rows (store_of st w))), w).
Proof.
  intro H. unfold db_getByIndex.
  now rewrite (bind_returned _ _ w w tt (ensureReady_available w H)).
Qed.

Lemma db_getByIndex_unavailable {T : Type} (st : StoreRef T) (field : T -> Z) (v : Z) (w : World) :
  available w = false -> db_getByIndex st field v w = (Thrown, w).
Proof.
  intro H. unfold db_getByIndex, bind. now rewrite (ensureReady_unavailable w H).
Qed.

Lemma db_get_available {T : Type} (st : StoreRef T) (key : Z) (w : World) :
  available w = true ->
  db_get st key w = (Returned (find (has_key st key) (rows (store_of st w))), w).
Proof.
  intro H. unfold db_get.
  now rewrite (bind_returned _ _ w w tt (ensureReady_available w H)).
Qed.

Lemma db_get_unavailable {T : Type} (st : StoreRef T) (key : Z) (w : World) :
  available w = false -> db_get st key w = (Thrown, w).
Proof.
  intro H. unfold db_get, bind. now rewrite (ensureReady_unavailable w H).
Qed.

(** ** The time-slot generator *)

Lemma formatSlot_on_the_hour (h : Z) :
  formatSlot (h * 60) = (padStart 2 "0" (toString h) ++ ":00")%string.
Proof.
  unfold formatSlot.
  rewrite Z.div_mul by lia.
  rewrite Z.rem_mul by lia.
  reflexivity.
Qed.

Lemma generateTimeSlots_loop_run (n : nat) :
  forall fuel cur endT d acc,
    0 < d ->
    Z.of_nat n = Z.max 0 ((endT - cur) / d) ->
    (n < fuel)%nat ->
    generateTimeSlots_loop fuel cur endT d acc =
      Some (acc ++ map (fun k => formatSlot (cur + Z.of_nat k * d)) (seq 0 n)).
Proof.
  induction n as [|n IH]; intros fuel cur endT d acc Hd Hn Hfuel.
  - destruct fuel as [|fuel]; [lia|]. simpl.
    assert ((endT - cur) / d <= 0) by lia.
    assert (endT - cur < d).
    { destruct (Z_lt_le_dec (endT - cur) d) as [|Hge]; [assumption|].
      assert (1 <= (endT - cur) / d) by (apply Z.div_le_lower_bound; lia). lia. }
    destruct (Z.leb_spec (cur + d) endT); [lia|].
    now rewrite app_nil_r.
  - destruct fuel as [|fuel]; [lia|]. simpl.
    assert (Hq : (endT - cur) / d = Z.of_nat (S n)) by lia.
    assert (d <= endT - cur).
    { destruct (Z_lt_le_dec (endT - cur) d) as [Hlt|]; [|assumption].
      destruct (Z_lt_le_dec (endT - cur) 0).
      - assert ((endT - cur) / d < 0) by (apply Z.div_lt_upper_bound; lia). lia.
      - rewrite Z.div_small in Hq by lia. lia. }
    destruct (Z.leb_spec (cur + d) endT); [|lia].
    rewrite (IH fuel (cur + d) endT d (acc ++ [formatSlot cur])); try lia.
    + rewrite <- app_assoc. f_equal. f_equal. simpl.
      rewrite Z.add_0_r. f_equal.
      rewrite <- seq_shift, map_map.
      apply map_ext; intro k. f_equal. lia.
    + replace (endT - (cur + d)) with ((endT - cur) + (-1) * d) by lia.
      rewrite Z.div_add by lia. lia.
Qed.

Lemma generateTimeSlots_loop_diverges (fuel : nat) :
  forall cur endT d acc,
    d <= 0 -> cur + d <= endT ->
    generateTimeSlots_loop fuel cur endT d acc = None.
Proof.
  induction fuel as [|fuel IH]; intros cur endT d acc Hd Hle; simpl.
  - reflexivity.
  - destruct (Z.leb_spec (cur + d) endT); [|lia].
    apply IH; lia.
Qed.

Lemma generateTimeSlots_enough_fuel (startHour endHour duration : Z) (fuel : nat) :
  0 < duration ->
  (slotCount startHour endHour duration < fuel)%nat ->
  generateTimeSlots fuel startHour endHour duration =
    Some (map (fun k => formatSlot (startHour * 60 + Z.of_nat k * duration))
            (seq 0 (slotCount startHour endHour duration))).
Proof.
  intros Hd Hfuel. unfold generateTimeSlots.
  rewrite (generateTimeSlots_loop_run (slotCount startHour endHour duration)); auto.
  unfold slotCount. lia.
Qed.

Lemma slotCount_fits (startHour endHour duration : Z) (k : nat) :
  0 < duration ->
  (k < slotCount startHour endHour duration)%nat <->
  startHour * 60 + (Z.of_nat k + 1) * duration <= endHour * 60.
Proof.
  intro Hd. unfold slotCount.
  set (span := endHour * 60 - startHour * 60).
  split; intro H.
  - assert (Z.of_nat k + 1 <= span / duration) by lia.
    assert (duration * (span / duration) <= span)
      by (apply Z.mul_div_le; lia).
    nia.
  - assert ((Z.of_nat k + 1) <= span / duration).
    { apply Z.div_le_lower_bound; [lia|]. unfold span. lia. }
    lia.
Qed.

(** C5 (as amended).  For every start hour, end hour and POSITIVE duration,
    [generateTimeSlots] returns, as soon as it is given fuel for its
    [slotCount + 1] loop tests: the labels of the minutes [startHour*60],
    [startHour*60 + duration], ... in this order; slot number [k] is emitted
    exactly when its end [startHour*60 + (k+1)*duration] is at or before
    [endHour*60]; the first label is [startHour:00]; for the 9-17 window
    and a duration that divides its 480 minutes the number of slots is
    [(17-9)*60/duration]; and there is no slot when the duration exceeds the
    window. *)
Theorem generateTimeSlots_positive_duration :
  forall startHour endHour duration : Z,
    0 < duration ->
    let n := slotCount startHour endHour duration in
    (forall fuel, (n < fuel)%nat ->
       generateTimeSlots fuel startHour endHour duration =
         Some (map (fun k => formatSlot (startHour * 60 + Z.of_nat k * duration)) (seq 0 n)))
    /\ (forall k : nat,
          (k < n)%nat <-> startHour * 60 + (Z.of_nat k + 1) * duration <= endHour * 60)
    /\ formatSlot (startHour * 60 + Z.of_nat 0 * duration)
       = (padStart 2 "0" (toString startHour) ++ ":00")%string
    /\ ((duration | (17 - 9) * 60) ->
        forall fuel, (slotCount 9 17 duration < fuel)%nat ->
          exists slots, generateTimeSlots fuel 9 17 duration = Some slots
                        /\ Z.of_nat (List.length slots) = (17 - 9) * 60 / duration
                        /\ Z.of_nat (List.length slots) * duration = (17 - 9) * 60)
    /\ ((endHour - startHour) * 60 < duration ->
        forall fuel, (0 < fuel)%nat ->
          generateTimeSlots fuel startHour endHour duration = Some []).
Proof.
  intros startHour endHour duration Hd n.
  split; [|split; [|split; [|split]]].
  - intros fuel Hfuel. now apply generateTimeSlots_enough_fuel.
  - intro k. now apply slotCount_fits.
  - rewrite Z.mul_0_l, Z.add_0_r. apply formatSlot_on_the_hour.
  - intros [q Hq] fuel Hfuel.
    eexists. split; [now apply generateTimeSlots_enough_fuel|].
    rewrite length_map, length_seq. unfold slotCount.
    replace (17 * 60 - 9 * 60) with ((17 - 9) * 60) by lia.
    rewrite Hq, Z.div_mul by lia.
    assert (0 <= q) by nia.
    split; lia.
  - intros Hbig fuel Hfuel.
    assert (Hn : n = 0%nat).
    { unfold n, slotCount.
      destruct (Z_lt_le_dec (endHour * 60 - startHour * 60) 0).
      - assert ((endHour * 60 - startHour * 60) / duration < 0)
          by (apply Z.div_lt_upper_bound; lia).
        lia.
      - rewrite Z.div_small by lia. reflexivity. }
    rewrite generateTimeSlots_enough_fuel by (fold n; lia).
    fold n. now rewrite Hn.
Qed.

(** ** The mood trend *)

Lemma slice_last_seven {A : Type} (l : list A) :
  slice l (-7) None = skipn (List.length l - 7) l.
Proof.
  unfold slice.
  change (-7 <? 0) with true. cbv iota.
  set (len := Z.of_nat (List.length l)).
  replace (Z.to_nat (Z.max (len + -7) 0)) with (List.length l - 7)%nat by lia.
  apply firstn_all2.
  rewrite length_skipn. lia.
Qed.

Lemma slice_previous_seven {A : Type} (l : list A) :
  slice l (-14) (Some (-7)) =
    firstn (Nat.min 7 (List.length l - 7)) (skipn (List.length l - 14) l).
Proof.
  unfold slice.
  change (-14 <? 0) with true. change (-7 <? 0) with true. cbv iota.
  set (len := Z.of_nat (List.length l)).
  replace (Z.to_nat (Z.max (len + -14) 0)) with (List.length l - 14)%nat by lia.
  f_equal. lia.
Qed.

Lemma olderWindow_length (moods : list MoodEntry) :
  List.length (olderWindow moods) = Nat.min 7 (List.length moods - 7).
Proof.
  unfold olderWindow. rewrite length_firstn, length_skipn. lia.
Qed.

Lemma olderWindow_empty_iff (moods : list MoodEntry) :
  olderWindow moods = [] <-> (List.length moods <= 7)%nat.
Proof.
  rewrite <- length_zero_iff_nil, olderWindow_length. lia.
Qed.

Lemma calculateAverage_nonempty (window : list MoodEntry) :
  window <> [] -> ToNumber (calculateAverage window) = roundedMean window.
Proof.
  intro H. unfold calculateAverage, roundedMean.
  destruct window as [|m window]; [contradiction|]. reflexivity.
Qed.

Lemma getMoodTrend_short (moods : list MoodEntry) :
  (List.length moods <= 7)%nat -> getMoodTrend moods = stable.
Proof.
  intro H. unfold getMoodTrend.
  destruct (Nat.ltb_spec (List.length moods) 2); [reflexivity|].
  rewrite slice_previous_seven.
  fold (olderWindow moods).
  rewrite olderWindow_length.
  replace (Nat.min 7 (List.length moods - 7)) with 0%nat by lia.
  reflexivity.
Qed.

Lemma getMoodTrend_long (moods : list MoodEntry) :
  (7 < List.length moods)%nat ->
  getMoodTrend moods =
    classifyDifference (roundedMean (recentWindow moods) - roundedMean (olderWindow moods)).
Proof.
  intro H. unfold getMoodTrend.
  destruct (Nat.ltb_spec (List.length moods) 2); [lia|].
  rewrite slice_previous_seven, slice_last_seven.
  fold (olderWindow moods). fold (recentWindow moods).
  rewrite olderWindow_length.
  destruct (Nat.eqb_spec (Nat.min 7 (List.length moods - 7)) 0); [lia|].
  rewrite !calculateAverage_nonempty.
  - reflexivity.
  - rewrite <- length_zero_iff_nil, olderWindow_length. lia.
  - rewrite <- length_zero_iff_nil. unfold recentWindow. rewrite length_skipn. lia.
Qed.

Lemma NumericString_eqb_eq (a b : NumericString) :
  NumericString_eqb a b = true -> a = b.
Proof.
  destruct a as [na ta|x], b as [nb tb|y]; simpl; try discriminate.
  intro H. apply andb_true_iff in H as [Hn Ht].
  apply Bool.eqb_prop in Hn. apply Z.eqb_eq in Ht. now subst.
Qed.

(** Checked by evaluation for every window of one to seven entries with
    intensities between 1 and 10. *)
Lemma meanCheck_all :
  forallb (fun n => forallb (meanCheck n) (seq n (9 * n + 1))) (seq 1 7) = true.
Proof. vm_compute. reflexivity. Qed.

Lemma toFixed1_of_small_mean (sum n : Z) :
  1 <= n <= 7 -> n <= sum <= 10 * n ->
  toFixed1 (Z2float sum / Z2float n) = Fixed1 false (roundTenths sum n).
Proof.
  intros Hn Hs.
  pose proof meanCheck_all as Hall.
  rewrite forallb_forall in Hall.
  assert (Hin : In (Z.to_nat n) (seq 1 7)) by (apply in_seq; lia).
  specialize (Hall (Z.to_nat n) Hin).
  rewrite forallb_forall in Hall.
  assert (Hin' : In (Z.to_nat sum) (seq (Z.to_nat n) (9 * Z.to_nat n + 1)))
    by (apply in_seq; lia).
  specialize (Hall (Z.to_nat sum) Hin').
  unfold meanCheck in Hall. rewrite !Z2Nat.id in Hall by lia.
  now apply NumericString_eqb_eq.
Qed.

Lemma fold_intensity_integer (l : list MoodEntry) :
  (forall m, In m l -> exists i, mood_intensity m = Integer i) ->
  forall acc,
    fold_left (fun acc mood => JSNumber_add acc (mood_intensity mood)) l (Integer acc)
    = Integer (fold_left (fun acc mood => acc + match mood_intensity mood with
                                                | Integer i => i
                                                | NaN | Undefined => 0
                                                end) l acc).
Proof.
  induction l as [|m l IH]; intros H acc; [reflexivity|].
  cbn [fold_left].
  destruct (H m (or_introl eq_refl)) as [i Hi]. rewrite Hi. cbn [JSNumber_add].
  apply IH. intros x Hx. apply H. now right.
Qed.

Lemma sumIntensity_integer (l : list MoodEntry) :
  (forall m, In m l -> exists i, mood_intensity m = Integer i) ->
  sumIntensity l = Integer (intensityTotal l).
Proof.
  intro H. exact (fold_intensity_integer l H 0).
Qed.

Lemma fold_intensity_bounds (l : list MoodEntry) :
  (forall m, In m l -> exists i, mood_intensity m = Integer i /\ 1 <= i <= 10) ->
  forall acc,
    acc + Z.of_nat (List.length l)
    <= fold_left (fun acc mood => acc + match mood_intensity mood with
                                        | Integer i => i
                                        | NaN | Undefined => 0
                                        end) l acc
    <= acc + 10 * Z.of_nat (List.length l).
Proof.
  induction l as [|m l IH]; intros H acc.
  - simpl. lia.
  - cbn [fold_left List.length].
    destruct (H m (or_introl eq_refl)) as [i [Hi Hm]]. rewrite Hi.
    assert (Hl : forall x, In x l -> exists i, mood_intensity x = Integer i /\ 1 <= i <= 10)
      by (intros x Hx; apply H; now right).
    specialize (IH Hl (acc + i)). lia.
Qed.

Lemma roundedMean_of_window (window : list MoodEntry) :
  window <> [] -> (List.length window <= 7)%nat ->
  (forall m, In m window -> exists i, mood_intensity m = Integer i /\ 1 <= i <= 10) ->
  roundedMean window =
    nearest_float (roundTenths (intensityTotal window) (Z.of_nat (List.length window))) 10.
Proof.
  intros Hne Hlen Hint. unfold roundedMean.
  rewrite sumIntensity_integer.
  2:{ intros m Hm. destruct (Hint m Hm) as [i [Hi _]]. now exists i. }
  cbn [JSNumber_toFloat].
  rewrite toFixed1_of_small_mean; [reflexivity| |].
  - destruct window; [contradiction|]. cbn [List.length] in *. lia.
  - pose proof (fold_intensity_bounds window Hint 0) as H.
    unfold intensityTotal. lia.
Qed.

Lemma In_recentWindow (moods : list MoodEntry) (m : MoodEntry) :
  In m (recentWindow moods) -> In m moods.
Proof.
  unfold recentWindow. intro H.
  rewrite <- (firstn_skipn (List.length moods - 7) moods).
  apply in_or_app. now right.
Qed.

Lemma In_olderWindow (moods : list MoodEntry) (m : MoodEntry) :
  In m (olderWindow moods) -> In m moods.
Proof.
  unfold olderWindow. intro H.
  rewrite <- (firstn_skipn (List.length moods - 14) moods).
  apply in_or_app. right.
  rewrite <- (firstn_skipn (Nat.min 7 (List.length moods - 7))
                (skipn (List.length moods - 14) moods)).
  apply in_or_app. now left.
Qed.

(** C2 (as amended).  For every list of mood entries the trend is [stable]
    when the list has fewer than two entries or the preceding window is
    empty, which is the case exactly when there are at most seven entries.
    Otherwise the last seven entries are compared with the up to seven
    entries before them: the mean intensity of each window is first rounded
    to one decimal place (the [toFixed(1)] of [calculateAverage]) and read
    back as a binary64 number, the two numbers are subtracted in binary64,
    and the trend is [improving] when that binary64 difference is above
    0.5, [declining] when it is below -0.5, and [stable] otherwise.  For
    integer intensities between 1 and 10 the rounded mean of a window is
    the binary64 number nearest to the exact mean rounded half up to
    tenths.  Since the subtraction rounds, two rounded means that are five
    tenths apart as decimals fall on either side: 2.1 - 1.6 is [stable],
    4.4 - 3.9 is [improving].  Seven entries at intensity 8 that follow
    seven entries at intensity 4 are [improving]. *)
Theorem getMoodTrend_compares_rounded_means :
  forall moods : list MoodEntry,
    ((List.length moods < 2)%nat -> getMoodTrend moods = stable)
    /\ (olderWindow moods = [] <-> (List.length moods <= 7)%nat)
    /\ (olderWindow moods = [] -> getMoodTrend moods = stable)
    /\ ((7 < List.length moods)%nat ->
        let diff := (roundedMean (recentWindow moods) - roundedMean (olderWindow moods))%float in
        getMoodTrend moods =
          if (0.5 <? diff)%float then improving
          else if (diff <? -0.5)%float then declining
          else stable)
    /\ ((7 < List.length moods)%nat ->
        (forall m, In m moods -> exists i, mood_intensity m = Integer i /\ 1 <= i <= 10) ->
        roundedMean (recentWindow moods)
        = nearest_float (roundTenths (intensityTotal (recentWindow moods)) 7) 10
        /\ roundedMean (olderWindow moods)
           = nearest_float
               (roundTenths (intensityTotal (olderWindow moods))
                  (Z.of_nat (List.length (olderWindow moods)))) 10)
    /\ getMoodTrend moods_4_then_8 = improving
    /\ (roundTenths (intensityTotal (recentWindow moods_11_then_15)) 7 = 21
        /\ roundTenths (intensityTotal (olderWindow moods_11_then_15)) 7 = 16
        /\ getMoodTrend moods_11_then_15 = stable)
    /\ (roundTenths (intensityTotal (recentWindow moods_27_then_31)) 7 = 44
        /\ roundTenths (intensityTotal (olderWindow moods_27_then_31)) 7 = 39
        /\ getMoodTrend moods_27_then_31 = improving).
Proof.
  intro moods.
  split; [|split; [|split; [|split; [|split; [|split; [|split]]]]]].
  - intro H. apply getMoodTrend_short. lia.
  - apply olderWindow_empty_iff.
  - intro H. apply getMoodTrend_short. now apply olderWindow_empty_iff.
  - intro H. cbv zeta. now rewrite getMoodTrend_long.
  - intros Hlen Hint.
    assert (Hrecent : List.length (recentWindow moods) = 7%nat).
    { unfold recentWindow. rewrite length_skipn. lia. }
    pose proof (olderWindow_length moods) as Holder.
    split.
    + rewrite roundedMean_of_window.
      * now rewrite Hrecent.
      * rewrite <- length_zero_iff_nil. lia.
      * lia.
      * intros m Hm. apply Hint. now apply In_recentWindow.
    + apply roundedMean_of_window.
      * rewrite <- length_zero_iff_nil. lia.
      * lia.
      * intros m Hm. apply Hint. now apply In_olderWindow.
  - vm_compute. reflexivity.
  - repeat split; vm_compute; reflexivity.
  - repeat split; vm_compute; reflexivity.
Qed.

(** ** Booking *)

Lemma Status_eqb_eq (a b : Status) : Status_eqb a b = true <-> a = b.
Proof. destruct a, b; simpl; split; congruence. Qed.

Lemma Status_eqb_neq (a b : Status) : Status_eqb a b = false <-> a <> b.
Proof. destruct a, b; simpl; split; congruence. Qed.

Lemma ConnectionStatus_eqb_eq (a b : ConnectionStatus) :
  ConnectionStatus_eqb a b = true <-> a = b.
Proof. destruct a, b; simpl; split; congruence. Qed.

Lemma isConnected_run (w : World) (userId therapistId : Z) :
  TherapistManager_isConnected userId therapistId w =
    (Returned (available w
               && existsb (fun conn => (conn_therapistId conn =? therapistId)
                                       && ConnectionStatus_eqb (conn_status conn) active)
                    (filter (fun r => conn_userId r =? userId) (rows (userTherapists w)))),
     w).
Proof.
  unfold TherapistManager_isConnected, try_catch, bind.
  destruct (available w) eqn:Hav.
  - now rewrite db_getByIndex_available.
  - now rewrite db_getByIndex_unavailable.
Qed.

Lemma isConnected_true_iff (w : World) (userId therapistId : Z) :
  fst (TherapistManager_isConnected userId therapistId w) = Returned true
  <-> activeConnection w userId therapistId.
Proof.
  rewrite isConnected_run. simpl. unfold activeConnection.
  split.
  - intro H. injection H as H.
    apply andb_true_iff in H as [Hav H]. split; [assumption|].
    apply existsb_exists in H as [c [Hin Hc]].
    apply filter_In in Hin as [Hin Hu].
    apply andb_true_iff in Hc as [Ht Hs].
    exists c. repeat split; try assumption; try lia.
    now apply ConnectionStatus_eqb_eq.
  - intros [Hav [c [Hin [Hu [Ht Hs]]]]].
    f_equal. apply andb_true_iff. split; [assumption|].
    apply existsb_exists. exists c. split.
    + apply filter_In. split; [assumption|lia].
    + apply andb_true_iff. split; [lia|]. now apply ConnectionStatus_eqb_eq.
Qed.

Lemma isConnected_false_iff (w : World) (userId therapistId : Z) :
  TherapistManager_isConnected userId therapistId w = (Returned false, w)
  <-> ~ activeConnection w userId therapistId.
Proof.
  rewrite <- isConnected_true_iff, isConnected_run. simpl.
  destruct (_ && _); split; intro H; congruence.
Qed.

Lemma isSlotAvailable_run (w : World) (therapistId : Z) (date time : string) :
  isSlotAvailable therapistId date time w =
    (Returned (available w
               && negb (existsb (slotConflict date time)
                          (filter (fun r => apt_therapistId r =? therapistId)
                             (rows (appointments w))))),
     w).
Proof.
  unfold isSlotAvailable, try_catch, bind.
  destruct (available w) eqn:Hav.
  - rewrite db_getByIndex_available by assumption. unfold ret. simpl.
    f_equal. f_equal.
    fold (slotConflict date time).
    set (l := filter _ _).
    destruct (find (slotConflict date time) l) as [a|] eqn:Hfind.
    + apply find_some in Hfind as [Hin Ha].
      symmetry. apply negb_false_iff. apply existsb_exists. now exists a.
    + symmetry. apply negb_true_iff.
      destruct (existsb (slotConflict date time) l) eqn:Hex; [|reflexivity].
      apply existsb_exists in Hex as [a [Hin Ha]].
      now rewrite (find_none _ _ Hfind a Hin) in Ha.
  - now rewrite db_getByIndex_unavailable.
Qed.

Lemma slotConflict_exists_iff (w : World) (therapistId : Z) (date time : string) :
  existsb (slotConflict date time)
    (filter (fun r => apt_therapistId r =? therapistId) (rows (appointments w))) = true
  <-> slotTaken w therapistId date time.
Proof.
  unfold slotTaken, slotConflict. rewrite existsb_exists.
  split.
  - intros [a [Hin Ha]].
    apply filter_In in Hin as [Hin Ht].
    apply andb_true_iff in Ha as [Ha Hs].
    apply andb_true_iff in Ha as [Hd Htm].
    exists a. repeat split; try assumption.
    + lia.
    + now apply String.eqb_eq.
    + now apply String.eqb_eq.
    + apply Status_eqb_neq. now apply negb_true_iff.
  - intros [a [Hin [Ht [Hd [Htm Hs]]]]].
    exists a. split.
    + apply filter_In. split; [assumption|lia].
    + rewrite !andb_true_iff. repeat split.
      * now apply String.eqb_eq.
      * now apply String.eqb_eq.
      * apply negb_true_iff. now apply Status_eqb_neq.
Qed.

Lemma db_add_appointment (w : World) (a : Appointment) :
  available w = true ->
  db_add appointments_store a w =
    (Returned (nextKey (appointments w)),
     withNewAppointment w (set_apt_id (nextKey (appointments w)) a)).
Proof.
  intro Hav. unfold db_add.
  now rewrite (bind_returned _ _ w w tt (ensureReady_available w Hav)).
Qed.

Lemma or_number_cases (a : option Z) (b : Z) :
  or_number a b = match a with None | Some 0 => b | Some d => d end.
Proof. destruct a as [[| |]|]; reflexivity. Qed.

Lemma or_string_cases (a : option string) (b : string) :
  or_string a b = match a with None | Some EmptyString => b | Some s => s end.
Proof. destruct a as [[|]|]; reflexivity. Qed.

Lemma bookAppointment_not_connected (w : World) (userId : Z) (data : AppointmentData) :
  ~ activeConnection w userId (ad_therapistId data) ->
  bookAppointment userId data w =
    (Returned (failure "You must be connected with this therapist first"), w).
Proof.
  intro H. apply isConnected_false_iff in H.
  unfold bookAppointment, try_catch, bind. now rewrite H.
Qed.

Lemma isConnected_true_run (w : World) (userId therapistId : Z) :
  activeConnection w userId therapistId ->
  TherapistManager_isConnected userId therapistId w = (Returned true, w).
Proof.
  intro H. apply isConnected_true_iff in H.
  rewrite isConnected_run in *. simpl in H. now rewrite H.
Qed.

Lemma bookAppointment_slot_taken (w : World) (userId : Z) (data : AppointmentData) :
  activeConnection w userId (ad_therapistId data) ->
  slotTaken w (ad_therapistId data) (ad_date data) (ad_time data) ->
  bookAppointment userId data w =
    (Returned (failure "This time slot is no longer available"), w).
Proof.
  intros Hc Ht.
  unfold bookAppointment, try_catch, bind.
  rewrite (isConnected_true_run w _ _ Hc). simpl.
  rewrite isSlotAvailable_run.
  apply slotConflict_exists_iff in Ht. rewrite Ht.
  now rewrite andb_false_r.
Qed.

Lemma bookAppointment_success (w : World) (userId : Z) (data : AppointmentData) :
  activeConnection w userId (ad_therapistId data) ->
  ~ slotTaken w (ad_therapistId data) (ad_date data) (ad_time data) ->
  bookAppointment userId data w =
    (Returned {| success := true;
                 message := "Appointment booked successfully";
                 resultId := Some (nextKey (appointments w)) |},
     withNewAppointment w (bookedAppointment w userId data)).
Proof.
  intros Hc Ht.
  assert (Hav : available w = true) by apply Hc.
  unfold bookAppointment, try_catch, bind.
  rewrite (isConnected_true_run w _ _ Hc). simpl.
  rewrite isSlotAvailable_run.
  rewrite <- slotConflict_exists_iff in Ht.
  apply not_true_is_false in Ht. rewrite Ht, Hav. simpl.
  rewrite db_add_appointment by assumption.
  unfold ret. f_equal. f_equal.
  unfold bookedAppointment, set_apt_id. simpl.
  rewrite or_number_cases, !or_string_cases.
  f_equal. now destruct (ad_notes data) as [[|]|].
Qed.

(** C7.  The checks of [bookAppointment] run in this order.  Without an
    active connection between user and therapist (which includes a
    database that cannot be read) the booking fails with the not-connected
    reason and the store is unchanged.  With a connection, and some
    appointment of that therapist that is not cancelled at the same date
    and time, it fails with the slot-taken reason and the store is
    unchanged.  Otherwise it succeeds: the store holds one appointment
    more, with status [confirmed], for this user, therapist, date and
    time, stored under the key that is returned.  In particular, when all
    appointments of the therapist at that date and time are cancelled, the
    booking succeeds. *)
Theorem bookAppointment_outcomes :
  forall (w : World) (userId : Z) (data : AppointmentData),
    (~ activeConnection w userId (ad_therapistId data) ->
     bookAppointment userId data w =
       (Returned (failure "You must be connected with this therapist first"), w))
    /\ (activeConnection w userId (ad_therapistId data) ->
        slotTaken w (ad_therapistId data) (ad_date data) (ad_time data) ->
        bookAppointment userId data w =
          (Returned (failure "This time slot is no longer available"), w))
    /\ (activeConnection w userId (ad_therapistId data) ->
        ~ slotTaken w (ad_therapistId data) (ad_date data) (ad_time data) ->
        exists (a : Appointment) (w' : World),
          bookAppointment userId data w =
            (Returned (mkResult true "Appointment booked successfully" (apt_id a)), w')
          /\ rows (appointments w') = rows (appointments w) ++ [a]
          /\ apt_id a = Some (nextKey (appointments w))
          /\ apt_status a = confirmed
          /\ apt_userId a = userId
          /\ apt_therapistId a = ad_therapistId data
          /\ apt_date a = ad_date data
          /\ apt_time a = ad_time data)
    /\ (activeConnection w userId (ad_therapistId data) ->
        (forall a, In a (rows (appointments w)) ->
                   apt_therapistId a = ad_therapistId data ->
                   apt_date a = ad_date data ->
                   apt_time a = ad_time data ->
                   apt_status a = cancelled) ->
        exists (id : Z) (w' : World),
          bookAppointment userId data w =
            (Returned (mkResult true "Appointment booked successfully" (Some id)), w')).
Proof.
  intros w userId data.
  split; [|split; [|split]].
  - apply bookAppointment_not_connected.
  - apply bookAppointment_slot_taken.
  - intros Hc Ht.
    exists (bookedAppointment w userId data), (withNewAppointment w (bookedAppointment w userId data)).
    rewrite bookAppointment_success by assumption.
    repeat split; reflexivity.
  - intros Hc Hall.
    exists (nextKey (appointments w)), (withNewAppointment w (bookedAppointment w userId data)).
    apply bookAppointment_success; [assumption|].
    intros [a [Hin [Ht [Hd [Htm Hs]]]]].
    apply Hs. now apply Hall.
Qed.

(** C10.  When a booking succeeds, the stored appointment has duration 50
    if the request has no [duration] or a [duration] of zero, and the
    requested duration otherwise; its type is ['Regular Session'] if the
    request has no [type] or an empty one; its notes are the empty string
    if the request has none. *)
Theorem bookAppointment_defaults :
  forall (w : World) (userId : Z) (data : AppointmentData),
    activeConnection w userId (ad_therapistId data) ->
    ~ slotTaken w (ad_therapistId data) (ad_date data) (ad_time data) ->
    exists (a : Appointment) (r : Result) (w' : World),
      bookAppointment userId data w = (Returned r, w')
      /\ success r = true
      /\ rows (appointments w') = rows (appointments w) ++ [a]
      /\ apt_duration a = match ad_duration data with
                          | None | Some 0 => 50
                          | Some d => d
                          end
      /\ apt_type a = match ad_type data with
                      | None | Some EmptyString => "Regular Session"%string
                      | Some t => t
                      end
      /\ apt_notes a = match ad_notes data with
                       | None => EmptyString
                       | Some n => n
                       end.
Proof.
  intros w userId data Hc Ht.
  eexists (bookedAppointment w userId data), _, _.
  rewrite bookAppointment_success by assumption.
  repeat split; reflexivity.
Qed.

(** ** Records of a store *)

Section Stores.
Context {T : Type} (st : StoreRef T).

Lemma find_replace_row_same (k : Z) (data : T) (l : list T) :
  key_of st data = Some k ->
  existsb (has_key st k) l = true ->
  find (has_key st k) (replace_row st k data l) = Some data.
Proof.
  intros Hk. induction l as [|r l IH]; simpl; [discriminate|].
  destruct (has_key st k r) eqn:Hr; simpl.
  - intros _. unfold has_key at 1. now rewrite Hk, Z.eqb_refl.
  - intro H. rewrite Hr. now apply IH.
Qed.

Lemma find_replace_row_other (k k' : Z) (data : T) (l : list T) :
  k' <> k ->
  key_of st data = Some k ->
  find (has_key st k') (replace_row st k data l) = find (has_key st k') l.
Proof.
  intros Hne Hk. induction l as [|r l IH]; simpl; [reflexivity|].
  destruct (has_key st k r) eqn:Hr; simpl.
  - assert (Hd : has_key st k' data = false).
    { unfold has_key. rewrite Hk. lia. }
    assert (Hr' : has_key st k' r = false).
    { unfold has_key in *. destruct (key_of st r); [lia|reflexivity]. }
    now rewrite Hd, Hr'.
  - now rewrite IH.
Qed.

Lemma length_replace_row (k : Z) (data : T) (l : list T) :
  List.length (replace_row st k data l) = List.length l.
Proof.
  induction l as [|r l IH]; simpl; [reflexivity|].
  destruct (has_key st k r); simpl; congruence.
Qed.

Lemma map_key_replace_row (k : Z) (data : T) (l : list T) :
  key_of st data = Some k ->
  map (key_of st) (replace_row st k data l) = map (key_of st) l.
Proof.
  intro Hk. induction l as [|r l IH]; simpl; [reflexivity|].
  destruct (has_key st k r) eqn:Hr; simpl.
  - f_equal. unfold has_key in Hr. destruct (key_of st r) as [k0|]; [|discriminate].
    rewrite Hk. f_equal. lia.
  - now rewrite IH.
Qed.

Lemma find_has_key_some (k : Z) (l : list T) (r : T) :
  find (has_key st k) l = Some r -> In r l /\ key_of st r = Some k.
Proof.
  intro H. apply find_some in H as [Hin Hk]. split; [assumption|].
  unfold has_key in Hk. destruct (key_of st r); [f_equal; lia|discriminate].
Qed.

Lemma existsb_has_key_of_find (k : Z) (l : list T) (r : T) :
  find (has_key st k) l = Some r -> existsb (has_key st k) l = true.
Proof.
  intro H. apply find_some in H as [Hin Hk]. apply existsb_exists. now exists r.
Qed.

(** In a store without shared keys, the first record under the key of a
    stored record is that record. *)
Lemma replace_row_unique (k : Z) (data r : T) (l : list T) :
  NoDup (map (key_of st) l) ->
  In r l -> key_of st r = Some k ->
  forall P : T -> bool,
    P data = P r ->
    filter P (replace_row st k data l) =
      if P r then
        map (fun x => if has_key st k x then data else x) (filter P l)
      else filter P l.
Proof.
  intros Hnd Hin Hk P HP.
  induction l as [|x l IH]; [contradiction|].
  simpl in Hnd. apply NoDup_cons_iff in Hnd as [Hx Hnd].
  simpl. destruct (has_key st k x) eqn:Hkx.
  - assert (Hxk : key_of st x = Some k).
    { unfold has_key in Hkx. destruct (key_of st x); [f_equal; lia|discriminate]. }
    assert (r = x).
    { destruct Hin as [->|Hin]; [reflexivity|].
      exfalso. apply Hx. rewrite Hxk, <- Hk. now apply in_map. }
    subst x. simpl. rewrite HP.
    assert (Hrest : forall y, In y l -> has_key st k y = false).
    { intros y Hy. unfold has_key. destruct (key_of st y) as [ky|] eqn:Hky; [|reflexivity].
      apply Z.eqb_neq. intros ->. apply Hx. rewrite Hk, <- Hky. now apply in_map. }
    assert (Hmap : map (fun x => if has_key st k x then data else x) (filter P l) = filter P l).
    { rewrite <- (map_id (filter P l)) at 2. apply map_ext_in.
      intros y Hy. apply filter_In in Hy as [Hy _]. now rewrite (Hrest y Hy). }
    destruct (P r); simpl.
    + now rewrite Hkx, Hmap.
    + reflexivity.
  - destruct Hin as [->|Hin].
    { unfold has_key in Hkx. rewrite Hk, Z.eqb_refl in Hkx. discriminate. }
    simpl. specialize (IH Hnd Hin).
    destruct (P x) eqn:HPx.
    + rewrite IH. destruct (P r); simpl; [now rewrite Hkx|reflexivity].
    + rewrite IH. reflexivity.
Qed.

End Stores.

(** ** Cancelling *)

Lemma cancelAppointment_run (w : World) (id : Z) (a : Appointment) :
  available w = true ->
  appointmentById w id = Some a ->
  cancelAppointment id w =
    if Status_eqb (apt_status a) cancelled then
      (Returned (failure "Appointment is already cancelled"), w)
    else
      (Returned (mkResult true "Appointment cancelled successfully" None),
       withAppointments w
         (mkStore (replace_row appointments_store id (cancel_fields (clock w) a)
                     (rows (appointments w)))
                  (Z.max (nextKey (appointments w)) (id + 1)))).
Proof.
  intros Hav Hfind.
  unfold cancelAppointment, try_catch, bind.
  rewrite db_get_available by assumption.
  change (find (has_key appointments_store id) (rows (store_of appointments_store w)))
    with (appointmentById w id).
  rewrite Hfind.
  destruct (Status_eqb (apt_status a) cancelled); [reflexivity|].
  simpl. unfold db_update, bind.
  rewrite ensureReady_available by assumption.
  destruct (find_has_key_some appointments_store id _ a Hfind) as [Hin Hk].
  simpl in Hk. simpl. rewrite Hk.
  unfold put_row.
  unfold appointmentById in Hfind.
  rewrite (existsb_has_key_of_find appointments_store id _ a Hfind).
  reflexivity.
Qed.

(** C8.  For an appointment that is stored under the given id, in a
    database that can be read: if its status is already [cancelled],
    [cancelAppointment] fails with the already-cancelled message and leaves
    the world unchanged; otherwise it succeeds, and afterwards the record
    under that id is the old one with status [cancelled] and [cancelledAt]
    set to the time of the call, every other record is unchanged, and no
    record was added or removed. *)
Theorem cancelAppointment_guard :
  forall (w : World) (id : Z) (a : Appointment),
    available w = true ->
    appointmentById w id = Some a ->
    (apt_status a = cancelled ->
     cancelAppointment id w =
       (Returned (failure "Appointment is already cancelled"), w))
    /\ (apt_status a <> cancelled ->
        exists w' a',
          cancelAppointment id w =
            (Returned (mkResult true "Appointment cancelled successfully" None), w')
          /\ appointmentById w' id = Some a'
          /\ apt_status a' = cancelled
          /\ apt_cancelledAt a' = Some (clock w)
          /\ a' = cancel_fields (clock w) a
          /\ (forall k, k <> id -> appointmentById w' k = appointmentById w k)
          /\ List.length (rows (appointments w')) = List.length (rows (appointments w))
          /\ moods w' = moods w
          /\ userTherapists w' = userTherapists w
          /\ therapists w' = therapists w).
Proof.
  intros w id a Hav Hfind.
  pose proof (cancelAppointment_run w id a Hav Hfind) as Hrun.
  destruct (find_has_key_some appointments_store id _ a Hfind) as [Hin Hk].
  split; intro Hs.
  - apply Status_eqb_eq in Hs. now rewrite Hs in Hrun.
  - apply Status_eqb_neq in Hs. rewrite Hs in Hrun.
    eexists _, (cancel_fields (clock w) a).
    split; [exact Hrun|].
    unfold appointmentById. simpl.
    repeat split.
    + apply find_replace_row_same; [exact Hk|].
      now apply (existsb_has_key_of_find appointments_store id _ a).
    + intros k Hne. now apply find_replace_row_other.
    + apply length_replace_row.
Qed.

(** ** Logging a mood *)

Section StoreFilters.
Context {T : Type} (st : StoreRef T).

Lemma filter_replace_row_head (P : T -> bool) (k : Z) (data r : T) (rest l : list T) :
  NoDup (map (key_of st) l) ->
  filter P l = r :: rest ->
  key_of st r = Some k ->
  P data = true ->
  filter P (replace_row st k data l) = data :: rest.
Proof.
  intros Hnd Hf Hk HP. revert Hnd Hf.
  induction l as [|x l IH]; intros Hnd Hf; [discriminate|].
  simpl in Hnd. apply NoDup_cons_iff in Hnd as [Hx Hnd]. simpl in Hf |- *.
  destruct (P x) eqn:HPx.
  - injection Hf as -> Hrest.
    unfold has_key at 1. rewrite Hk, Z.eqb_refl. simpl.
    now rewrite HP, Hrest.
  - assert (Hr : In r l).
    { assert (In r (filter P l)) by (rewrite Hf; now left).
      now apply filter_In in H. }
    assert (Hkx : has_key st k x = false).
    { unfold has_key. destruct (key_of st x) as [kx|] eqn:Hkx; [|reflexivity].
      apply Z.eqb_neq. intros ->. apply Hx. rewrite <- Hk. now apply in_map. }
    rewrite Hkx. simpl. rewrite HPx. now apply IH.
Qed.

Lemma length_filter_replace_row (P : T -> bool) (k : Z) (data r : T) (l : list T) :
  NoDup (map (key_of st) l) ->
  In r l -> key_of st r = Some k ->
  P data = P r ->
  List.length (filter P (replace_row st k data l)) = List.length (filter P l).
Proof.
  intros Hnd Hin Hk HP.
  rewrite (replace_row_unique st k data r l Hnd Hin Hk P HP).
  destruct (P r); [apply length_map|reflexivity].
Qed.

Lemma In_replace_row (k : Z) (data x : T) (l : list T) :
  In x (replace_row st k data l) -> x = data \/ In x l.
Proof.
  induction l as [|y l IH]; simpl; [tauto'|].
  destruct (has_key st k y); simpl; intuition' auto.
Qed.

End StoreFilters.

Lemma moodEntriesFor_filter (w : World) (userId : Z) (date : string) :
  moodEntriesFor w userId date = filter (sameUserAndDate userId date) (rows (moods w)).
Proof.
  unfold moodEntriesFor, sameUserAndDate.
  induction (rows (moods w)) as [|m l IH]; simpl; [reflexivity|].
  destruct (mood_userId m =? userId); simpl; [|assumption].
  destruct (String.eqb (mood_date m) date); now rewrite IH.
Qed.

Lemma getMoodsByDate_run (w : World) (userId : Z) (date : string) :
  available w = true ->
  getMoodsByDate userId date w = (Returned (moodEntriesFor w userId date), w).
Proof.
  intro Hav. unfold getMoodsByDate, try_catch, bind.
  now rewrite db_getByIndex_available.
Qed.

Lemma getMoodByName_valid (name : string) :
  (exists c, In c moodCategories /\ cat_name c = name) ->
  exists c, getMoodByName name = Some c.
Proof.
  intros [c [Hin Hc]]. unfold getMoodByName.
  destruct (find _ moodCategories) as [c'|] eqn:Hf; [now exists c'|].
  apply (find_none _ _ Hf) in Hin. simpl in Hin.
  apply String.eqb_neq in Hin. contradiction.
Qed.

Lemma getMoodByName_invalid (name : string) :
  (forall c, In c moodCategories -> cat_name c <> name) ->
  getMoodByName name = None.
Proof.
  intro H. unfold getMoodByName.
  destruct (find _ moodCategories) as [c|] eqn:Hf; [|reflexivity].
  apply find_some in Hf as [Hin Hc]. apply String.eqb_eq in Hc.
  now apply H in Hin.
Qed.

Lemma validMoodData_passes (data : MoodData) :
  validMoodData data ->
  JSNumber_lt (md_intensity data) (Integer 1) || JSNumber_lt (Integer 10) (md_intensity data)
  = false.
Proof.
  intros [_ Hint]. destruct (md_intensity data) as [i| |]; [|reflexivity|reflexivity].
  simpl. apply orb_false_iff. rewrite !Z.ltb_ge. lia.
Qed.

Lemma logMood_update_run (w : World) (userId : Z) (data : MoodData)
    (existing : MoodEntry) (rest : list MoodEntry) :
  available w = true ->
  keysGenerated moods_store w ->
  validMoodData data ->
  moodEntriesFor w userId (md_date data) = existing :: rest ->
  exists k,
    mood_id existing = Some k
    /\ logMood userId data w =
         (Returned (mkResult true "Mood entry updated" (Some k)),
          withMoods w
            (mkStore (replace_row moods_store k (overwrite_mood data (clock w) existing)
                        (rows (moods w)))
                     (nextKey (moods w)))).
Proof.
  intros Hav [Hnd Hkeys] Hvalid Hex.
  pose proof (validMoodData_passes data Hvalid) as Hpass.
  destruct Hvalid as [Hmood Hint].
  assert (Hin : In existing (rows (moods w))).
  { assert (H : In existing (moodEntriesFor w userId (md_date data)))
      by (rewrite Hex; now left).
    unfold moodEntriesFor in H. apply filter_In in H as [H _].
    now apply filter_In in H. }
  destruct (Hkeys existing Hin) as [k [Hk Hlt]]. simpl in Hk, Hlt.
  exists k. split; [assumption|].
  destruct (getMoodByName_valid _ Hmood) as [c Hc].
  unfold logMood, try_catch, bind. rewrite Hc, Hpass.
  rewrite getMoodsByDate_run, Hex by assumption. simpl.
  unfold db_update, bind. rewrite ensureReady_available by assumption.
  simpl. rewrite Hk. unfold put_row.
  assert (Hexists : existsb (has_key moods_store k) (rows (moods w)) = true).
  { apply existsb_exists. exists existing. split; [assumption|].
    unfold has_key. simpl. now rewrite Hk, Z.eqb_refl. }
  rewrite Hexists. unfold ret, withMoods.
  replace (Z.max (nextKey (moods w)) (k + 1)) with (nextKey (moods w)) by lia.
  reflexivity.
Qed.

Lemma logMood_insert_run (w : World) (userId : Z) (data : MoodData) :
  available w = true ->
  validMoodData data ->
  moodEntriesFor w userId (md_date data) = [] ->
  logMood userId data w =
    (Returned (mkResult true "Mood logged successfully" (Some (nextKey (moods w)))),
     withMoods w
       (mkStore (rows (moods w) ++
                   [mkMoodEntry (Some (nextKey (moods w))) userId (md_mood data)
                      (md_intensity data) (Some (or_string (md_notes data) ""))
                      (md_date data) (clock w) None])
                (nextKey (moods w) + 1))).
Proof.
  intros Hav Hvalid Hex.
  pose proof (validMoodData_passes data Hvalid) as Hpass.
  destruct Hvalid as [Hmood Hint].
  destruct (getMoodByName_valid _ Hmood) as [c Hc].
  unfold logMood, try_catch, bind. rewrite Hc, Hpass.
  rewrite getMoodsByDate_run, Hex by assumption. simpl.
  unfold db_add, bind. rewrite ensureReady_available by assumption.
  reflexivity.
Qed.

Lemma logMood_update_entries (w : World) (userId : Z) (data : MoodData)
    (existing : MoodEntry) (rest : list MoodEntry) (k : Z) :
  keysGenerated moods_store w ->
  moodEntriesFor w userId (md_date data) = existing :: rest ->
  mood_id existing = Some k ->
  moodEntriesFor
    (withMoods w
       (mkStore (replace_row moods_store k (overwrite_mood data (clock w) existing)
                   (rows (moods w)))
                (nextKey (moods w))))
    userId (md_date data)
  = overwrite_mood data (clock w) existing :: rest.
Proof.
  intros [Hnd _] Hex Hk.
  rewrite moodEntriesFor_filter in *. simpl.
  apply (filter_replace_row_head moods_store) with (r := existing); try assumption.
  assert (H : In existing (filter (sameUserAndDate userId (md_date data)) (rows (moods w))))
    by (rewrite Hex; now left).
  apply filter_In in H as [_ H]. exact H.
Qed.

(** One call of [logMood] with a valid request keeps the store well-keyed
    and keeps at most one entry per user and date. *)
Lemma logMood_keeps_invariant (w : World) (userId : Z) (data : MoodData) :
  available w = true ->
  keysGenerated moods_store w ->
  oneEntryPerDay w ->
  validMoodData data ->
  exists r w' e,
    logMood userId data w = (Returned r, w')
    /\ success r = true
    /\ available w' = true
    /\ clock w' = clock w
    /\ keysGenerated moods_store w'
    /\ oneEntryPerDay w'
    /\ moodEntriesFor w' userId (md_date data) = [e]
    /\ mood_mood e = md_mood data
    /\ mood_intensity e = md_intensity data
    /\ mood_timestamp e = clock w
    /\ (moodEntriesFor w userId (md_date data) <> [] ->
        mood_notes e = md_notes data
        /\ List.length (rows (moods w')) = List.length (rows (moods w))).
Proof.
  intros Hav Hwf Hone Hvalid.
  destruct (moodEntriesFor w userId (md_date data)) as [|existing rest] eqn:Hex.
  - (* insert *)
    rewrite (logMood_insert_run w userId data Hav Hvalid Hex).
    set (e := mkMoodEntry (Some (nextKey (moods w))) userId (md_mood data)
                (md_intensity data) (Some (or_string (md_notes data) ""))
                (md_date data) (clock w) None).
    eexists _, _, e. split; [reflexivity|].
    destruct Hwf as [Hnd Hkeys]. simpl in Hnd, Hkeys.
    repeat split; try reflexivity; try exact Hav.
    + simpl. rewrite map_app. apply NoDup_app; [assumption| |].
      * simpl. constructor; [tauto'|constructor].
      * intros key Hin [<-|[]].
        apply in_map_iff in Hin as [r [Hr Hin]].
        destruct (Hkeys r Hin) as [k [Hk Hlt]].
        simpl in Hr. rewrite Hk in Hr. injection Hr as ->. lia.
    + simpl. intros r Hin. apply in_app_iff in Hin as [Hin|[<-|[]]].
      * destruct (Hkeys r Hin) as [k [Hk Hlt]]. exists k. split; [assumption|lia].
      * exists (nextKey (moods w)). simpl. split; [reflexivity|lia].
    + intros u d. rewrite moodEntriesFor_filter. simpl.
      rewrite filter_app, length_app.
      specialize (Hone u d). rewrite moodEntriesFor_filter in Hone.
      simpl. destruct (sameUserAndDate u d e) eqn:He; simpl; [|lia].
      unfold sameUserAndDate in He. simpl in He.
      apply andb_true_iff in He as [Hu Hd].
      apply Z.eqb_eq in Hu. apply String.eqb_eq in Hd. subst u d.
      rewrite moodEntriesFor_filter in Hex. rewrite Hex. simpl. lia.
    + rewrite moodEntriesFor_filter in *. simpl.
      rewrite filter_app, Hex. simpl.
      unfold sameUserAndDate. simpl. now rewrite Z.eqb_refl, String.eqb_refl.
    + congruence.
    + congruence.
  - (* update *)
    assert (rest = []).
    { specialize (Hone userId (md_date data)). rewrite Hex in Hone.
      destruct rest; [reflexivity|simpl in Hone; lia]. }
    subst rest.
    destruct (logMood_update_run w userId data existing [] Hav Hwf Hvalid Hex)
      as [k [Hk Hrun]].
    rewrite Hrun.
    pose proof (logMood_update_entries w userId data existing [] k Hwf Hex Hk) as Hent.
    assert (Hin : In existing (rows (moods w))).
    { assert (H : In existing (moodEntriesFor w userId (md_date data)))
        by (rewrite Hex; now left).
      unfold moodEntriesFor in H. apply filter_In in H as [H _].
      now apply filter_In in H. }
    destruct Hwf as [Hnd Hkeys]. simpl in Hnd, Hkeys.
    eexists _, _, (overwrite_mood data (clock w) existing).
    split; [reflexivity|].
    repeat split; try reflexivity; try exact Hav.
    + simpl. now rewrite (map_key_replace_row moods_store).
    + simpl. intros r Hr.
      apply (In_replace_row moods_store) in Hr as [->|Hr].
      * exists k. simpl. split; [assumption|].
        destruct (Hkeys existing Hin) as [k' [Hk' Hlt]]. congruence.
      * now apply Hkeys.
    + intros u d. rewrite moodEntriesFor_filter. simpl.
      rewrite (length_filter_replace_row moods_store _ k _ existing); try assumption.
      * specialize (Hone u d). now rewrite moodEntriesFor_filter in Hone.
      * reflexivity.
    + exact Hent.
    + simpl. apply (length_replace_row moods_store).
Qed.

(** C6.  [logMood] rejects a mood that is not in the category set, and
    an intensity that is a number below 1 or above 10, with a failure
    result, and leaves the world as it was.  It does not reject an
    intensity that is missing or NaN: both comparisons of the range test
    are false for it, and the entry is stored with that intensity and
    reported as a success.  With a request that passes the tests, in a
    readable database whose keys come from the key generator: if the user
    already has an entry for that date, the first such entry has its mood,
    intensity, notes and timestamp overwritten and no record is added;
    otherwise one entry is added.  At most one entry per user and date is
    an invariant of [logMood]; and after two calls for the same user and
    date the store holds exactly one entry for them, with the mood,
    intensity and notes of the second call, stamped with the time of the
    second call. *)
Theorem logMood_upsert :
  forall (w : World) (userId : Z) (data : MoodData),
    ((forall c, In c moodCategories -> cat_name c <> md_mood data) ->
     logMood userId data w = (Returned (failure "Invalid mood selected"), w))
    /\ (forall i, md_intensity data = Integer i -> i < 1 \/ 10 < i ->
        exists msg, logMood userId data w = (Returned (failure msg), w))
    /\ (available w = true -> keysGenerated moods_store w -> validMoodData data ->
        forall existing rest,
          moodEntriesFor w userId (md_date data) = existing :: rest ->
          exists w',
            logMood userId data w =
              (Returned (mkResult true "Mood entry updated" (mood_id existing)), w')
            /\ moodEntriesFor w' userId (md_date data)
               = overwrite_mood data (clock w) existing :: rest
            /\ List.length (rows (moods w')) = List.length (rows (moods w)))
    /\ (available w = true -> validMoodData data ->
        moodEntriesFor w userId (md_date data) = [] ->
        exists w' e,
          logMood userId data w =
            (Returned (mkResult true "Mood logged successfully" (mood_id e)), w')
          /\ rows (moods w') = rows (moods w) ++ [e]
          /\ mood_userId e = userId /\ mood_date e = md_date data
          /\ mood_mood e = md_mood data /\ mood_intensity e = md_intensity data)
    /\ (available w = true -> keysGenerated moods_store w -> oneEntryPerDay w ->
        validMoodData data ->
        exists r w',
          logMood userId data w = (Returned r, w')
          /\ success r = true
          /\ keysGenerated moods_store w'
          /\ oneEntryPerDay w')
    /\ (available w = true -> keysGenerated moods_store w -> oneEntryPerDay w ->
        validMoodData data ->
        forall data2 : MoodData,
          validMoodData data2 -> md_date data2 = md_date data ->
          exists r1 w1 r2 w2 e,
            logMood userId data w = (Returned r1, w1)
            /\ logMood userId data2 w1 = (Returned r2, w2)
            /\ success r1 = true /\ success r2 = true
            /\ moodEntriesFor w2 userId (md_date data) = [e]
            /\ mood_mood e = md_mood data2
            /\ mood_intensity e = md_intensity data2
            /\ mood_notes e = md_notes data2
            /\ mood_timestamp e = clock w1)
    /\ (available w = true -> keysGenerated moods_store w -> oneEntryPerDay w ->
        (exists c, In c moodCategories /\ cat_name c = md_mood data) ->
        md_intensity data = Undefined \/ md_intensity data = NaN ->
        exists r w' e,
          logMood userId data w = (Returned r, w')
          /\ success r = true
          /\ moodEntriesFor w' userId (md_date data) = [e]
          /\ mood_mood e = md_mood data
          /\ mood_intensity e = md_intensity data
          /\ ~ exists i, mood_intensity e = Integer i).
Proof.
  intros w userId data.
  split; [|split; [|split; [|split; [|split; [|split]]]]].
  - intro H. unfold logMood, try_catch, bind.
    now rewrite (getMoodByName_invalid _ H).
  - intros i Hi H. unfold logMood, try_catch, bind.
    destruct (getMoodByName (md_mood data)); [|now eexists].
    assert (Hb : JSNumber_lt (md_intensity data) (Integer 1)
                 || JSNumber_lt (Integer 10) (md_intensity data) = true).
    { rewrite Hi. simpl. apply orb_true_iff. lia. }
    rewrite Hb. now eexists.
  - intros Hav Hwf Hvalid existing rest Hex.
    destruct (logMood_update_run w userId data existing rest Hav Hwf Hvalid Hex)
      as [k [Hk Hrun]].
    eexists. rewrite Hk. split; [exact Hrun|]. split.
    + now apply logMood_update_entries.
    + simpl. apply (length_replace_row moods_store).
  - intros Hav Hvalid Hex.
    eexists _, (mkMoodEntry (Some (nextKey (moods w))) userId (md_mood data)
                  (md_intensity data) (Some (or_string (md_notes data) ""))
                  (md_date data) (clock w) None).
    rewrite (logMood_insert_run w userId data Hav Hvalid Hex).
    repeat split; reflexivity.
  - intros Hav Hwf Hone Hvalid.
    destruct (logMood_keeps_invariant w userId data Hav Hwf Hone Hvalid)
      as [r [w' [e [Hrun [Hs [_ [_ [Hwf' [Hone' _]]]]]]]]].
    now exists r, w'.
  - intros Hav Hwf Hone Hvalid data2 Hvalid2 Hdate.
    destruct (logMood_keeps_invariant w userId data Hav Hwf Hone Hvalid)
      as [r1 [w1 [e1 [Hrun1 [Hs1 [Hav1 [_ [Hwf1 [Hone1 [Hent1 _]]]]]]]]]].
    destruct (logMood_keeps_invariant w1 userId data2 Hav1 Hwf1 Hone1 Hvalid2)
      as [r2 [w2 [e2 [Hrun2 [Hs2 [_ [_ [_ [_ [Hent2 [Hm [Hi [Ht Hn]]]]]]]]]]]]].
    rewrite Hdate in *.
    exists r1, w1, r2, w2, e2.
    repeat split; try assumption.
    apply Hn. rewrite Hent1. discriminate.
  - intros Hav Hwf Hone Hmood Hmissing.
    assert (Hvalid : validMoodData data).
    { split; [exact Hmood|]. destruct Hmissing as [-> | ->]; exact I. }
    destruct (logMood_keeps_invariant w userId data Hav Hwf Hone Hvalid)
      as [r [w' [e [Hrun [Hs [_ [_ [_ [_ [Hent [Hm [Hi _]]]]]]]]]]]].
    exists r, w', e. repeat split; try assumption.
    intros [i Hint]. rewrite Hi in Hint.
    destruct Hmissing as [H | H]; rewrite H in Hint; discriminate.
Qed.

(** ** Sorting *)

Lemma sort_insert_perm {A : Type} (compareFn : A -> A -> option Z) (x : A) (l : list A) :
  Permutation (sort_insert compareFn x l) (x :: l).
Proof.
  induction l as [|y l IH]; simpl; [reflexivity|].
  destruct (comparator_positive (compareFn x y)); [|reflexivity].
  rewrite IH. apply perm_swap.
Qed.

Lemma sort_perm {A : Type} (compareFn : A -> A -> option Z) (l : list A) :
  Permutation (sort compareFn l) l.
Proof.
  induction l as [|x l IH]; simpl; [reflexivity|].
  rewrite sort_insert_perm. now constructor.
Qed.

Lemma In_sort {A : Type} (compareFn : A -> A -> option Z) (l : list A) (x : A) :
  In x (sort compareFn l) <-> In x l.
Proof.
  split; apply Permutation_in; [|symmetry]; apply sort_perm.
Qed.

(** ** The three appointment queries *)

Lemma Date_lt_iff (a b : option Z) : Date_lt a b = true <-> instantBefore a b.
Proof.
  unfold Date_lt, instantBefore. split.
  - destruct a as [x|], b as [y|]; try discriminate.
    intro H. exists x, y. repeat split. lia.
  - intros [x [y [-> [-> H]]]]. lia.
Qed.

Lemma getUpcomingAppointments_run (w : World) (userId : Z) :
  available w = true ->
  getUpcomingAppointments userId w =
    (Returned (sort (fun a b => Date_sub (aptDateTime a) (aptDateTime b))
                 (filter (fun apt => Date_gt (aptDateTime apt) (Some (clock w))
                                     && Status_eqb (apt_status apt) confirmed)
                    (appointmentsOfUser w userId))),
     w).
Proof.
  intro Hav. unfold getUpcomingAppointments, try_catch, bind.
  now rewrite db_getByIndex_available.
Qed.

Lemma getPastAppointments_run (w : World) (userId : Z) :
  available w = true ->
  getPastAppointments userId w =
    (Returned (sort (fun a b => Date_sub (aptDateTime b) (aptDateTime a))
                 (filter (fun apt => Date_lt (aptDateTime apt) (Some (clock w))
                                     || Status_eqb (apt_status apt) completed)
                    (appointmentsOfUser w userId))),
     w).
Proof.
  intro Hav. unfold getPastAppointments, try_catch, bind.
  now rewrite db_getByIndex_available.
Qed.

Lemma getCancelledAppointments_run (w : World) (userId : Z) :
  available w = true ->
  getCancelledAppointments userId w =
    (Returned (sort (fun a b => Date_sub (aptDateTime b) (aptDateTime a))
                 (filter (fun apt => Status_eqb (apt_status apt) cancelled)
                    (appointmentsOfUser w userId))),
     w).
Proof.
  intro Hav. unfold getCancelledAppointments, try_catch, bind.
  now rewrite db_getByIndex_available.
Qed.

(** C1 (as amended).  In a readable database the three queries return
    lists [upcoming], [past] and [cancelled_] of the user's appointments
    such that, for every appointment [a] of the user: [a] is upcoming iff
    its start instant is strictly after now and its status is [confirmed];
    [a] is past iff its start instant is strictly before now or its status
    is [completed] (so a completed appointment is past whatever its date);
    [a] is in the cancelled list iff its status is [cancelled].  No
    appointment is both upcoming and past, or both upcoming and cancelled;
    an appointment is in both the past and the cancelled list exactly when
    it is cancelled and its start instant is before now. *)
Theorem appointment_queries_classification :
  forall (w : World) (userId : Z),
    available w = true ->
    exists upcoming past cancelled_ : list Appointment,
      getUpcomingAppointments userId w = (Returned upcoming, w)
      /\ getPastAppointments userId w = (Returned past, w)
      /\ getCancelledAppointments userId w = (Returned cancelled_, w)
      /\ (forall a, In a upcoming \/ In a past \/ In a cancelled_ ->
                    In a (appointmentsOfUser w userId))
      /\ forall a, In a (appointmentsOfUser w userId) ->
           let start := aptDateTime a in
           let now := Some (clock w) in
           (In a upcoming <-> instantBefore now start /\ apt_status a = confirmed)
           /\ (In a past <-> instantBefore start now \/ apt_status a = completed)
           /\ (In a cancelled_ <-> apt_status a = cancelled)
           /\ (apt_status a = completed -> In a past)
           /\ ~ (In a upcoming /\ In a past)
           /\ ~ (In a upcoming /\ In a cancelled_)
           /\ (In a past /\ In a cancelled_ <->
               apt_status a = cancelled /\ instantBefore start now).
Proof.
  intros w userId Hav.
  eexists _, _, _.
  split; [now apply getUpcomingAppointments_run|].
  split; [now apply getPastAppointments_run|].
  split; [now apply getCancelledAppointments_run|].
  split.
  - intros a H. rewrite !In_sort, !filter_In in H. tauto'.
  - intros a Hin start now.
    assert (Hup : In a (sort (fun a b => Date_sub (aptDateTime a) (aptDateTime b))
                          (filter (fun apt => Date_gt (aptDateTime apt) (Some (clock w))
                                              && Status_eqb (apt_status apt) confirmed)
                             (appointmentsOfUser w userId)))
                  <-> instantBefore now start /\ apt_status a = confirmed).
    { rewrite In_sort, filter_In, andb_true_iff. unfold Date_gt.
      rewrite Date_lt_iff, Status_eqb_eq. tauto'. }
    assert (Hpast : In a (sort (fun a b => Date_sub (aptDateTime b) (aptDateTime a))
                            (filter (fun apt => Date_lt (aptDateTime apt) (Some (clock w))
                                                || Status_eqb (apt_status apt) completed)
                               (appointmentsOfUser w userId)))
                    <-> instantBefore start now \/ apt_status a = completed).
    { rewrite In_sort, filter_In, orb_true_iff.
      rewrite Date_lt_iff, Status_eqb_eq. tauto'. }
    assert (Hcan : In a (sort (fun a b => Date_sub (aptDateTime b) (aptDateTime a))
                           (filter (fun apt => Status_eqb (apt_status apt) cancelled)
                              (appointmentsOfUser w userId)))
                   <-> apt_status a = cancelled).
    { rewrite In_sort, filter_In, Status_eqb_eq. tauto'. }
    assert (Hexcl : instantBefore now start -> instantBefore start now -> False).
    { intros [x [y [Hx [Hy Hlt]]]] [y' [x' [Hy' [Hx' Hlt']]]].
      unfold now, start in *. rewrite Hy in Hy'. rewrite Hx in Hx'.
      injection Hy' as <-. injection Hx' as <-. lia. }
    rewrite Hup, Hpast, Hcan.
    clear Hup Hpast Hcan.
    destruct (apt_status a); intuition' congruence.
Qed.

(** ** The conflict check of the user's own appointments *)

Lemma hasConflict_loop_true_iff (startTime endTime : option Z) (l : list Appointment) :
  hasConflict_loop startTime endTime l = true <->
  exists apt, In apt l
              /\ apt_status apt <> cancelled
              /\ instantBefore startTime (intervalEnd (aptDateTime apt) (apt_duration apt))
              /\ instantBefore (aptDateTime apt) endTime.
Proof.
  induction l as [|apt l IH]; simpl.
  - split; [discriminate|]. intros [apt [[] _]].
  - destruct (Status_eqb (apt_status apt) cancelled) eqn:Hs.
    + rewrite IH. apply Status_eqb_eq in Hs.
      split; intros [a [Hin Ha]].
      * exists a. tauto'.
      * destruct Hin as [<-|Hin]; [tauto'|]. exists a. tauto'.
    + apply Status_eqb_neq in Hs.
      fold (intervalEnd (aptDateTime apt) (apt_duration apt)).
      destruct (Date_lt startTime (intervalEnd (aptDateTime apt) (apt_duration apt))
                && Date_gt endTime (aptDateTime apt)) eqn:Hov.
      * split; [intros _|reflexivity].
        apply andb_true_iff in Hov as [H1 H2].
        exists apt. unfold Date_gt in H2. rewrite Date_lt_iff in H1, H2. tauto'.
      * rewrite IH. split; intros [a [Hin Ha]].
        -- exists a. tauto'.
        -- destruct Hin as [<-|Hin]; [|exists a; tauto'].
           exfalso. destruct Ha as [_ [H1 H2]].
           rewrite <- Date_lt_iff in H1, H2. unfold Date_gt in Hov.
           rewrite H1, H2 in Hov. discriminate.
Qed.

Lemma getAppointmentsByDate_run (w : World) (userId : Z) (date : string) :
  getAppointmentsByDate userId date w =
    (Returned (if available w
               then filter (fun apt => String.eqb (apt_date apt) date)
                      (appointmentsOfUser w userId)
               else []),
     w).
Proof.
  unfold getAppointmentsByDate, try_catch, bind.
  destruct (available w) eqn:Hav.
  - now rewrite db_getByIndex_available.
  - now rewrite db_getByIndex_unavailable.
Qed.

Lemma hasConflict_run (w : World) (userId : Z) (date time : string) (duration : Z) :
  hasConflict userId date time duration w =
    (Returned (hasConflict_loop (dateTimeOf date time)
                 (intervalEnd (dateTimeOf date time) duration)
                 (if available w
                  then filter (fun apt => String.eqb (apt_date apt) date)
                         (appointmentsOfUser w userId)
                  else [])),
     w).
Proof.
  unfold hasConflict, try_catch, bind.
  now rewrite getAppointmentsByDate_run.
Qed.

(** What [hasConflict] computes.  In a readable database it reports a
    conflict iff some appointment of the user on that date that is not
    cancelled overlaps the proposed half-open interval: the proposed start
    is before its end and the proposed end is after its start.  When the
    database cannot be read it reports NO conflict: the failure is caught
    inside [getAppointmentsByDate], which answers with the empty list, and
    the [catch] of [hasConflict] is never reached. *)
Lemma hasConflict_semantics (w : World) (userId : Z) (date time : string) (duration : Z) :
  (available w = true ->
   exists b : bool,
     hasConflict userId date time duration w = (Returned b, w)
     /\ (b = true <->
         exists apt, In apt (rows (appointments w))
                     /\ apt_userId apt = userId
                     /\ apt_date apt = date
                     /\ apt_status apt <> cancelled
                     /\ instantBefore (dateTimeOf date time)
                          (intervalEnd (aptDateTime apt) (apt_duration apt))
                     /\ instantBefore (aptDateTime apt)
                          (intervalEnd (dateTimeOf date time) duration)))
  /\ (available w = false ->
      hasConflict userId date time duration w = (Returned false, w)).
Proof.
  split; intro Hav.
  - eexists. split; [apply hasConflict_run|].
    rewrite Hav, hasConflict_loop_true_iff.
    split; intros [apt [Hin H]]; exists apt.
    + apply filter_In in Hin as [Hin Hd]. apply filter_In in Hin as [Hin Hu].
      apply String.eqb_eq in Hd. apply Z.eqb_eq in Hu. tauto'.
    + destruct H as [Hu [Hd H]]. split; [|tauto'].
      apply filter_In. split; [apply filter_In; split; [assumption|lia]|].
      now apply String.eqb_eq.
  - rewrite hasConflict_run, Hav. reflexivity.
Qed.

(** ** The availability resolver *)

Lemma getAvailableSlots_run (fuel : nat) (w : World) (therapistId : Z) (date : string)
    (duration : option Z) (th : Therapist) :
  available w = true ->
  therapistById w therapistId = Some th ->
  getAvailableSlots fuel therapistId date duration w =
    if worksOn th date then
      match generateTimeSlots fuel 9 17 (match duration with Some d => d | None => 50 end) with
      | Some allSlots =>
          (Returned (filter (fun slot => negb (includes (bookedTimes w therapistId date) slot))
                       allSlots),
           w)
      | None => (OutOfFuel, w)
      end
    else (Returned [], w).
Proof.
  intros Hav Hth.
  unfold getAvailableSlots, try_catch, bind.
  rewrite db_get_available by assumption.
  change (find (has_key therapists_store therapistId) (rows (store_of therapists_store w)))
    with (therapistById w therapistId).
  rewrite Hth. fold (worksOn th date).
  destruct (worksOn th date); [|reflexivity]. simpl.
  unfold run_loop.
  destruct (generateTimeSlots fuel 9 17 _) as [allSlots|]; [|reflexivity].
  now rewrite db_getByIndex_available.
Qed.

Lemma includes_In (l : list string) (x : string) : includes l x = true <-> In x l.
Proof.
  unfold includes. rewrite existsb_exists. split.
  - intros [y [Hin Hy]]. apply String.eqb_eq in Hy. now subst.
  - intro H. exists x. split; [assumption|apply String.eqb_refl].
Qed.

Lemma bookedTimes_In (w : World) (therapistId : Z) (date time : string) :
  In time (bookedTimes w therapistId date) <->
  exists a, In a (rows (appointments w))
            /\ apt_therapistId a = therapistId
            /\ apt_date a = date
            /\ apt_status a <> cancelled
            /\ apt_time a = time.
Proof.
  unfold bookedTimes. rewrite in_map_iff.
  split; intros [a H]; exists a.
  - destruct H as [Ht Hin].
    apply filter_In in Hin as [Hin Hc]. apply filter_In in Hin as [Hin Hth].
    apply andb_true_iff in Hc as [Hd Hs].
    apply String.eqb_eq in Hd. apply negb_true_iff, Status_eqb_neq in Hs.
    repeat split; try assumption. lia.
  - destruct H as [Hin [Hth [Hd [Hs Ht]]]]. split; [assumption|].
    apply filter_In. split; [apply filter_In; split; [assumption|lia]|].
    apply andb_true_iff. split; [now apply String.eqb_eq|].
    now apply negb_true_iff, Status_eqb_neq.
Qed.

(** C4 (as amended).  For a therapist of the store, in a readable
    database: when the weekday of the date is not one of the therapist's
    working days, the resolver returns the empty sequence.  On a working
    day and for a POSITIVE duration (50 when none is given) it returns,
    as soon as the slot generator has fuel for its [slotCount + 1] loop
    tests: in the same order, exactly those candidates [allSlots] of the
    generator for the 9-17 window that are not the [time] of an
    appointment of that therapist on that date that is not cancelled, and
    all of [allSlots] when every appointment of the therapist on that date
    is cancelled.  For any duration the resolver answers as the generator
    does: it filters the generator's candidates when the generator returns,
    and does not return when the generator does not. *)
Theorem getAvailableSlots_resolves :
  forall (fuel : nat) (w : World) (therapistId : Z) (th : Therapist) (date : string)
         (duration : option Z),
    available w = true ->
    therapistById w therapistId = Some th ->
    let d := match duration with Some d => d | None => 50 end in
    let resolved (allSlots slots : list string) :=
      getAvailableSlots fuel therapistId date duration w = (Returned slots, w)
      /\ slots = filter (fun slot => negb (includes (bookedTimes w therapistId date) slot))
                   allSlots
      /\ (forall slot, In slot slots <->
            In slot allSlots
            /\ ~ exists a, In a (rows (appointments w))
                           /\ apt_therapistId a = therapistId
                           /\ apt_date a = date
                           /\ apt_status a <> cancelled
                           /\ apt_time a = slot)
      /\ ((forall a, In a (rows (appointments w)) ->
                     apt_therapistId a = therapistId -> apt_date a = date ->
                     apt_status a = cancelled) ->
          slots = allSlots) in
    (worksOn th date = false ->
     getAvailableSlots fuel therapistId date duration w = (Returned [], w))
    /\ (worksOn th date = true -> 0 < d -> (slotCount 9 17 d < fuel)%nat ->
        exists allSlots slots,
          generateTimeSlots fuel 9 17 d = Some allSlots /\ resolved allSlots slots)
    /\ (worksOn th date = true ->
        forall allSlots, generateTimeSlots fuel 9 17 d = Some allSlots ->
          exists slots, resolved allSlots slots)
    /\ (worksOn th date = true -> generateTimeSlots fuel 9 17 d = None ->
        getAvailableSlots fuel therapistId date duration w = (OutOfFuel, w)).
Proof.
  intros fuel w therapistId th date duration Hav Hth d resolved.
  pose proof (getAvailableSlots_run fuel w therapistId date duration th Hav Hth) as Hrun.
  fold d in Hrun.
  assert (Hrel : worksOn th date = true ->
                 forall allSlots, generateTimeSlots fuel 9 17 d = Some allSlots ->
                   exists slots, resolved allSlots slots).
  { intros Hday allSlots Hgen. rewrite Hday, Hgen in Hrun.
    eexists. split; [exact Hrun|]. split; [reflexivity|]. split.
    - intro slot. rewrite filter_In, negb_true_iff, <- bookedTimes_In.
      rewrite <- (includes_In (bookedTimes w therapistId date)).
      destruct (includes (bookedTimes w therapistId date) slot); intuition' congruence.
    - intro Hall.
      assert (Hnone : bookedTimes w therapistId date = []).
      { destruct (bookedTimes w therapistId date) as [|t l] eqn:Hb; [reflexivity|].
        assert (Hin : In t (bookedTimes w therapistId date)) by (rewrite Hb; now left).
        apply bookedTimes_In in Hin as [a [Hin [H1 [H2 [H3 _]]]]].
        exfalso. apply H3. now apply Hall. }
      rewrite Hnone. simpl.
      clear. induction allSlots as [|s l IH]; simpl; congruence. }
  split; [|split; [|split]].
  - intro Hday. now rewrite Hday in Hrun.
  - intros Hday Hd Hfuel.
    pose proof (generateTimeSlots_enough_fuel 9 17 d fuel Hd Hfuel) as Hgen.
    destruct (Hrel Hday _ Hgen) as [slots Hslots].
    eexists _, slots. split; [exact Hgen|exact Hslots].
  - exact Hrel.
  - intros Hday Hgen. now rewrite Hday, Hgen in Hrun.
Qed.

(** ** The streak *)






Lemma sort_insert_sorted {A : Type} (key : A -> Z) (compareFn : A -> A -> option Z)
    (x : A) (l : list A) :
  (forall y, In y l -> compareFn x y = Some (key y - key x)) ->
  StronglySorted (fun a b => key b <= key a) l ->
  StronglySorted (fun a b => key b <= key a) (sort_insert compareFn x l).
Proof.
  intros Hcmp Hs. induction l as [|y l IH]; simpl.
  - constructor; constructor.
  - apply StronglySorted_inv in Hs as [Hs Hy].
    rewrite (Hcmp y (or_introl eq_refl)). simpl.
    destruct (Z.ltb_spec 0 (key y - key x)).
    + constructor.
      * apply IH; [|assumption]. intros z Hz. apply Hcmp. now right.
      * assert (Hall : Forall (fun b => key b <= key y) (x :: l))
          by (constructor; [lia|assumption]).
        revert Hall. apply Permutation_Forall.
        symmetry. apply sort_insert_perm.
    + constructor.
      * now constructor.
      * constructor; [lia|].
        eapply Forall_impl; [|exact Hy]. simpl. intros; lia.
Qed.

Lemma sort_sorted {A : Type} (key : A -> Z) (compareFn : A -> A -> option Z) (l : list A) :
  (forall x y, In x l -> In y l -> compareFn x y = Some (key y - key x)) ->
  StronglySorted (fun a b => key b <= key a) (sort compareFn l).
Proof.
  induction l as [|x l IH]; intro Hcmp; simpl; [constructor|].
  apply sort_insert_sorted.
  - intros y Hy. apply In_sort in Hy. apply Hcmp; simpl; tauto.
  - apply IH. intros a b Ha Hb. apply Hcmp; simpl; tauto.
Qed.










(** ** Reading, replacing and deleting records *)

Section StoreUpdates.
Context {T : Type} (st : StoreRef T).

Lemma get_then {A : Type} (key : Z) (k : option T -> M A) (h : M A) (w : World) :
  try_catch (bind (db_get st key) k) h w =
    if available w
    then try_catch (k (find (has_key st key) (rows (store_of st w)))) h w
    else h w.
Proof.
  unfold try_catch, bind.
  destruct (available w) eqn:Hav.
  - rewrite (db_get_available st key w Hav). reflexivity.
  - rewrite (db_get_unavailable st key w Hav). reflexivity.
Qed.

Lemma getByIndex_then {A : Type} (field : T -> Z) (v : Z) (k : list T -> M A) (h : M A)
    (w : World) :
  try_catch (bind (db_getByIndex st field v) k) h w =
    if available w
    then try_catch (k (filter (fun r => field r =? v) (rows (store_of st w)))) h w
    else h w.
Proof.
  unfold try_catch, bind.
  destruct (available w) eqn:Hav.
  - rewrite (db_getByIndex_available st field v w Hav). reflexivity.
  - rewrite (db_getByIndex_unavailable st field v w Hav). reflexivity.
Qed.

Lemma db_update_existing (data : T) (k : Z) (w : World) :
  available w = true ->
  key_of st data = Some k ->
  existsb (has_key st k) (rows (store_of st w)) = true ->
  db_update st data w =
    (Returned k,
     with_store st
       (mkStore (replace_row st k data (rows (store_of st w)))
                (Z.max (nextKey (store_of st w)) (k + 1))) w).
Proof.
  intros Hav Hk Hex.
  unfold db_update, bind. rewrite (ensureReady_available w Hav).
  rewrite Hk. unfold put_row. rewrite Hex. reflexivity.
Qed.

Lemma db_delete_available (key : Z) (w : World) :
  available w = true ->
  db_delete st key w =
    (Returned tt,
     with_store st
       (mkStore (filter (fun r => negb (has_key st key r)) (rows (store_of st w)))
                (nextKey (store_of st w))) w).
Proof.
  intro Hav. unfold db_delete, bind. rewrite (ensureReady_available w Hav). reflexivity.
Qed.

Lemma In_replace_row_unique (k : Z) (data x : T) (l : list T) :
  NoDup (map (key_of st) l) ->
  In x (replace_row st k data l) ->
  x = data \/ (In x l /\ key_of st x <> Some k).
Proof.
  induction l as [|r l IH]; simpl; intros Hnd Hin.
  - contradiction.
  - inversion Hnd as [|? ? Hnotin Hnd']; subst.
    destruct (has_key st k r) eqn:Hr.
    + destruct Hin as [<-|Hin]; [now left|].
      right. split; [now right|].
      intro Hx. apply Hnotin.
      unfold has_key in Hr. destruct (key_of st r) as [k'|] eqn:Hkr; [|discriminate].
      apply Z.eqb_eq in Hr. subst k'. rewrite <- Hx. now apply in_map.
    + destruct Hin as [<-|Hin].
      * right. split; [now left|].
        intro Hx. unfold has_key in Hr. rewrite Hx in Hr.
        rewrite Z.eqb_refl in Hr. discriminate.
      * destruct (IH Hnd' Hin) as [->|[Hin' Hk]]; [now left|].
        right. split; [now right|exact Hk].
Qed.

Lemma In_replace_row_data (k : Z) (data : T) (l : list T) :
  existsb (has_key st k) l = true -> In data (replace_row st k data l).
Proof.
  induction l as [|r l IH]; simpl; [discriminate|].
  destruct (has_key st k r); simpl; intro H; [now left|right; now apply IH].
Qed.

Lemma In_replace_row_other (k : Z) (data x : T) (l : list T) :
  In x l -> has_key st k x = false -> In x (replace_row st k data l).
Proof.
  induction l as [|r l IH]; simpl; [contradiction|].
  intros [<-|Hin] Hx.
  - rewrite Hx. now left.
  - destruct (has_key st k r); right; [exact Hin|now apply IH].
Qed.

Lemma has_key_false_iff (k : Z) (x : T) :
  has_key st k x = false <-> key_of st x <> Some k.
Proof.
  unfold has_key. destruct (key_of st x) as [k'|].
  - rewrite Z.eqb_neq. split; intros H; congruence.
  - split; [discriminate|reflexivity].
Qed.

Lemma find_filter_delete_same (k : Z) (l : list T) :
  find (has_key st k) (filter (fun r => negb (has_key st k r)) l) = None.
Proof.
  induction l as [|r l IH]; simpl; [reflexivity|].
  destruct (has_key st k r) eqn:Hr; simpl; [exact IH|].
  rewrite Hr. exact IH.
Qed.

Lemma find_filter_delete_other (k k' : Z) (l : list T) :
  k' <> k ->
  find (has_key st k') (filter (fun r => negb (has_key st k r)) l) = find (has_key st k') l.
Proof.
  intro Hne. induction l as [|r l IH]; simpl; [reflexivity|].
  destruct (has_key st k r) eqn:Hr; simpl.
  - assert (has_key st k' r = false) as ->; [|exact IH].
    unfold has_key in *. destruct (key_of st r); [|reflexivity].
    apply Z.eqb_eq in Hr. apply Z.eqb_neq. congruence.
  - destruct (has_key st k' r); [reflexivity|exact IH].
Qed.

Lemma keys_replace_row (k : Z) (data : T) (l : list T) (n : Z) :
  key_of st data = Some k ->
  NoDup (map (key_of st) l) ->
  (forall r, In r l -> exists k', key_of st r = Some k' /\ k' < n) ->
  existsb (has_key st k) l = true ->
  NoDup (map (key_of st) (replace_row st k data l))
  /\ forall r, In r (replace_row st k data l) ->
               exists k', key_of st r = Some k' /\ k' < Z.max n (k + 1).
Proof.
  intros Hk Hnd Hall Hex. split.
  - rewrite (map_key_replace_row st k data l Hk). exact Hnd.
  - intros r Hr. destruct (In_replace_row st k data r l Hr) as [->|Hin].
    + exists k. split; [exact Hk|lia].
    + destruct (Hall r Hin) as [k' [Hk' Hlt]]. exists k'. split; [exact Hk'|lia].
Qed.

End StoreUpdates.

(** ** rescheduleAppointment, completeAppointment and updateNotes *)

Lemma update_appointment_run (w : World) (id : Z) (a a' : Appointment) :
  available w = true ->
  appointmentById w id = Some a ->
  apt_id a' = apt_id a ->
  db_update appointments_store a' w =
    (Returned id,
     withAppointments w
       (mkStore (replace_row appointments_store id a' (rows (appointments w)))
                (Z.max (nextKey (appointments w)) (id + 1)))).
Proof.
  intros Hav Hfind Hid.
  destruct (find_has_key_some appointments_store id _ a Hfind) as [_ Hkey].
  apply (db_update_existing appointments_store a' id w Hav).
  - simpl. simpl in Hkey. congruence.
  - exact (existsb_has_key_of_find appointments_store id _ a Hfind).
Qed.

Lemma rescheduleAppointment_unavailable (w : World) (id : Z) (newDate newTime : string) :
  available w = false ->
  rescheduleAppointment id newDate newTime w =
    (Returned (failure "Failed to reschedule appointment"), w).
Proof.
  intro Hav. unfold rescheduleAppointment. rewrite get_then, Hav. reflexivity.
Qed.

Lemma rescheduleAppointment_not_found (w : World) (id : Z) (newDate newTime : string) :
  available w = true ->
  appointmentById w id = None ->
  rescheduleAppointment id newDate newTime w = (Returned (failure "Appointment not found"), w).
Proof.
  intros Hav Hfind. unfold rescheduleAppointment. rewrite get_then, Hav.
  unfold appointmentById in Hfind. simpl. rewrite Hfind. reflexivity.
Qed.

Lemma rescheduleAppointment_run (w : World) (id : Z) (a : Appointment)
    (newDate newTime : string) :
  available w = true ->
  appointmentById w id = Some a ->
  rescheduleAppointment id newDate newTime w =
    if Status_eqb (apt_status a) cancelled then
      (Returned (failure "Cannot reschedule a cancelled appointment"), w)
    else if existsb (slotConflict newDate newTime)
              (filter (fun r => apt_therapistId r =? apt_therapistId a)
                 (rows (appointments w)))
    then (Returned (failure "The new time slot is not available"), w)
    else
      (Returned (mkResult true "Appointment rescheduled successfully" None),
       withAppointments w
         (mkStore (replace_row appointments_store id
                     (reschedule_fields newDate newTime (clock w) a)
                     (rows (appointments w)))
                  (Z.max (nextKey (appointments w)) (id + 1)))).
Proof.
  intros Hav Hfind. unfold rescheduleAppointment. rewrite get_then, Hav.
  pose proof Hfind as Hfind'. unfold appointmentById in Hfind'. simpl. rewrite Hfind'.
  destruct (Status_eqb (apt_status a) cancelled); [reflexivity|].
  unfold try_catch.
  rewrite (bind_returned _ _ w w _ (isSlotAvailable_run w (apt_therapistId a) newDate newTime)).
  rewrite Hav.
  destruct (existsb (slotConflict newDate newTime) _); cbn [negb andb].
  - reflexivity.
  - unfold bind, Date_now.
    pose proof (update_appointment_run w id a (reschedule_fields newDate newTime (clock w) a)
                  Hav Hfind eq_refl) as Hup.
    cbv beta iota. rewrite Hup. reflexivity.
Qed.

Lemma completeAppointment_run (w : World) (id : Z) :
  completeAppointment id w =
    if available w then
      match appointmentById w id with
      | None => (Returned (failure "Appointment not found"), w)
      | Some a =>
          (Returned (mkResult true "Appointment marked as completed" None),
           withAppointments w
             (mkStore (replace_row appointments_store id (complete_fields (clock w) a)
                         (rows (appointments w)))
                      (Z.max (nextKey (appointments w)) (id + 1))))
      end
    else (Returned (failure "Failed to complete appointment"), w).
Proof.
  unfold completeAppointment. rewrite get_then.
  destruct (available w) eqn:Hav; [|reflexivity].
  change (find (has_key appointments_store id) (rows (store_of appointments_store w)))
    with (appointmentById w id).
  destruct (appointmentById w id) as [a|] eqn:Hfind; [|reflexivity].
  unfold try_catch, bind, Date_now.
  rewrite (update_appointment_run w id a (complete_fields (clock w) a) Hav Hfind eq_refl).
  reflexivity.
Qed.

Lemma updateNotes_run (w : World) (id : Z) (notes : string) :
  updateNotes id notes w =
    if available w then
      match appointmentById w id with
      | None => (Returned (failure "Appointment not found"), w)
      | Some a =>
          (Returned (mkResult true "Notes updated successfully" None),
           withAppointments w
             (mkStore (replace_row appointments_store id (notes_fields notes a)
                         (rows (appointments w)))
                      (Z.max (nextKey (appointments w)) (id + 1))))
      end
    else (Returned (failure "Failed to update notes"), w).
Proof.
  unfold updateNotes. rewrite get_then.
  destruct (available w) eqn:Hav; [|reflexivity].
  change (find (has_key appointments_store id) (rows (store_of appointments_store w)))
    with (appointmentById w id).
  destruct (appointmentById w id) as [a|] eqn:Hfind; [|reflexivity].
  unfold try_catch, bind.
  rewrite (update_appointment_run w id a (notes_fields notes a) Hav Hfind eq_refl).
  reflexivity.
Qed.

Lemma cancelAppointment_cases (w : World) (id : Z) :
  cancelAppointment id w =
    if available w then
      match appointmentById w id with
      | None => (Returned (failure "Appointment not found"), w)
      | Some a =>
          if Status_eqb (apt_status a) cancelled then
            (Returned (failure "Appointment is already cancelled"), w)
          else
            (Returned (mkResult true "Appointment cancelled successfully" None),
             withAppointments w
               (mkStore (replace_row appointments_store id (cancel_fields (clock w) a)
                           (rows (appointments w)))
                        (Z.max (nextKey (appointments w)) (id + 1))))
      end
    else (Returned (failure "Failed to cancel appointment"), w).
Proof.
  destruct (available w) eqn:Hav.
  - destruct (appointmentById w id) as [a|] eqn:Hfind.
    + exact (cancelAppointment_run w id a Hav Hfind).
    + unfold cancelAppointment. rewrite get_then, Hav.
      unfold appointmentById in Hfind. simpl. rewrite Hfind. reflexivity.
  - unfold cancelAppointment. rewrite get_then, Hav. reflexivity.
Qed.

Lemma rescheduleAppointment_cases (w : World) (id : Z) (newDate newTime : string) :
  rescheduleAppointment id newDate newTime w =
    if available w then
      match appointmentById w id with
      | None => (Returned (failure "Appointment not found"), w)
      | Some a =>
          if Status_eqb (apt_status a) cancelled then
            (Returned (failure "Cannot reschedule a cancelled appointment"), w)
          else if existsb (slotConflict newDate newTime)
                    (filter (fun r => apt_therapistId r =? apt_therapistId a)
                       (rows (appointments w)))
          then (Returned (failure "The new time slot is not available"), w)
          else
            (Returned (mkResult true "Appointment rescheduled successfully" None),
             withAppointments w
               (mkStore (replace_row appointments_store id
                           (reschedule_fields newDate newTime (clock w) a)
                           (rows (appointments w)))
                        (Z.max (nextKey (appointments w)) (id + 1))))
      end
    else (Returned (failure "Failed to reschedule appointment"), w).
Proof.
  destruct (available w) eqn:Hav.
  - destruct (appointmentById w id) as [a|] eqn:Hfind.
    + exact (rescheduleAppointment_run w id a newDate newTime Hav Hfind).
    + exact (rescheduleAppointment_not_found w id newDate newTime Hav Hfind).
  - exact (rescheduleAppointment_unavailable w id newDate newTime Hav).
Qed.

Lemma bookAppointment_cases (w : World) (userId : Z) (data : AppointmentData) :
  bookAppointment userId data w =
    (Returned (failure "You must be connected with this therapist first"), w)
  \/ bookAppointment userId data w =
       (Returned (failure "This time slot is no longer available"), w)
  \/ (activeConnection w userId (ad_therapistId data)
      /\ ~ slotTaken w (ad_therapistId data) (ad_date data) (ad_time data)
      /\ bookAppointment userId data w =
           (Returned {| success := true;
                        message := "Appointment booked successfully";
                        resultId := Some (nextKey (appointments w)) |},
            withNewAppointment w (bookedAppointment w userId data))).
Proof.
  destruct (available w
            && existsb (fun conn => (conn_therapistId conn =? ad_therapistId data)
                                    && ConnectionStatus_eqb (conn_status conn) active)
                 (filter (fun r => conn_userId r =? userId) (rows (userTherapists w))))
    eqn:Hconn.
  - assert (activeConnection w userId (ad_therapistId data)) as Hact.
    { apply isConnected_true_iff. rewrite isConnected_run, Hconn. reflexivity. }
    destruct (existsb (slotConflict (ad_date data) (ad_time data))
                (filter (fun r => apt_therapistId r =? ad_therapistId data)
                   (rows (appointments w)))) eqn:Hslot.
    + right. left. apply bookAppointment_slot_taken; [exact Hact|].
      apply slotConflict_exists_iff. exact Hslot.
    + right. right.
      assert (~ slotTaken w (ad_therapistId data) (ad_date data) (ad_time data)) as Hfree.
      { intro H. apply slotConflict_exists_iff in H. congruence. }
      split; [exact Hact|]. split; [exact Hfree|].
      apply bookAppointment_success; assumption.
  - left. apply bookAppointment_not_connected.
    intro Hact. apply isConnected_true_iff in Hact.
    rewrite isConnected_run, Hconn in Hact. discriminate.
Qed.

(** ** The double-booking invariant *)

Lemma slotTaken_of_row (w : World) (a : Appointment) :
  In a (rows (appointments w)) ->
  apt_status a <> cancelled ->
  slotTaken w (apt_therapistId a) (apt_date a) (apt_time a).
Proof.
  intros Hin Hst. exists a. repeat split; assumption.
Qed.

Lemma noDoubleBooking_replace (w : World) (id : Z) (a a' : Appointment) :
  keysGenerated appointments_store w ->
  noDoubleBooking w ->
  appointmentById w id = Some a ->
  apt_id a' = apt_id a ->
  (apt_status a' <> cancelled ->
   forall x, In x (rows (appointments w)) -> apt_id x <> Some id ->
             apt_therapistId x = apt_therapistId a' ->
             apt_date x = apt_date a' -> apt_time x = apt_time a' ->
             apt_status x = cancelled) ->
  let w' := withAppointments w
              (mkStore (replace_row appointments_store id a' (rows (appointments w)))
                       (Z.max (nextKey (appointments w)) (id + 1))) in
  keysGenerated appointments_store w' /\ noDoubleBooking w'.
Proof.
  intros [Hnd Hkeys] Hinv Hfind Hid Halone w'.
  destruct (find_has_key_some appointments_store id _ a Hfind) as [Hin Hkey].
  simpl in Hkey.
  assert (key_of appointments_store a' = Some id) as Hkey' by (simpl; congruence).
  pose proof (existsb_has_key_of_find appointments_store id _ a Hfind) as Hex.
  split.
  - exact (keys_replace_row appointments_store id a' _ _ Hkey' Hnd Hkeys Hex).
  - intros x y Hx Hy Hth Hd Ht Hsx Hsy.
    simpl in Hx, Hy.
    apply (In_replace_row_unique appointments_store id a' x _ Hnd) in Hx.
    apply (In_replace_row_unique appointments_store id a' y _ Hnd) in Hy.
    simpl in Hx, Hy.
    destruct Hx as [->|[Hx Hkx]], Hy as [->|[Hy Hky]].
    + reflexivity.
    + exfalso. apply Hsy. apply (Halone Hsx y Hy Hky); congruence.
    + exfalso. apply Hsx. apply (Halone Hsy x Hx Hkx); congruence.
    + apply Hinv; assumption.
Qed.

Lemma noDoubleBooking_add (w : World) (a : Appointment) :
  keysGenerated appointments_store w ->
  noDoubleBooking w ->
  apt_id a = Some (nextKey (appointments w)) ->
  ~ slotTaken w (apt_therapistId a) (apt_date a) (apt_time a) ->
  keysGenerated appointments_store (withNewAppointment w a)
  /\ noDoubleBooking (withNewAppointment w a).
Proof.
  intros [Hnd Hkeys] Hinv Hid Hfree. simpl in Hnd, Hkeys. split; [split|].
  - simpl. rewrite map_app. apply NoDup_app.
    + exact Hnd.
    + simpl. constructor; [intros []|constructor].
    + intros k Hk [Hk'|[]]. apply in_map_iff in Hk. destruct Hk as [r [Hr Hin]].
      destruct (Hkeys r Hin) as [k' [Hk'' Hlt]].
      rewrite Hid in Hk'. rewrite <- Hk' in Hr. rewrite Hk'' in Hr.
      inversion Hr. lia.
  - simpl. intros r Hr. apply in_app_or in Hr. destruct Hr as [Hr|[<-|[]]].
    + destruct (Hkeys r Hr) as [k' [Hk' Hlt]]. exists k'. split; [exact Hk'|lia].
    + exists (nextKey (appointments w)). split; [exact Hid|lia].
  - intros x y Hx Hy Hth Hd Ht Hsx Hsy. simpl in Hx, Hy.
    apply in_app_or in Hx. apply in_app_or in Hy.
    destruct Hx as [Hx|[<-|[]]], Hy as [Hy|[<-|[]]].
    + apply Hinv; assumption.
    + exfalso. apply Hfree. exists x. repeat split; assumption.
    + exfalso. apply Hfree. exists y. repeat split; try congruence; assumption.
    + reflexivity.
Qed.

Lemma not_cancelled_conflict (w : World) (id : Z) (a x : Appointment) :
  noDoubleBooking w ->
  appointmentById w id = Some a ->
  apt_status a <> cancelled ->
  In x (rows (appointments w)) -> apt_id x <> Some id ->
  apt_therapistId x = apt_therapistId a ->
  apt_date x = apt_date a -> apt_time x = apt_time a ->
  apt_status x = cancelled.
Proof.
  intros Hinv Hfind Hst Hx Hkx Hth Hd Ht.
  destruct (find_has_key_some appointments_store id _ a Hfind) as [Hin Hkey].
  simpl in Hkey.
  destruct (apt_status x) eqn:Hsx; [exfalso|exfalso|reflexivity];
    apply Hkx; rewrite (Hinv x a Hx Hin Hth Hd Ht); try exact Hkey; try exact Hst;
    rewrite Hsx; discriminate.
Qed.

(** X1: rescheduleAppointment refuses an unknown or a cancelled
    appointment and a taken slot, each time leaving the world as it was;
    the appointment's own current slot counts as taken, so moving it to
    where it is fails.  Otherwise only the date, the time and the
    rescheduling stamp of that one record change. *)
Theorem rescheduleAppointment_outcomes :
  forall (w : World) (id : Z) (newDate newTime : string),
    available w = true ->
    (appointmentById w id = None ->
     rescheduleAppointment id newDate newTime w =
       (Returned (failure "Appointment not found"), w))
    /\ forall a, appointmentById w id = Some a ->
         (apt_status a = cancelled ->
          rescheduleAppointment id newDate newTime w =
            (Returned (failure "Cannot reschedule a cancelled appointment"), w))
         /\ (apt_status a <> cancelled ->
             slotTaken w (apt_therapistId a) newDate newTime ->
             rescheduleAppointment id newDate newTime w =
               (Returned (failure "The new time slot is not available"), w))
         /\ (apt_status a <> cancelled ->
             rescheduleAppointment id (apt_date a) (apt_time a) w =
               (Returned (failure "The new time slot is not available"), w))
         /\ (apt_status a <> cancelled ->
             ~ slotTaken w (apt_therapistId a) newDate newTime ->
             exists w' a',
               rescheduleAppointment id newDate newTime w =
                 (Returned (mkResult true "Appointment rescheduled successfully" None), w')
               /\ appointmentById w' id = Some a'
               /\ a' = reschedule_fields newDate newTime (clock w) a
               /\ apt_date a' = newDate /\ apt_time a' = newTime
               /\ apt_rescheduledAt a' = Some (clock w)
               /\ apt_status a' = apt_status a
               /\ apt_userId a' = apt_userId a
               /\ apt_therapistId a' = apt_therapistId a
               /\ apt_duration a' = apt_duration a
               /\ (forall k, k <> id -> appointmentById w' k = appointmentById w k)
               /\ List.length (rows (appointments w')) = List.length (rows (appointments w))
               /\ moods w' = moods w
               /\ userTherapists w' = userTherapists w
               /\ therapists w' = therapists w).
Proof.
  intros w id newDate newTime Hav. split.
  - intro Hnone. exact (rescheduleAppointment_not_found w id newDate newTime Hav Hnone).
  - intros a Hfind.
    destruct (find_has_key_some appointments_store id _ a Hfind) as [Hin Hkey].
    pose proof (existsb_has_key_of_find appointments_store id _ a Hfind) as Hex.
    assert (forall d t, apt_status a <> cancelled ->
              slotTaken w (apt_therapistId a) d t ->
              rescheduleAppointment id d t w =
                (Returned (failure "The new time slot is not available"), w)) as Htaken.
    { intros d t Hst Hslot.
      rewrite (rescheduleAppointment_run w id a d t Hav Hfind).
      apply Status_eqb_neq in Hst. rewrite Hst.
      apply slotConflict_exists_iff in Hslot. rewrite Hslot. reflexivity. }
    repeat split.
    + intro Hst. rewrite (rescheduleAppointment_run w id a newDate newTime Hav Hfind).
      apply Status_eqb_eq in Hst. rewrite Hst. reflexivity.
    + apply Htaken.
    + intro Hst. apply (Htaken _ _ Hst). apply slotTaken_of_row; assumption.
    + intros Hst Hfree.
      rewrite (rescheduleAppointment_run w id a newDate newTime Hav Hfind).
      apply Status_eqb_neq in Hst. rewrite Hst.
      destruct (existsb (slotConflict newDate newTime) _) eqn:Hslot.
      { exfalso. apply Hfree. apply slotConflict_exists_iff. exact Hslot. }
      eexists. exists (reschedule_fields newDate newTime (clock w) a).
      split; [reflexivity|].
      split.
      { unfold appointmentById. simpl.
        apply find_replace_row_same; [exact Hkey|exact Hex]. }
      repeat split; try reflexivity.
      * intros k Hk. unfold appointmentById. simpl.
        apply find_replace_row_other; [exact Hk|exact Hkey].
      * simpl. apply length_replace_row.
Qed.

(** X2: if no two live appointments of a therapist share a slot, then none
    do after bookAppointment, cancelAppointment, rescheduleAppointment or
    updateNotes, whatever their arguments and outcome, nor after
    completeAppointment on an appointment that is not cancelled; the keys
    stay distinct and below the generator. *)
Theorem appointment_updates_keep_noDoubleBooking :
  forall w : World,
    keysGenerated appointments_store w ->
    noDoubleBooking w ->
    (forall userId data,
       let w' := snd (bookAppointment userId data w) in
       keysGenerated appointments_store w' /\ noDoubleBooking w')
    /\ (forall id,
          let w' := snd (cancelAppointment id w) in
          keysGenerated appointments_store w' /\ noDoubleBooking w')
    /\ (forall id newDate newTime,
          let w' := snd (rescheduleAppointment id newDate newTime w) in
          keysGenerated appointments_store w' /\ noDoubleBooking w')
    /\ (forall id notes,
          let w' := snd (updateNotes id notes w) in
          keysGenerated appointments_store w' /\ noDoubleBooking w')
    /\ (forall id a,
          appointmentById w id = Some a -> apt_status a <> cancelled ->
          let w' := snd (completeAppointment id w) in
          keysGenerated appointments_store w' /\ noDoubleBooking w').
Proof.
  intros w Hkeys Hinv. repeat apply conj.
  - intros userId data.
    destruct (bookAppointment_cases w userId data) as [H|[H|[_ [Hfree H]]]];
      rewrite H; cbn [snd]; try (split; assumption).
    apply noDoubleBooking_add; try assumption; reflexivity.
  - intros id. rewrite cancelAppointment_cases.
    destruct (available w); [|split; assumption].
    destruct (appointmentById w id) as [a|] eqn:Hfind; [|split; assumption].
    destruct (Status_eqb (apt_status a) cancelled); [split; assumption|].
    cbn [snd].
    apply (noDoubleBooking_replace w id a); try assumption; try reflexivity.
    intros Hst. exfalso. apply Hst. reflexivity.
  - intros id newDate newTime. rewrite rescheduleAppointment_cases.
    destruct (available w); [|split; assumption].
    destruct (appointmentById w id) as [a|] eqn:Hfind; [|split; assumption].
    destruct (Status_eqb (apt_status a) cancelled); [split; assumption|].
    destruct (existsb (slotConflict newDate newTime) _) eqn:Hslot; [split; assumption|].
    cbn [snd].
    apply (noDoubleBooking_replace w id a); try assumption; try reflexivity.
    intros _ x Hx _ Hth Hd Ht. simpl in Hth, Hd, Ht.
    destruct (apt_status x) eqn:Hsx; [exfalso|exfalso|reflexivity];
      (assert (slotTaken w (apt_therapistId a) newDate newTime) as Htaken
         by (exists x; repeat split; try assumption; rewrite Hsx; discriminate));
      apply slotConflict_exists_iff in Htaken; congruence.
  - intros id notes. rewrite updateNotes_run.
    destruct (available w); [|split; assumption].
    destruct (appointmentById w id) as [a|] eqn:Hfind; [|split; assumption].
    cbn [snd].
    apply (noDoubleBooking_replace w id a); try assumption; try reflexivity.
    intros Hst x Hx Hkx Hth Hd Ht. simpl in Hst, Hth, Hd, Ht.
    exact (not_cancelled_conflict w id a x Hinv Hfind Hst Hx Hkx Hth Hd Ht).
  - intros id a Hfind Hst. rewrite completeAppointment_run.
    destruct (available w); [|split; assumption].
    rewrite Hfind. cbn [snd].
    apply (noDoubleBooking_replace w id a); try assumption; try reflexivity.
    intros _ x Hx Hkx Hth Hd Ht. simpl in Hth, Hd, Ht.
    exact (not_cancelled_conflict w id a x Hinv Hfind Hst Hx Hkx Hth Hd Ht).
Qed.

(** X3: completeAppointment looks at neither the status nor the date: any
    stored appointment, a cancelled one as well, ends up completed and in
    the user's past list.  When another live appointment of the therapist
    has the same slot (the slot of a cancelled appointment can be booked
    again), completing leaves two live appointments in one slot. *)
Theorem completeAppointment_is_unconditional :
  forall (w : World) (id : Z) (a : Appointment),
    available w = true ->
    appointmentById w id = Some a ->
    exists w' past,
      completeAppointment id w =
        (Returned (mkResult true "Appointment marked as completed" None), w')
      /\ appointmentById w' id = Some (complete_fields (clock w) a)
      /\ apt_status (complete_fields (clock w) a) = completed
      /\ apt_completedAt (complete_fields (clock w) a) = Some (clock w)
      /\ (forall k, k <> id -> appointmentById w' k = appointmentById w k)
      /\ getPastAppointments (apt_userId a) w' = (Returned past, w')
      /\ In (complete_fields (clock w) a) past
      /\ (forall b, In b (rows (appointments w)) -> apt_id b <> Some id ->
                    apt_therapistId b = apt_therapistId a ->
                    apt_date b = apt_date a -> apt_time b = apt_time a ->
                    apt_status b <> cancelled ->
                    ~ noDoubleBooking w').
Proof.
  intros w id a Hav Hfind.
  destruct (find_has_key_some appointments_store id _ a Hfind) as [Hin Hkey].
  pose proof (existsb_has_key_of_find appointments_store id _ a Hfind) as Hex.
  rewrite completeAppointment_run, Hav, Hfind.
  eexists. eexists. split; [reflexivity|].
  assert (In (complete_fields (clock w) a)
            (replace_row appointments_store id (complete_fields (clock w) a)
               (rows (appointments w)))) as Hnew.
  { apply In_replace_row_data. exact Hex. }
  split; [|split; [|split; [|split; [|split; [|split]]]]].
  - unfold appointmentById. simpl. apply find_replace_row_same; [exact Hkey|exact Hex].
  - reflexivity.
  - reflexivity.
  - intros k Hk. unfold appointmentById. simpl.
    apply find_replace_row_other; [exact Hk|exact Hkey].
  - apply getPastAppointments_run. exact Hav.
  - apply In_sort. apply filter_In. split.
    + unfold appointmentsOfUser. apply filter_In. split; [exact Hnew|].
      simpl. apply Z.eqb_refl.
    + simpl. apply orb_true_r.
  - intros b Hb Hkb Hth Hd Ht Hsb Hinv.
    assert (complete_fields (clock w) a = b) as Heq.
    { apply (Hinv (complete_fields (clock w) a) b); simpl;
        [exact Hnew| |congruence|congruence|congruence|discriminate|exact Hsb].
      apply In_replace_row_other; [exact Hb|].
      apply has_key_false_iff. exact Hkb. }
    apply Hkb. rewrite <- Heq. exact Hkey.
Qed.

Lemma bookedTimes_withNewAppointment (w : World) (a : Appointment) :
  apt_status a <> cancelled ->
  bookedTimes (withNewAppointment w a) (apt_therapistId a) (apt_date a)
  = bookedTimes w (apt_therapistId a) (apt_date a) ++ [apt_time a].
Proof.
  intro Hst. unfold bookedTimes. simpl.
  rewrite !filter_app, map_app. f_equal.
  simpl. rewrite Z.eqb_refl. simpl. rewrite String.eqb_refl.
  apply Status_eqb_neq in Hst. rewrite Hst. reflexivity.
Qed.

Lemma includes_app_one (l : list string) (t x : string) :
  includes (l ++ [t]) x = includes l x || String.eqb x t.
Proof.
  unfold includes. rewrite existsb_app. simpl. rewrite orb_false_r. reflexivity.
Qed.

Lemma filter_filter {A : Type} (f g : A -> bool) (l : list A) :
  filter f (filter g l) = filter (fun x => g x && f x) l.
Proof.
  induction l as [|x l IH]; simpl; [reflexivity|].
  destruct (g x); simpl; [destruct (f x)|]; rewrite IH; reflexivity.
Qed.

(** X4: once bookAppointment has stored an appointment, isSlotAvailable
    answers false for its slot, every further booking of that slot, by
    whichever user, is refused without a change, and the slot, and no
    other, disappears from what getAvailableSlots offers for that date. *)
Theorem bookAppointment_takes_the_slot :
  forall (w : World) (userId : Z) (data : AppointmentData),
    activeConnection w userId (ad_therapistId data) ->
    ~ slotTaken w (ad_therapistId data) (ad_date data) (ad_time data) ->
    let w' := snd (bookAppointment userId data w) in
    isSlotAvailable (ad_therapistId data) (ad_date data) (ad_time data) w'
      = (Returned false, w')
    /\ (forall userId2 data2,
          ad_therapistId data2 = ad_therapistId data ->
          ad_date data2 = ad_date data -> ad_time data2 = ad_time data ->
          exists msg, bookAppointment userId2 data2 w' = (Returned (failure msg), w'))
    /\ (forall fuel duration th slots,
          therapistById w (ad_therapistId data) = Some th ->
          getAvailableSlots fuel (ad_therapistId data) (ad_date data) duration w
            = (Returned slots, w) ->
          getAvailableSlots fuel (ad_therapistId data) (ad_date data) duration w'
            = (Returned (filter (fun slot => negb (String.eqb slot (ad_time data))) slots),
               w')).
Proof.
  intros w userId data Hact Hfree w'.
  assert (w' = withNewAppointment w (bookedAppointment w userId data)) as Hw'.
  { unfold w'. rewrite (bookAppointment_success w userId data Hact Hfree). reflexivity. }
  clearbody w'. subst w'.
  set (a := bookedAppointment w userId data).
  assert (slotTaken (withNewAppointment w a) (ad_therapistId data) (ad_date data)
            (ad_time data)) as Htaken.
  { exists a. repeat split; try reflexivity.
    - simpl. apply in_or_app. right. now left.
    - discriminate. }
  destruct Hact as [Hav Hconn].
  split; [|split].
  - rewrite isSlotAvailable_run.
    apply slotConflict_exists_iff in Htaken. rewrite Htaken.
    rewrite andb_false_r. reflexivity.
  - intros userId2 data2 Hth Hd Ht.
    destruct (bookAppointment_cases (withNewAppointment w a) userId2 data2)
      as [H|[H|[_ [Hfree2 _]]]].
    + eexists. exact H.
    + eexists. exact H.
    + exfalso. apply Hfree2. rewrite Hth, Hd, Ht. exact Htaken.
  - intros fuel duration th slots Hth Hrun.
    rewrite (getAvailableSlots_run fuel w _ _ duration th Hav Hth) in Hrun.
    rewrite (getAvailableSlots_run fuel (withNewAppointment w a) _ _ duration th Hav Hth).
    destruct (worksOn th (ad_date data)).
    + destruct (generateTimeSlots fuel 9 17 _) as [allSlots|]; [|discriminate].
      inversion Hrun as [Hslots]. f_equal. f_equal.
      change (ad_therapistId data) with (apt_therapistId a).
      change (ad_date data) with (apt_date a).
      rewrite bookedTimes_withNewAppointment by discriminate.
      rewrite filter_filter. apply filter_ext. intro slot.
      rewrite includes_app_one, negb_orb. reflexivity.
    + inversion Hrun. reflexivity.
Qed.

(** X5: under the double-booking invariant a successful cancelAppointment
    frees the slot: isSlotAvailable answers true for it afterwards.  The
    cancelled record stays in the store; cancelling or rescheduling it
    again is refused without a change. *)
Theorem cancelAppointment_frees_the_slot :
  forall (w : World) (id : Z) (a : Appointment),
    available w = true ->
    keysGenerated appointments_store w ->
    noDoubleBooking w ->
    appointmentById w id = Some a ->
    apt_status a <> cancelled ->
    let w' := snd (cancelAppointment id w) in
    ~ slotTaken w' (apt_therapistId a) (apt_date a) (apt_time a)
    /\ isSlotAvailable (apt_therapistId a) (apt_date a) (apt_time a) w'
       = (Returned true, w')
    /\ appointmentById w' id = Some (cancel_fields (clock w) a)
    /\ cancelAppointment id w'
       = (Returned (failure "Appointment is already cancelled"), w')
    /\ (forall newDate newTime,
          rescheduleAppointment id newDate newTime w'
          = (Returned (failure "Cannot reschedule a cancelled appointment"), w')).
Proof.
  intros w id a Hav [Hnd Hkeys] Hinv Hfind Hst w'.
  destruct (find_has_key_some appointments_store id _ a Hfind) as [Hin Hkey].
  pose proof (existsb_has_key_of_find appointments_store id _ a Hfind) as Hex.
  assert (w' = withAppointments w
                 (mkStore (replace_row appointments_store id (cancel_fields (clock w) a)
                             (rows (appointments w)))
                          (Z.max (nextKey (appointments w)) (id + 1)))) as Hw'.
  { unfold w'. rewrite (cancelAppointment_run w id a Hav Hfind).
    pose proof Hst as Hst'. apply Status_eqb_neq in Hst'. rewrite Hst'. reflexivity. }
  clearbody w'. subst w'.
  set (w' := withAppointments w _).
  assert (available w' = true) as Hav' by exact Hav.
  assert (appointmentById w' id = Some (cancel_fields (clock w) a)) as Hfind'.
  { unfold appointmentById. simpl. apply find_replace_row_same; [exact Hkey|exact Hex]. }
  assert (~ slotTaken w' (apt_therapistId a) (apt_date a) (apt_time a)) as Hfree.
  { intros [x [Hx [Hth [Hd [Ht Hsx]]]]]. simpl in Hx.
    apply (In_replace_row_unique appointments_store id _ x _ Hnd) in Hx.
    destruct Hx as [->|[Hx Hkx]].
    - apply Hsx. reflexivity.
    - apply Hkx. rewrite (Hinv x a Hx Hin Hth Hd Ht Hsx Hst). exact Hkey. }
  split; [exact Hfree|]. split; [|split; [exact Hfind'|split]].
  - rewrite isSlotAvailable_run, Hav'.
    destruct (existsb (slotConflict (apt_date a) (apt_time a)) _) eqn:Hslot;
      [|reflexivity].
    exfalso. apply Hfree. apply slotConflict_exists_iff. exact Hslot.
  - rewrite (cancelAppointment_run w' id _ Hav' Hfind'). reflexivity.
  - intros newDate newTime.
    rewrite (rescheduleAppointment_run w' id _ newDate newTime Hav' Hfind'). reflexivity.
Qed.

(** ** Queries over the appointments of a user *)

Lemma Permutation_filter {A : Type} (keep : A -> bool) (xs ys : list A) :
  Permutation xs ys -> Permutation (filter keep xs) (filter keep ys).
Proof.
  induction 1 as [|x l l' _ IH|x y l|l l' l'' _ IH1 _ IH2]; simpl.
  - constructor.
  - destruct (keep x); [constructor|]; exact IH.
  - destruct (keep x), (keep y); try apply Permutation_refl. constructor.
  - eapply Permutation_trans; eassumption.
Qed.

Lemma length_filter_sort {A : Type} (f : A -> bool) (compareFn : A -> A -> option Z)
    (l : list A) :
  List.length (filter f (sort compareFn l)) = List.length (filter f l).
Proof.
  apply Permutation_length, Permutation_filter, sort_perm.
Qed.

Lemma fold_left_add_shift {A : Type} (g : A -> Z) (l : list A) (acc : Z) :
  fold_left (fun sum x => sum + g x) l acc = acc + fold_left (fun sum x => sum + g x) l 0.
Proof.
  revert acc. induction l as [|x l IH]; intro acc; simpl; [lia|].
  rewrite (IH (acc + g x)), (IH (g x)). lia.
Qed.

Lemma fold_left_add_perm {A : Type} (g : A -> Z) (l l' : list A) :
  Permutation l l' ->
  fold_left (fun sum x => sum + g x) l 0 = fold_left (fun sum x => sum + g x) l' 0.
Proof.
  induction 1 as [|x l l' _ IH|x y l|l l' l'' _ IH1 _ IH2]; simpl.
  - reflexivity.
  - rewrite (fold_left_add_shift g l), (fold_left_add_shift g l'), IH. reflexivity.
  - rewrite (fold_left_add_shift g l (g y + g x)), (fold_left_add_shift g l (g x + g y)).
    lia.
  - congruence.
Qed.

Lemma getAllAppointments_run (w : World) (userId : Z) :
  getAllAppointments userId w =
    (Returned (if available w
               then sort (fun a b => Date_sub (aptDateTime b) (aptDateTime a))
                      (appointmentsOfUser w userId)
               else []),
     w).
Proof.
  unfold getAllAppointments. rewrite getByIndex_then.
  destruct (available w); reflexivity.
Qed.

Lemma Date_gt_some (a : Appointment) (now : Z) :
  Date_gt (aptDateTime a) (Some now) = true ->
  aptDateTime a = Some (aptTime a) /\ now < aptTime a.
Proof.
  unfold Date_gt. intro H. apply Date_lt_iff in H.
  destruct H as [x [y [Hx [Hy Hlt]]]]. inversion Hx; subst x.
  unfold aptTime. rewrite Hy. split; [reflexivity|exact Hlt].
Qed.

Lemma upcoming_sorted (w : World) (userId : Z) :
  StronglySorted (fun a b => aptTime a <= aptTime b)
    (sort (fun a b => Date_sub (aptDateTime a) (aptDateTime b))
       (filter (fun apt => Date_gt (aptDateTime apt) (Some (clock w))
                           && Status_eqb (apt_status apt) confirmed)
          (appointmentsOfUser w userId))).
Proof.
  assert (forall l : list Appointment,
            StronglySorted (fun a b => - aptTime b <= - aptTime a) l ->
            StronglySorted (fun a b => aptTime a <= aptTime b) l) as Hflip.
  { induction 1 as [|x l _ IH Hall]; constructor; [exact IH|].
    revert Hall. apply Forall_impl. intros y Hy. lia. }
  apply Hflip.
  apply (sort_sorted (fun a => - aptTime a)).
  intros x y Hx Hy.
  apply filter_In in Hx. apply filter_In in Hy.
  destruct Hx as [_ Hx], Hy as [_ Hy].
  apply andb_prop in Hx. apply andb_prop in Hy.
  destruct (Date_gt_some x _ (proj1 Hx)) as [Htx _].
  destruct (Date_gt_some y _ (proj1 Hy)) as [Hty _].
  rewrite Htx, Hty. simpl. f_equal. lia.
Qed.

(** X6: getNextAppointment returns the first element of what
    getUpcomingAppointments lists: nothing when the user has no confirmed
    appointment in the future (or the database cannot be read), otherwise a
    confirmed future appointment that starts no later than any other one. *)
Theorem getNextAppointment_is_the_earliest :
  forall (w : World) (userId : Z),
    (available w = false -> getNextAppointment userId w = (Returned None, w))
    /\ (available w = true ->
        exists upcoming,
          getUpcomingAppointments userId w = (Returned upcoming, w)
          /\ getNextAppointment userId w = (Returned (hd_error upcoming), w)
          /\ (hd_error upcoming = None <->
              forall a, In a (appointmentsOfUser w userId) ->
                        apt_status a = confirmed ->
                        ~ instantBefore (Some (clock w)) (aptDateTime a))
          /\ forall first, hd_error upcoming = Some first ->
               In first (appointmentsOfUser w userId)
               /\ apt_status first = confirmed
               /\ aptDateTime first = Some (aptTime first)
               /\ clock w < aptTime first
               /\ forall a, In a (appointmentsOfUser w userId) ->
                            apt_status a = confirmed ->
                            instantBefore (Some (clock w)) (aptDateTime a) ->
                            aptDateTime a = Some (aptTime a)
                            /\ aptTime first <= aptTime a).
Proof.
  intros w userId. split.
  - intro Hav. unfold getNextAppointment, getUpcomingAppointments.
    unfold try_catch at 1. unfold bind at 1.
    rewrite getByIndex_then, Hav. reflexivity.
  - intro Hav.
    pose proof (getUpcomingAppointments_run w userId Hav) as Hrun.
    pose proof (upcoming_sorted w userId) as Hsorted.
    set (P := fun apt => Date_gt (aptDateTime apt) (Some (clock w))
                         && Status_eqb (apt_status apt) confirmed) in *.
    set (upcoming := sort _ _) in *.
    assert (forall a, In a upcoming <->
              In a (appointmentsOfUser w userId)
              /\ apt_status a = confirmed
              /\ instantBefore (Some (clock w)) (aptDateTime a)) as Hmem.
    { intro a. unfold upcoming. rewrite In_sort, filter_In. unfold P.
      rewrite andb_true_iff, Status_eqb_eq. unfold Date_gt. rewrite Date_lt_iff.
      tauto'. }
    exists upcoming. split; [exact Hrun|]. split; [|split].
    + unfold getNextAppointment, try_catch, bind. rewrite Hrun.
      destruct upcoming; reflexivity.
    + split.
      * intros Hnone a Ha Hst Hfut.
        assert (In a upcoming) as Hin by (apply Hmem; tauto').
        destruct upcoming; [exact Hin|discriminate].
      * intros Hno. destruct upcoming as [|a rest] eqn:Hup; [reflexivity|].
        exfalso. assert (In a upcoming) as Hin by (rewrite Hup; now left).
        rewrite <- Hup in Hmem. apply Hmem in Hin. destruct Hin as [Ha [Hst Hfut]].
        exact (Hno a Ha Hst Hfut).
    + intros first Hfirst.
      destruct upcoming as [|x rest] eqn:Hup; [discriminate|].
      simpl in Hfirst. inversion Hfirst; subst x.
      rewrite <- Hup in Hmem.
      assert (In first upcoming) as Hin by (rewrite Hup; now left).
      apply Hmem in Hin. destruct Hin as [Ha [Hst Hfut]].
      assert (forall a, instantBefore (Some (clock w)) (aptDateTime a) ->
                aptDateTime a = Some (aptTime a) /\ clock w < aptTime a) as Hsome.
      { intros a Hb. apply Date_gt_some. unfold Date_gt. apply Date_lt_iff. exact Hb. }
      destruct (Hsome first Hfut) as [Ht Hlt].
      repeat split; try assumption.
      * apply (Hsome a). assumption.
      * assert (In a upcoming) as Hina by (apply Hmem; tauto').
        rewrite Hup in Hina. destruct Hina as [<-|Hina]; [lia|].
        inversion Hsorted as [|? ? _ Hall]; subst.
        rewrite Forall_forall in Hall. exact (Hall a Hina).
Qed.

Lemma three_filters_le {A : Type} (f g h : A -> bool) (l : list A) :
  (forall x, f x = true -> g x = false /\ h x = false) ->
  (forall x, g x = true -> h x = false) ->
  (List.length (filter f l) + List.length (filter g l) + List.length (filter h l)
   <= List.length l)%nat.
Proof.
  intros Hf Hg. induction l as [|x l IH]; simpl; [lia|].
  destruct (f x) eqn:Hfx.
  - destruct (Hf x Hfx) as [-> ->]. simpl. lia.
  - destruct (g x) eqn:Hgx.
    + rewrite (Hg x Hgx). simpl. lia.
    + destruct (h x); simpl; lia.
Qed.

(** X7: getAppointmentStats never fails and changes nothing.  Its counts
    are those of the user's stored appointments: the total, the length of
    what getUpcomingAppointments lists, the completed and the cancelled
    ones, whose durations and numbers add up as expected; the three partial
    counts never exceed the total.  When the database cannot be read the
    counts are zero and totalHours is the string of 0.0, not the number 0
    of the function's own handler, which is never reached. *)
Theorem getAppointmentStats_counts :
  forall (w : World) (userId : Z),
    exists s,
      getAppointmentStats userId w = (Returned s, w)
      /\ (available w = false ->
          s = mkAppointmentStats 0 0 0 0 (AvgString (Fixed1 false 0)))
      /\ (available w = true ->
          let mine := appointmentsOfUser w userId in
          let done := filter (fun apt => Status_eqb (apt_status apt) completed) mine in
          stats_total s = List.length mine
          /\ stats_completed s = List.length done
          /\ stats_cancelled s
             = List.length (filter (fun apt => Status_eqb (apt_status apt) cancelled) mine)
          /\ (exists upcoming,
                getUpcomingAppointments userId w = (Returned upcoming, w)
                /\ stats_upcoming s = List.length upcoming)
          /\ stats_totalHours s
             = AvgString
                 (toFixed1 (Z2float (fold_left (fun sum apt => sum + apt_duration apt) done 0)
                            / 60))
          /\ (stats_upcoming s + stats_completed s + stats_cancelled s
              <= stats_total s)%nat).
Proof.
  intros w userId.
  unfold getAppointmentStats, try_catch, bind.
  rewrite getAllAppointments_run. unfold Date_now, ret.
  eexists. split; [reflexivity|]. split.
  - intros Hav. rewrite Hav. vm_compute. reflexivity.
  - intros Hav. rewrite Hav. cbn [stats_total stats_upcoming stats_completed
      stats_cancelled stats_totalHours].
    set (cmp := fun a b : Appointment => Date_sub (aptDateTime b) (aptDateTime a)).
    set (mine := appointmentsOfUser w userId).
    repeat split.
    + apply Permutation_length, sort_perm.
    + apply length_filter_sort.
    + apply length_filter_sort.
    + eexists. split; [apply getUpcomingAppointments_run; exact Hav|].
      rewrite (Permutation_length (sort_perm _ _)).
      apply length_filter_sort.
    + do 4 f_equal. apply (fold_left_add_perm apt_duration). apply Permutation_filter, sort_perm.
    + apply three_filters_le.
      * intros x Hx. apply andb_prop in Hx. destruct Hx as [_ Hx].
        apply Status_eqb_eq in Hx. rewrite Hx. split; reflexivity.
      * intros x Hx. apply Status_eqb_eq in Hx. rewrite Hx. reflexivity.
Qed.

(** X8: getAllAppointments returns exactly the user's stored appointments,
    each as often as it is stored, and, when all their dates are valid,
    latest first.  It never fails: an unreadable database gives the empty
    list. *)
Theorem getAllAppointments_sorted_latest_first :
  forall (w : World) (userId : Z),
    exists l,
      getAllAppointments userId w = (Returned l, w)
      /\ (available w = false -> l = [])
      /\ (available w = true ->
          Permutation l (appointmentsOfUser w userId)
          /\ ((forall a, In a (appointmentsOfUser w userId) -> aptDateTime a <> None) ->
              StronglySorted (fun a b => aptTime b <= aptTime a) l)).
Proof.
  intros w userId. rewrite getAllAppointments_run.
  eexists. split; [reflexivity|]. split; intro Hav; rewrite Hav; [reflexivity|].
  split; [apply sort_perm|].
  intros Hvalid. apply (sort_sorted aptTime).
  intros x y Hx Hy. unfold aptTime.
  pose proof (Hvalid x Hx) as Hvx. pose proof (Hvalid y Hy) as Hvy.
  destruct (aptDateTime x), (aptDateTime y); try congruence. reflexivity.
Qed.

(** X9: bookAppointment never asks hasConflict.  A connected user whose
    own live appointment overlaps the requested time is still booked when
    the therapist's slot is free, although hasConflict reports the conflict
    for the same request. *)
Theorem bookAppointment_ignores_hasConflict :
  forall (w : World) (userId : Z) (data : AppointmentData) (apt : Appointment),
    activeConnection w userId (ad_therapistId data) ->
    ~ slotTaken w (ad_therapistId data) (ad_date data) (ad_time data) ->
    In apt (rows (appointments w)) ->
    apt_userId apt = userId ->
    apt_date apt = ad_date data ->
    apt_status apt <> cancelled ->
    let start := dateTimeOf (ad_date data) (ad_time data) in
    let duration := or_number (ad_duration data) 50 in
    instantBefore start (intervalEnd (aptDateTime apt) (apt_duration apt)) ->
    instantBefore (aptDateTime apt) (intervalEnd start duration) ->
    hasConflict userId (ad_date data) (ad_time data) duration w = (Returned true, w)
    /\ exists w',
         bookAppointment userId data w =
           (Returned (mkResult true "Appointment booked successfully"
                        (Some (nextKey (appointments w)))), w')
         /\ In apt (rows (appointments w'))
         /\ In (bookedAppointment w userId data) (rows (appointments w')).
Proof.
  intros w userId data apt Hact Hfree Hin Huser Hdate Hst start duration Hov1 Hov2.
  split.
  - destruct (hasConflict_semantics w userId (ad_date data) (ad_time data) duration)
      as [Hsem _].
    destruct (Hsem (proj1 Hact)) as [b [Hrun Hb]].
    rewrite Hrun. f_equal. f_equal. apply Hb.
    exists apt. repeat split; assumption.
  - eexists. split; [exact (bookAppointment_success w userId data Hact Hfree)|].
    simpl. split; apply in_or_app; [left; exact Hin|right; now left].
Qed.

(** X10: getTherapistAvailability of TherapistManager and
    getAvailableSlots of AppointmentManager, which differ in the order of
    their steps, give the same outcome in every world when the latter is
    called with its default duration. *)
Theorem getTherapistAvailability_is_getAvailableSlots :
  forall (fuel : nat) (therapistId : Z) (date : string) (w : World),
    getTherapistAvailability fuel therapistId date w
    = getAvailableSlots fuel therapistId date None w
    /\ getTherapistAvailability fuel therapistId date w
       = getAvailableSlots fuel therapistId date (Some 50) w.
Proof.
  intros fuel therapistId date w.
  assert (getTherapistAvailability fuel therapistId date w
          = getAvailableSlots fuel therapistId date (Some 50) w) as H.
  { unfold getTherapistAvailability, getAvailableSlots. rewrite !get_then.
    destruct (available w) eqn:Hav; [|reflexivity].
    destruct (find _ _) as [th|]; [|reflexivity].
    destruct (negb _); [reflexivity|].
    unfold try_catch, bind, run_loop.
    rewrite (db_getByIndex_available appointments_store apt_therapistId therapistId w Hav).
    destruct (generateTimeSlots fuel 9 17 50); [|reflexivity].
    rewrite (db_getByIndex_available appointments_store apt_therapistId therapistId w Hav).
    reflexivity. }
  split; [exact H|exact H].
Qed.

(** ** DateUtils.getWeekRange and getWeekAppointments *)

Lemma atDay_div (day timeOfDay : Z) :
  0 <= timeOfDay < msPerDay ->
  atDay day timeOfDay / msPerDay = day /\ atDay day timeOfDay mod msPerDay = timeOfDay.
Proof.
  intro H. unfold atDay. split.
  - rewrite Z.add_comm, Z.div_add by discriminate.
    rewrite Z.div_small by exact H. reflexivity.
  - rewrite Z.add_comm, Z.mod_add by discriminate.
    apply Z.mod_small. exact H.
Qed.

Lemma timeOfDay_range (t : Z) : 0 <= t mod msPerDay < msPerDay.
Proof. apply Z.mod_pos_bound. reflexivity. Qed.

Lemma getWeekRange_days (now : Z) :
  getWeekRange now =
    (atDay (fst (weekRangeDays (now / msPerDay))) (now mod msPerDay),
     atDay (snd (weekRangeDays (now / msPerDay))) (now mod msPerDay)).
Proof.
  unfold getWeekRange, weekRangeDays, Date_getDate, Date_getDay, Date_setDate.
  destruct (civil_from_days (now / msPerDay)) as [[y m] d].
  set (startDay := days_from_civil y m 1 + (d - (now / msPerDay + 4) mod 7) - 1).
  fold (atDay startDay (now mod msPerDay)).
  destruct (atDay_div startDay (now mod msPerDay) (timeOfDay_range now)) as [-> ->].
  destruct (civil_from_days startDay) as [[y' m'] d'].
  reflexivity.
Qed.

Lemma weekRangeCheck_from_all (n : nat) :
  forall day, weekRangeCheck_from n day = true ->
  forall k, day <= k < day + Z.of_nat n -> weekRangeCheck k = true.
Proof.
  induction n as [|n IH]; intros day Hall k Hk; [lia|].
  cbn [weekRangeCheck_from] in Hall. apply andb_prop in Hall. destruct Hall as [Hday Hrest].
  destruct (Z.eq_dec k day) as [->|Hne]; [exact Hday|].
  apply (IH (day + 1) Hrest). lia.
Qed.

Lemma weekRangeCheck_century :
  weekRangeCheck_from (Z.to_nat (day2100 - day2000)) day2000 = true.
Proof. vm_compute. reflexivity. Qed.

Lemma weekRangeCheck_in_century (day : Z) :
  day2000 <= day < day2100 -> weekRangeCheck day = true.
Proof.
  intro H. apply (weekRangeCheck_from_all _ _ weekRangeCheck_century).
  unfold day2000, day2100 in *. lia.
Qed.

Lemma weekRangeDays_in_century (now : Z) :
  day2000 * msPerDay <= now < day2100 * msPerDay ->
  let day := now / msPerDay in
  fst (weekRangeDays day) = day - Date_getDay now
  /\ (Date_getDay now < Date_getDate now ->
      snd (weekRangeDays day) = day - Date_getDay now + 6)
  /\ (Date_getDate now <= Date_getDay now ->
      snd (weekRangeDays day) < fst (weekRangeDays day)).
Proof.
  intros Hrange day.
  assert (day2000 <= day < day2100) as Hday.
  { unfold day. split.
    - apply Z.div_le_lower_bound; [reflexivity|]. rewrite Z.mul_comm. apply Hrange.
    - apply Z.div_lt_upper_bound; [reflexivity|]. rewrite Z.mul_comm. apply Hrange. }
  pose proof (weekRangeCheck_in_century day Hday) as Hcheck.
  unfold Date_getDate, Date_getDay. fold day.
  unfold weekRangeCheck in Hcheck.
  destruct (civil_from_days day) as [[y m] d].
  destruct (weekRangeDays day) as [startDay endDay]. cbn [fst snd].
  destruct ((day + 4) mod 7 <? d) eqn:Hcase;
    apply andb_prop in Hcheck; destruct Hcheck as [Hs He]; apply Z.eqb_eq in Hs.
  - apply Z.eqb_eq in He. apply Z.ltb_lt in Hcase.
    split; [exact Hs|]. split; intro H; lia.
  - apply Z.ltb_lt in He. apply Z.ltb_ge in Hcase.
    split; [exact Hs|]. split; intro H; lia.
Qed.

Lemma atDay_lt (day day' timeOfDay : Z) :
  day < day' -> atDay day timeOfDay < atDay day' timeOfDay.
Proof. unfold atDay, msPerDay. lia. Qed.

(** X11: getWeekRange moves one Date object twice with setDate.  For a
    date from 2000 through 2099 whose week's Sunday lies in the month of
    the date, the range is that Sunday to the Saturday after it, both at
    the time of day of the date.  When the Sunday lies in the month before
    (the day of the month is at most the number of the weekday), the start
    is still that Sunday, but the end is computed in the earlier month and
    lies before the start. *)
Theorem getWeekRange_outcomes :
  forall now : Z,
    day2000 * msPerDay <= now < day2100 * msPerDay ->
    let day := now / msPerDay in
    let timeOfDay := now mod msPerDay in
    let sunday := day - Date_getDay now in
    (Date_getDay now < Date_getDate now ->
     getWeekRange now = (atDay sunday timeOfDay, atDay (sunday + 6) timeOfDay))
    /\ (Date_getDate now <= Date_getDay now ->
        fst (getWeekRange now) = atDay sunday timeOfDay
        /\ snd (getWeekRange now) < fst (getWeekRange now)).
Proof.
  intros now Hrange day timeOfDay sunday.
  destruct (weekRangeDays_in_century now Hrange) as [Hstart [Hsame Hbefore]].
  fold day in Hstart, Hsame, Hbefore. fold sunday in Hstart, Hsame.
  rewrite getWeekRange_days. fold day timeOfDay. cbn [fst snd].
  split; intro Hcase.
  - rewrite Hstart, (Hsame Hcase). reflexivity.
  - split.
    + rewrite Hstart. reflexivity.
    + apply atDay_lt. exact (Hbefore Hcase).
Qed.

Lemma getWeekAppointments_run (w : World) (userId : Z) :
  getWeekAppointments userId w =
    (Returned
       (if available w then
          filter (fun apt =>
                    Date_ge (Date_parse (apt_date apt)) (Some (fst (getWeekRange (clock w))))
                    && Date_le (Date_parse (apt_date apt))
                         (Some (snd (getWeekRange (clock w))))
                    && negb (Status_eqb (apt_status apt) cancelled))
            (appointmentsOfUser w userId)
        else []),
     w).
Proof.
  unfold getWeekAppointments, try_catch, bind, Date_now.
  destruct (getWeekRange (clock w)) as [start end_]. cbn [fst snd].
  destruct (available w) eqn:Hav.
  - rewrite (db_getByIndex_available appointments_store apt_userId userId w Hav).
    reflexivity.
  - rewrite (db_getByIndex_unavailable appointments_store apt_userId userId w Hav).
    reflexivity.
Qed.

(** X12: getWeekAppointments keeps the user's appointments that are not
    cancelled and whose date, as the engine reads it, lies between this
    week's Sunday and Saturday at the present time of day; so in a week
    whose Sunday lies in the month before today it lists nothing at all,
    whatever is stored. *)
Theorem getWeekAppointments_outcomes :
  forall (w : World) (userId : Z),
    day2000 * msPerDay <= clock w < day2100 * msPerDay ->
    let day := clock w / msPerDay in
    let timeOfDay := clock w mod msPerDay in
    let sunday := day - Date_getDay (clock w) in
    (Date_getDate (clock w) <= Date_getDay (clock w) ->
     getWeekAppointments userId w = (Returned [], w))
    /\ (Date_getDay (clock w) < Date_getDate (clock w) ->
        available w = true ->
        exists l,
          getWeekAppointments userId w = (Returned l, w)
          /\ forall a, In a l <->
               In a (appointmentsOfUser w userId)
               /\ apt_status a <> cancelled
               /\ exists t, Date_parse (apt_date a) = Some t
                            /\ atDay sunday timeOfDay <= t <= atDay (sunday + 6) timeOfDay).
Proof.
  intros w userId Hrange day timeOfDay sunday.
  destruct (weekRangeDays_in_century (clock w) Hrange) as [Hstart [Hsame Hbefore]].
  fold day in Hstart, Hsame, Hbefore. fold sunday in Hstart, Hsame.
  rewrite getWeekAppointments_run, getWeekRange_days. fold day timeOfDay. cbn [fst snd].
  split.
  - intro Hcase.
    pose proof (atDay_lt _ _ timeOfDay (Hbefore Hcase)) as Hlt.
    destruct (available w); [|reflexivity].
    f_equal. f_equal.
    induction (appointmentsOfUser w userId) as [|a l IH]; [reflexivity|].
    cbn [filter]. rewrite IH.
    unfold Date_le, Date_ge.
    destruct (Date_parse (apt_date a)) as [t|]; [|reflexivity].
    destruct (atDay (fst (weekRangeDays day)) timeOfDay <=? t) eqn:H1; [|reflexivity].
    destruct (t <=? atDay (snd (weekRangeDays day)) timeOfDay) eqn:H2; [|reflexivity].
    apply Z.leb_le in H1, H2. lia.
  - intros Hcase Hav. rewrite Hav, Hstart, (Hsame Hcase).
    eexists. split; [reflexivity|].
    intro a. rewrite filter_In, !andb_true_iff, negb_true_iff, Status_eqb_neq.
    unfold Date_le, Date_ge.
    destruct (Date_parse (apt_date a)) as [t|].
    + rewrite !Z.leb_le. split.
      * intros [Ha [[H1 H2] Hst]]. repeat split; try assumption.
        exists t. repeat split; assumption.
      * intros [Ha [Hst [t' [Ht' [H1 H2]]]]]. inversion Ht'; subst t'. tauto'.
    + split.
      * intros [_ [[H _] _]]. discriminate.
      * intros [_ [_ [t [Ht _]]]]. discriminate.
Qed.

(** ** connectTherapist and disconnectTherapist *)

Lemma NoDup_map_injective {A B : Type} (f : A -> B) (l : list A) (a b : A) :
  NoDup (map f l) -> In a l -> In b l -> f a = f b -> a = b.
Proof.
  induction l as [|x l IH]; simpl; intros Hnd Ha Hb Heq; [contradiction|].
  inversion Hnd as [|? ? Hnotin Hnd']; subst.
  destruct Ha as [<-|Ha], Hb as [<-|Hb].
  - reflexivity.
  - exfalso. apply Hnotin. rewrite Heq. now apply in_map.
  - exfalso. apply Hnotin. rewrite <- Heq. now apply in_map.
  - now apply IH.
Qed.

Lemma find_app_none {A : Type} (f : A -> bool) (l l' : list A) :
  find f l = None -> find f (l ++ l') = find f l'.
Proof.
  induction l as [|x l IH]; simpl; [reflexivity|].
  destruct (f x); [discriminate|exact IH].
Qed.

Lemma connection_exists_iff (w : World) (userId therapistId : Z) :
  existsb (fun conn => conn_therapistId conn =? therapistId)
    (filter (fun r => conn_userId r =? userId) (rows (userTherapists w))) = true
  <-> connectionRecord w userId therapistId.
Proof.
  rewrite existsb_exists. unfold connectionRecord.
  split; intros [c H]; exists c; rewrite filter_In in *; rewrite !Z.eqb_eq in *; tauto'.
Qed.

Lemma connection_find_none_iff (w : World) (userId therapistId : Z) :
  find (fun conn => conn_therapistId conn =? therapistId)
    (filter (fun r => conn_userId r =? userId) (rows (userTherapists w))) = None
  <-> ~ connectionRecord w userId therapistId.
Proof.
  rewrite <- connection_exists_iff. split.
  - intros Hnone Hex. apply existsb_exists in Hex. destruct Hex as [c [Hc Ht]].
    pose proof (find_none _ _ Hnone c Hc) as H. simpl in H. congruence.
  - intro Hno. destruct (find _ _) as [c|] eqn:Hfind; [|reflexivity].
    exfalso. apply Hno. apply existsb_exists. exists c.
    apply find_some in Hfind. exact Hfind.
Qed.

Lemma connectTherapist_run (w : World) (userId therapistId : Z) :
  connectTherapist userId therapistId w =
    if available w then
      if existsb (fun conn => conn_therapistId conn =? therapistId)
           (filter (fun r => conn_userId r =? userId) (rows (userTherapists w)))
      then (Returned (failure "You are already connected with this therapist"), w)
      else
        (Returned (mkResult true "Successfully connected with therapist" None),
         withConnections w
           (mkStore (rows (userTherapists w) ++ [newConnection w userId therapistId])
                    (nextKey (userTherapists w) + 1)))
    else (Returned (failure "Failed to connect with therapist"), w).
Proof.
  unfold connectTherapist. rewrite getByIndex_then.
  destruct (available w) eqn:Hav; [|reflexivity].
  simpl store_of.
  destruct (existsb _ _); [reflexivity|].
  unfold try_catch, bind, Date_now, db_add, bind.
  rewrite (ensureReady_available w Hav). reflexivity.
Qed.

Lemma disconnectTherapist_run (w : World) (userId therapistId : Z) :
  disconnectTherapist userId therapistId w =
    if available w then
      match find (fun conn => conn_therapistId conn =? therapistId)
              (filter (fun r => conn_userId r =? userId) (rows (userTherapists w))) with
      | None => (Returned (failure "Connection not found"), w)
      | Some connection =>
          match conn_id connection with
          | Some id =>
              (Returned (mkResult true "Successfully disconnected from therapist" None),
               withConnections w
                 (mkStore (filter (fun r => negb (has_key userTherapists_store id r))
                             (rows (userTherapists w)))
                          (nextKey (userTherapists w))))
          | None => (Returned (failure "Failed to disconnect from therapist"), w)
          end
      end
    else (Returned (failure "Failed to disconnect from therapist"), w).
Proof.
  unfold disconnectTherapist. rewrite getByIndex_then.
  destruct (available w) eqn:Hav; [|reflexivity].
  simpl store_of.
  destruct (find _ _) as [c|]; [|reflexivity].
  destruct (conn_id c) as [id|]; [|reflexivity].
  unfold try_catch, bind.
  rewrite (db_delete_available userTherapists_store id w Hav). reflexivity.
Qed.

(** X13: connectTherapist refuses when any record of the pair exists, and
    otherwise appends one active record under the next key.  Afterwards
    isConnected answers true and a second call is refused; the unique
    index on (userId, therapistId) is never violated, which is why the add
    cannot fail on it. *)
Theorem connectTherapist_outcomes :
  forall (w : World) (userId therapistId : Z),
    available w = true ->
    (connectionRecord w userId therapistId ->
     connectTherapist userId therapistId w =
       (Returned (failure "You are already connected with this therapist"), w))
    /\ (~ connectionRecord w userId therapistId ->
        exists w',
          connectTherapist userId therapistId w =
            (Returned (mkResult true "Successfully connected with therapist" None), w')
          /\ rows (userTherapists w')
             = rows (userTherapists w) ++ [newConnection w userId therapistId]
          /\ nextKey (userTherapists w') = nextKey (userTherapists w) + 1
          /\ appointments w' = appointments w
          /\ TherapistManager_isConnected userId therapistId w' = (Returned true, w')
          /\ connectTherapist userId therapistId w' =
               (Returned (failure "You are already connected with this therapist"), w')
          /\ (oneConnectionPerPair w -> oneConnectionPerPair w')
          /\ (keysGenerated userTherapists_store w -> keysGenerated userTherapists_store w')).
Proof.
  intros w userId therapistId Hav. split.
  - intro Hrec. rewrite connectTherapist_run, Hav.
    apply connection_exists_iff in Hrec. rewrite Hrec. reflexivity.
  - intro Hnone. rewrite connectTherapist_run, Hav.
    destruct (existsb _ _) eqn:Hex.
    { exfalso. apply Hnone. apply connection_exists_iff. exact Hex. }
    set (c := newConnection w userId therapistId).
    set (w' := withConnections w _).
    assert (In c (rows (userTherapists w'))) as Hin.
    { simpl. apply in_or_app. right. now left. }
    exists w'. repeat split.
    + apply isConnected_true_run. split; [exact Hav|].
      exists c. repeat split. exact Hin.
    + rewrite connectTherapist_run. change (available w') with (available w). rewrite Hav.
      assert (connectionRecord w' userId therapistId) as Hrec.
      { exists c. repeat split. exact Hin. }
      apply connection_exists_iff in Hrec. rewrite Hrec. reflexivity.
    + intros Hone a b Ha Hb Hu Ht. simpl in Ha, Hb.
      apply in_app_or in Ha. apply in_app_or in Hb.
      destruct Ha as [Ha|[<-|[]]], Hb as [Hb|[<-|[]]].
      * apply Hone; assumption.
      * unfold c in Hu, Ht. simpl in Hu, Ht.
        exfalso. apply Hnone. exists a. repeat split; assumption.
      * unfold c in Hu, Ht. simpl in Hu, Ht.
        exfalso. apply Hnone. exists b. repeat split; try assumption; congruence.
      * reflexivity.
    + simpl. rewrite map_app. destruct H as [Hnd Hkeys]. simpl in Hnd, Hkeys.
      apply NoDup_app.
      * exact Hnd.
      * simpl. constructor; [intros []|constructor].
      * intros k Hk [Hk'|[]]. apply in_map_iff in Hk. destruct Hk as [r [Hr Hinr]].
        destruct (Hkeys r Hinr) as [k' [Hk'' Hlt]].
        rewrite <- Hk' in Hr. simpl in Hr. rewrite Hk'' in Hr. inversion Hr. lia.
    + simpl. intros r Hr. destruct H as [Hnd Hkeys]. simpl in Hkeys.
      apply in_app_or in Hr. destruct Hr as [Hr|[<-|[]]].
      * destruct (Hkeys r Hr) as [k' [Hk' Hlt]]. exists k'. split; [exact Hk'|lia].
      * exists (nextKey (userTherapists w)). split; [reflexivity|lia].
Qed.

(** X14: disconnectTherapist deletes the record of the pair and reports
    that none was found otherwise; appointments stay as they are.  With one
    record per pair, afterwards no record of the pair is left, isConnected
    answers false and bookAppointment with that therapist is refused; the
    records of other pairs are untouched. *)
Theorem disconnectTherapist_outcomes :
  forall (w : World) (userId therapistId : Z),
    available w = true ->
    keysGenerated userTherapists_store w ->
    (~ connectionRecord w userId therapistId ->
     disconnectTherapist userId therapistId w =
       (Returned (failure "Connection not found"), w))
    /\ (connectionRecord w userId therapistId ->
        exists w',
          disconnectTherapist userId therapistId w =
            (Returned (mkResult true "Successfully disconnected from therapist" None), w')
          /\ appointments w' = appointments w
          /\ (forall c, In c (rows (userTherapists w')) -> In c (rows (userTherapists w)))
          /\ (forall c, In c (rows (userTherapists w)) ->
                        conn_userId c <> userId \/ conn_therapistId c <> therapistId ->
                        In c (rows (userTherapists w')))
          /\ (oneConnectionPerPair w ->
              ~ connectionRecord w' userId therapistId
              /\ TherapistManager_isConnected userId therapistId w' = (Returned false, w')
              /\ forall data, ad_therapistId data = therapistId ->
                   bookAppointment userId data w' =
                     (Returned (failure "You must be connected with this therapist first"),
                      w'))).
Proof.
  intros w userId therapistId Hav [Hnd Hkeys]. simpl in Hnd, Hkeys. split.
  - intro Hnone. rewrite disconnectTherapist_run, Hav.
    apply connection_find_none_iff in Hnone. rewrite Hnone. reflexivity.
  - intro Hrec. rewrite disconnectTherapist_run, Hav.
    destruct (find _ _) as [c|] eqn:Hfind.
    2:{ exfalso. apply connection_find_none_iff in Hfind. exact (Hfind Hrec). }
    apply find_some in Hfind. destruct Hfind as [Hc Hct].
    apply filter_In in Hc. destruct Hc as [Hc Hcu].
    apply Z.eqb_eq in Hct, Hcu.
    destruct (Hkeys c Hc) as [id [Hid _]]. simpl in Hid. rewrite Hid.
    set (w' := withConnections w _).
    assert (forall x, In x (rows (userTherapists w')) ->
              In x (rows (userTherapists w)) /\ x <> c) as Hsub.
    { intros x Hx. simpl in Hx. apply filter_In in Hx. destruct Hx as [Hx Hk].
      split; [exact Hx|]. intros ->. unfold has_key in Hk. simpl in Hk.
      rewrite Hid, Z.eqb_refl in Hk. discriminate. }
    exists w'. split; [reflexivity|]. split; [reflexivity|]. split; [|split].
    + intros x Hx. apply (Hsub x Hx).
    + intros x Hx Hother. simpl. apply filter_In. split; [exact Hx|].
      apply negb_true_iff. apply has_key_false_iff. simpl. intro Hk.
      assert (x = c) as ->.
      { apply (NoDup_map_injective conn_id _ x c Hnd Hx Hc). congruence. }
      destruct Hother; congruence.
    + intros Hone.
      assert (~ connectionRecord w' userId therapistId) as Hgone.
      { intros [x [Hx [Hu Ht]]]. destruct (Hsub x Hx) as [Hx' Hne].
        apply Hne. apply Hone; try assumption; congruence. }
      assert (~ activeConnection w' userId therapistId) as Hinactive.
      { intros [_ [x [Hx [Hu [Ht _]]]]]. apply Hgone. exists x. tauto'. }
      split; [exact Hgone|]. split.
      * apply isConnected_false_iff. exact Hinactive.
      * intros data <-. apply bookAppointment_not_connected. exact Hinactive.
Qed.

(** X15: connecting and then disconnecting restores the connection
    records; only the key generator has moved on, so the key of the deleted
    record is not used again. *)
Theorem connect_then_disconnect_restores :
  forall (w : World) (userId therapistId : Z),
    available w = true ->
    keysGenerated userTherapists_store w ->
    ~ connectionRecord w userId therapistId ->
    let w1 := snd (connectTherapist userId therapistId w) in
    let w2 := snd (disconnectTherapist userId therapistId w1) in
    fst (disconnectTherapist userId therapistId w1)
      = Returned (mkResult true "Successfully disconnected from therapist" None)
    /\ rows (userTherapists w2) = rows (userTherapists w)
    /\ nextKey (userTherapists w2) = nextKey (userTherapists w) + 1
    /\ therapists w2 = therapists w
    /\ appointments w2 = appointments w
    /\ moods w2 = moods w.
Proof.
  intros w userId therapistId Hav [Hnd Hkeys] Hnone w1 w2. simpl in Hnd, Hkeys.
  assert (w1 = withConnections w
                 (mkStore (rows (userTherapists w) ++ [newConnection w userId therapistId])
                          (nextKey (userTherapists w) + 1))) as Hw1.
  { unfold w1. rewrite connectTherapist_run, Hav.
    destruct (existsb _ _) eqn:Hex; [|reflexivity].
    exfalso. apply Hnone. apply connection_exists_iff. exact Hex. }
  clearbody w1. subst w1. unfold w2. clear w2.
  set (c := newConnection w userId therapistId).
  rewrite disconnectTherapist_run.
  cbn [available rows nextKey userTherapists withConnections]. rewrite Hav.
  apply connection_find_none_iff in Hnone.
  assert (find (fun conn => conn_therapistId conn =? therapistId)
            (filter (fun r => conn_userId r =? userId) (rows (userTherapists w) ++ [c]))
          = Some c) as ->.
  { rewrite filter_app, (find_app_none _ _ _ Hnone).
    unfold c, newConnection. cbn [filter conn_userId]. rewrite Z.eqb_refl.
    cbn [find conn_therapistId]. rewrite Z.eqb_refl. reflexivity. }
  change (conn_id c) with (Some (nextKey (userTherapists w))). cbv iota.
  assert (filter (fun r => negb (has_key userTherapists_store (nextKey (userTherapists w)) r))
            (rows (userTherapists w) ++ [c]) = rows (userTherapists w)) as Hdel.
  { rewrite filter_app.
    assert (filter (fun r => negb (has_key userTherapists_store
                                     (nextKey (userTherapists w)) r)) [c] = []) as ->.
    { unfold c, newConnection, has_key. cbn [filter key_of userTherapists_store conn_id].
      rewrite Z.eqb_refl. reflexivity. }
    rewrite app_nil_r.
    apply forallb_filter_id. apply forallb_forall. intros r Hr.
    apply negb_true_iff. apply has_key_false_iff.
    destruct (Hkeys r Hr) as [k [Hk Hlt]]. simpl. rewrite Hk. intro H. inversion H. lia. }
  cbn [fst snd rows nextKey userTherapists therapists appointments moods withConnections].
  rewrite Hdel. repeat split.
Qed.

(** ** The rest of MoodTracker *)

Lemma keys_after_delete {T : Type} (st : StoreRef T) (keep : T -> bool) (records : list T) :
  NoDup (map (key_of st) records) ->
  NoDup (map (key_of st) (filter keep records)).
Proof.
  induction records as [|r records IH]; simpl; intro Hnd; [constructor|].
  inversion Hnd as [|? ? Hnotin Hnd']; subst.
  destruct (keep r); simpl; [|now apply IH].
  constructor; [|now apply IH].
  intro Hin. apply Hnotin. apply in_map_iff in Hin. destruct Hin as [y [Hy Hin]].
  apply filter_In in Hin. rewrite <- Hy. apply in_map. tauto'.
Qed.

Lemma length_filter_filter_le {A : Type} (p q : A -> bool) (l : list A) :
  (List.length (filter p (filter q l)) <= List.length (filter p l))%nat.
Proof.
  induction l as [|x l IH]; simpl; [lia|].
  destruct (q x); simpl; destruct (p x); simpl; lia.
Qed.

Lemma getMoodByName_some (name : string) (c : MoodCategory) :
  getMoodByName name = Some c -> In c moodCategories /\ cat_name c = name.
Proof.
  unfold getMoodByName. intro H. apply find_some in H.
  destruct H as [Hin Heq]. apply String.eqb_eq in Heq. split; assumption.
Qed.

Lemma getMoodByName_none (name : string) :
  getMoodByName name = None -> forall c, In c moodCategories -> cat_name c <> name.
Proof.
  unfold getMoodByName. intros H c Hc Heq.
  pose proof (find_none _ _ H c Hc) as Hf. simpl in Hf.
  apply String.eqb_neq in Hf. contradiction.
Qed.

Lemma intensity_passes (intensity : JSNumber) :
  match intensity with
  | Integer i => 1 <= i <= 10
  | NaN | Undefined => True
  end ->
  JSNumber_lt intensity (Integer 1) || JSNumber_lt (Integer 10) intensity = false.
Proof.
  destruct intensity as [i| |]; intro H; [|reflexivity|reflexivity].
  simpl. apply orb_false_iff. rewrite !Z.ltb_ge. lia.
Qed.

Lemma intensity_fails (intensity : JSNumber) :
  JSNumber_lt intensity (Integer 1) || JSNumber_lt (Integer 10) intensity = false ->
  match intensity with
  | Integer i => 1 <= i <= 10
  | NaN | Undefined => True
  end.
Proof.
  destruct intensity as [i| |]; intro H; [|exact I|exact I].
  simpl in H. apply orb_false_iff in H. rewrite !Z.ltb_ge in H. lia.
Qed.

Lemma apply_updates_acceptable (updates : MoodUpdates) (m : MoodEntry) :
  acceptableUpdates updates ->
  apply_updates updates m = inr (overwrittenFields updates m).
Proof.
  intros [Hmood Hint]. unfold apply_updates, overwrittenFields.
  destruct updates as [um ui un]. destruct m. simpl in Hmood, Hint. simpl.
  pose proof (intensity_passes ui Hint) as Hpass.
  destruct um as [[|c name]|].
  - destruct ui as [i| |]; simpl in Hpass; try rewrite Hpass; destruct un; reflexivity.
  - destruct (getMoodByName_valid _ Hmood) as [cat ->].
    destruct ui as [i| |]; simpl in Hpass; try rewrite Hpass; destruct un; reflexivity.
  - destruct ui as [i| |]; simpl in Hpass; try rewrite Hpass; destruct un; reflexivity.
Qed.

Lemma apply_updates_cases (updates : MoodUpdates) (m : MoodEntry) :
  (exists msg, apply_updates updates m = inl msg /\ ~ acceptableUpdates updates)
  \/ (apply_updates updates m = inr (overwrittenFields updates m)
      /\ acceptableUpdates updates).
Proof.
  destruct (apply_updates updates m) as [msg|m'] eqn:Happly.
  - left. exists msg. split; [reflexivity|]. intro Hacc.
    rewrite (apply_updates_acceptable updates m Hacc) in Happly. discriminate.
  - right.
    assert (acceptableUpdates updates) as Hacc.
    { unfold apply_updates in Happly. unfold acceptableUpdates.
      destruct updates as [um ui un]. simpl in Happly. simpl.
      split.
      - destruct um as [[|c name]|]; try exact I.
        destruct (getMoodByName (String c name)) as [cat|] eqn:Hcat; [|discriminate].
        exists cat. exact (getMoodByName_some _ _ Hcat).
      - apply intensity_fails.
        destruct (JSNumber_lt ui (Integer 1) || JSNumber_lt (Integer 10) ui) eqn:Hi;
          [|reflexivity].
        destruct ui as [i| |]; try discriminate Hi. simpl in Hi.
        destruct um as [[|c name]|];
          [|destruct (getMoodByName (String c name)); [|discriminate]|];
          rewrite Hi in Happly; discriminate. }
    split; [|exact Hacc].
    rewrite (apply_updates_acceptable updates m Hacc) in Happly.
    symmetry. exact Happly.
Qed.

Lemma updateMood_run (w : World) (id : Z) (updates : MoodUpdates) :
  updateMood id updates w =
    if available w then
      match moodById w id with
      | None => (Returned (failure "Mood entry not found"), w)
      | Some m =>
          match apply_updates updates m with
          | inl msg => (Returned (failure msg), w)
          | inr m' =>
              (Returned (mkResult true "Mood updated successfully" None),
               withMoods w
                 (mkStore (replace_row moods_store id (set_mood_updatedAt (clock w) m')
                             (rows (moods w)))
                          (Z.max (nextKey (moods w)) (id + 1))))
          end
      end
    else (Returned (failure "Failed to update mood"), w).
Proof.
  unfold updateMood. rewrite get_then.
  destruct (available w) eqn:Hav; [|reflexivity].
  change (find (has_key moods_store id) (rows (store_of moods_store w)))
    with (moodById w id).
  destruct (moodById w id) as [m|] eqn:Hfind; [|reflexivity].
  destruct (apply_updates_cases updates m) as [[msg [Happly _]]|[Happly _]];
    rewrite Happly; [reflexivity|].
  destruct (find_has_key_some moods_store id _ m Hfind) as [_ Hkey].
  unfold try_catch, bind, Date_now.
  rewrite (db_update_existing moods_store
             (set_mood_updatedAt (clock w) (overwrittenFields updates m)) id w Hav Hkey
             (existsb_has_key_of_find moods_store id _ m Hfind)).
  reflexivity.
Qed.

Lemma deleteMood_run (w : World) (id : Z) :
  deleteMood id w =
    if available w then
      match moodById w id with
      | None => (Returned (failure "Mood entry not found"), w)
      | Some _ =>
          (Returned (mkResult true "Mood entry deleted" None),
           withMoods w
             (mkStore (filter (fun r => negb (has_key moods_store id r)) (rows (moods w)))
                      (nextKey (moods w))))
      end
    else (Returned (failure "Failed to delete mood"), w).
Proof.
  unfold deleteMood. rewrite get_then.
  destruct (available w) eqn:Hav; [|reflexivity].
  change (find (has_key moods_store id) (rows (store_of moods_store w)))
    with (moodById w id).
  destruct (moodById w id) as [m|]; [|reflexivity].
  unfold try_catch, bind.
  rewrite (db_delete_available moods_store id w Hav). reflexivity.
Qed.

Lemma getMoodById_run (w : World) (id : Z) :
  getMoodById id w = (Returned (if available w then moodById w id else None), w).
Proof.
  unfold getMoodById, try_catch.
  destruct (available w) eqn:Hav.
  - rewrite (db_get_available moods_store id w Hav). reflexivity.
  - rewrite (db_get_unavailable moods_store id w Hav). reflexivity.
Qed.

(** X16: updateMood refuses an unknown entry, an unknown mood name and an
    intensity that is a number below 1 or above 10, without storing
    anything.  Otherwise it overwrites the fields that are given (an empty
    mood name counts as not given, an intensity that is NaN is stored as
    it is) in that one record and stamps it with updatedAt; the user, the
    date and, unlike in logMood, the timestamp of the entry stay as they
    were. *)
Theorem updateMood_outcomes :
  forall (w : World) (id : Z) (updates : MoodUpdates),
    available w = true ->
    (moodById w id = None ->
     updateMood id updates w = (Returned (failure "Mood entry not found"), w))
    /\ forall m, moodById w id = Some m ->
         ((forall name, up_mood updates = Some name -> name <> EmptyString ->
                        (forall c, In c moodCategories -> cat_name c <> name) ->
                        updateMood id updates w = (Returned (failure "Invalid mood"), w))
          /\ (~ acceptableUpdates updates ->
              exists msg, updateMood id updates w = (Returned (failure msg), w))
          /\ (acceptableUpdates updates ->
              exists w' m',
                updateMood id updates w =
                  (Returned (mkResult true "Mood updated successfully" None), w')
                /\ moodById w' id = Some m'
                /\ m' = updatedEntry updates (clock w) m
                /\ mood_updatedAt m' = Some (clock w)
                /\ mood_userId m' = mood_userId m
                /\ mood_date m' = mood_date m
                /\ mood_timestamp m' = mood_timestamp m
                /\ (up_mood updates = None -> mood_mood m' = mood_mood m)
                /\ (up_mood updates = Some EmptyString -> mood_mood m' = mood_mood m)
                /\ (up_intensity updates = Undefined ->
                    mood_intensity m' = mood_intensity m)
                /\ (up_intensity updates <> Undefined ->
                    mood_intensity m' = up_intensity updates)
                /\ (up_notes updates = None -> mood_notes m' = mood_notes m)
                /\ (forall k, k <> id -> moodById w' k = moodById w k)
                /\ List.length (rows (moods w')) = List.length (rows (moods w))
                /\ appointments w' = appointments w)).
Proof.
  intros w id updates Hav. split.
  - intro Hnone. rewrite updateMood_run, Hav, Hnone. reflexivity.
  - intros m Hfind.
    destruct (find_has_key_some moods_store id _ m Hfind) as [Hin Hkey].
    pose proof (existsb_has_key_of_find moods_store id _ m Hfind) as Hex.
    split; [|split].
    + intros name Hname Hne Hunknown.
      rewrite updateMood_run, Hav, Hfind.
      unfold apply_updates. rewrite Hname.
      destruct name as [|c name]; [congruence|].
      rewrite (getMoodByName_invalid _ Hunknown). reflexivity.
    + intro Hbad. rewrite updateMood_run, Hav, Hfind.
      destruct (apply_updates_cases updates m) as [[msg [Happly _]]|[_ Hacc]].
      * rewrite Happly. exists msg. reflexivity.
      * contradiction.
    + intro Hacc. rewrite updateMood_run, Hav, Hfind.
      rewrite (apply_updates_acceptable updates m Hacc).
      eexists. exists (updatedEntry updates (clock w) m).
      split; [reflexivity|]. split.
      { unfold moodById. simpl. apply find_replace_row_same; [exact Hkey|exact Hex]. }
      repeat split; try reflexivity.
      * intro H. unfold updatedEntry, overwrittenFields. rewrite H. reflexivity.
      * intro H. unfold updatedEntry, overwrittenFields. rewrite H. reflexivity.
      * intro H. unfold updatedEntry, overwrittenFields. rewrite H. reflexivity.
      * intro H. unfold updatedEntry, overwrittenFields. simpl.
        destruct (up_intensity updates); [reflexivity|reflexivity|congruence].
      * intro H. unfold updatedEntry, overwrittenFields. rewrite H. reflexivity.
      * intros k Hk. unfold moodById. simpl.
        apply find_replace_row_other; [exact Hk|exact Hkey].
      * simpl. apply length_replace_row.
Qed.

(** X17: deleteMood removes the record with the given key and nothing
    else, and reports an unknown key without a change.  Afterwards
    getMoodById finds nothing under the key and a second deleteMood is
    refused; the key generator is not moved back. *)
Theorem deleteMood_outcomes :
  forall (w : World) (id : Z),
    available w = true ->
    (moodById w id = None ->
     deleteMood id w = (Returned (failure "Mood entry not found"), w))
    /\ forall m, moodById w id = Some m ->
         exists w',
           deleteMood id w = (Returned (mkResult true "Mood entry deleted" None), w')
           /\ getMoodById id w' = (Returned None, w')
           /\ deleteMood id w' = (Returned (failure "Mood entry not found"), w')
           /\ (forall k, k <> id -> moodById w' k = moodById w k)
           /\ (forall x, In x (rows (moods w')) <->
                         In x (rows (moods w)) /\ mood_id x <> Some id)
           /\ nextKey (moods w') = nextKey (moods w)
           /\ appointments w' = appointments w.
Proof.
  intros w id Hav. split.
  - intro Hnone. rewrite deleteMood_run, Hav, Hnone. reflexivity.
  - intros m Hfind. rewrite deleteMood_run, Hav, Hfind.
    set (w' := withMoods w _).
    assert (moodById w' id = None) as Hgone.
    { unfold moodById. simpl. apply find_filter_delete_same. }
    exists w'. split; [reflexivity|]. split; [|split; [|split; [|split]]].
    + rewrite getMoodById_run, Hgone. destruct (available w'); reflexivity.
    + rewrite deleteMood_run, Hgone. change (available w') with (available w).
      rewrite Hav. reflexivity.
    + intros k Hk. unfold moodById. simpl. apply find_filter_delete_other. exact Hk.
    + intro x. simpl. rewrite filter_In, negb_true_iff.
      rewrite (has_key_false_iff moods_store). reflexivity.
    + split; reflexivity.
Qed.

Lemma logMood_cases (w : World) (userId : Z) (data : MoodData) :
  snd (logMood userId data w) = w \/ (available w = true /\ validMoodData data).
Proof.
  destruct (getMoodByName (md_mood data)) as [c|] eqn:Hcat.
  2:{ left. unfold logMood, try_catch. rewrite Hcat. reflexivity. }
  destruct (JSNumber_lt (md_intensity data) (Integer 1)
            || JSNumber_lt (Integer 10) (md_intensity data)) eqn:Hint.
  { left. unfold logMood, try_catch. rewrite Hcat, Hint. reflexivity. }
  destruct (available w) eqn:Hav.
  - right. split; [reflexivity|]. split.
    + exists c. exact (getMoodByName_some _ _ Hcat).
    + apply intensity_fails. exact Hint.
  - left. unfold logMood, try_catch. rewrite Hcat, Hint.
    unfold bind at 1. unfold getMoodsByDate. rewrite getByIndex_then, Hav.
    unfold ret at 1. unfold bind, Date_now, db_add, bind.
    rewrite (ensureReady_unavailable w Hav). reflexivity.
Qed.

Lemma logMood_new_rows (w : World) (userId : Z) (data : MoodData) :
  available w = true ->
  keysGenerated moods_store w ->
  validMoodData data ->
  exists e,
    mood_mood e = md_mood data /\ mood_intensity e = md_intensity data
    /\ In e (rows (moods (snd (logMood userId data w))))
    /\ forall m, In m (rows (moods (snd (logMood userId data w)))) ->
                 m = e \/ In m (rows (moods w)).
Proof.
  intros Hav Hkeys Hdata.
  destruct (moodEntriesFor w userId (md_date data)) as [|existing rest] eqn:Hentries.
  - rewrite (logMood_insert_run w userId data Hav Hdata Hentries). cbn [snd].
    eexists. split; [|split; [|split]].
    3:{ simpl. apply in_or_app. right. left. reflexivity. }
    + reflexivity.
    + reflexivity.
    + intros m Hm. simpl in Hm. apply in_app_or in Hm.
      destruct Hm as [Hm|[<-|[]]]; [right; exact Hm|left; reflexivity].
  - destruct (logMood_update_run w userId data existing rest Hav Hkeys Hdata Hentries)
      as [k [Hk Hrun]].
    rewrite Hrun. cbn [snd].
    exists (overwrite_mood data (clock w) existing). split; [|split; [|split]].
    + reflexivity.
    + reflexivity.
    + simpl. apply In_replace_row_data.
      apply existsb_exists. exists existing. split.
      * assert (In existing (moodEntriesFor w userId (md_date data))) as H
          by (rewrite Hentries; now left).
        unfold moodEntriesFor in H. rewrite !filter_In in H. tauto'.
      * unfold has_key. simpl. rewrite Hk. apply Z.eqb_refl.
    + intros m Hm. simpl in Hm. apply In_replace_row in Hm.
      destruct Hm as [->|Hm]; [left; reflexivity|right; exact Hm].
Qed.

(** X18: two properties of the mood store survive every call of logMood,
    updateMood and deleteMood, whatever the arguments and the outcome: keys
    are distinct and below the generator, and a user has at most one entry
    per date; so does the property that every entry has a known mood.
    That every intensity is an integer from 1 to 10 is kept by deleteMood,
    by logMood when the intensity of the request is an integer and by
    updateMood when the given intensity is not NaN; a request that passes
    logMood with a missing or NaN intensity breaks it. *)
Theorem mood_updates_keep_invariants :
  forall w : World,
    keysGenerated moods_store w ->
    oneEntryPerDay w ->
    allMoodsKnown w ->
    let kept (w' : World) :=
      keysGenerated moods_store w' /\ oneEntryPerDay w' /\ allMoodsKnown w' in
    (forall userId data, kept (snd (logMood userId data w)))
    /\ (forall id updates, kept (snd (updateMood id updates w)))
    /\ (forall id, kept (snd (deleteMood id w)))
    /\ (allEntriesValid w ->
        (forall userId data i, md_intensity data = Integer i ->
           allEntriesValid (snd (logMood userId data w)))
        /\ (forall id updates, up_intensity updates <> NaN ->
              allEntriesValid (snd (updateMood id updates w)))
        /\ (forall id, allEntriesValid (snd (deleteMood id w))))
    /\ (forall userId data,
          available w = true ->
          (exists c, In c moodCategories /\ cat_name c = md_mood data) ->
          md_intensity data = Undefined \/ md_intensity data = NaN ->
          ~ allEntriesValid (snd (logMood userId data w))).
Proof.
  intros w Hkeys Hone Hknown kept.
  assert (kept w) as Hw by exact (conj Hkeys (conj Hone Hknown)).
  assert (forall id updates (P : MoodEntry -> Prop),
            (forall m, In m (rows (moods w)) -> P m) ->
            (forall m, In m (rows (moods w)) -> acceptableUpdates updates ->
                       P (updatedEntry updates (clock w) m)) ->
            forall x, In x (rows (moods (snd (updateMood id updates w)))) -> P x)
    as Hupdate.
  { intros id updates P Hold Hnew x. rewrite updateMood_run.
    destruct (available w); [|apply Hold].
    destruct (moodById w id) as [m|] eqn:Hfind; [|apply Hold].
    destruct (apply_updates_cases updates m) as [[msg [Happly _]]|[Happly Hacc]];
      rewrite Happly; [apply Hold|].
    cbn [snd]. simpl. intro Hx. apply In_replace_row in Hx.
    destruct (find_has_key_some moods_store id _ m Hfind) as [Hin _].
    destruct Hx as [->|Hx]; [exact (Hnew m Hin Hacc)|exact (Hold x Hx)]. }
  split; [|split; [|split; [|split]]].
  - intros userId data.
    destruct (logMood_cases w userId data) as [Hsame|[Hav Hdata]];
      [rewrite Hsame; exact Hw|].
    destruct (logMood_keeps_invariant w userId data Hav Hkeys Hone Hdata)
      as [r [w' [e [Hrun [_ [_ [_ [Hkeys' [Hone' _]]]]]]]]].
    destruct (logMood_new_rows w userId data Hav Hkeys Hdata) as [e' [Hm [_ [_ Hrows]]]].
    rewrite Hrun in Hrows |- *. cbn [snd] in Hrows |- *.
    split; [exact Hkeys'|]. split; [exact Hone'|].
    intros m Hin. destruct (Hrows m Hin) as [->|Hold]; [|exact (Hknown m Hold)].
    unfold knownMood. rewrite Hm. exact (proj1 Hdata).
  - intros id updates.
    split; [|split].
    + rewrite updateMood_run.
      destruct (available w); [|exact Hkeys].
      destruct (moodById w id) as [m|] eqn:Hfind; [|exact Hkeys].
      destruct (apply_updates_cases updates m) as [[msg [Happly _]]|[Happly Hacc]];
        rewrite Happly; [exact Hkeys|].
      cbn [snd].
      destruct (find_has_key_some moods_store id _ m Hfind) as [Hin Hkey].
      pose proof (existsb_has_key_of_find moods_store id _ m Hfind) as Hex.
      destruct Hkeys as [Hnd Hbelow]. simpl in Hnd, Hbelow.
      exact (keys_replace_row moods_store id
               (set_mood_updatedAt (clock w) (overwrittenFields updates m)) _ _
               Hkey Hnd Hbelow Hex).
    + rewrite updateMood_run.
      destruct (available w); [|exact Hone].
      destruct (moodById w id) as [m|] eqn:Hfind; [|exact Hone].
      destruct (apply_updates_cases updates m) as [[msg [Happly _]]|[Happly Hacc]];
        rewrite Happly; [exact Hone|].
      cbn [snd].
      destruct (find_has_key_some moods_store id _ m Hfind) as [Hin Hkey].
      destruct Hkeys as [Hnd Hbelow]. simpl in Hnd.
      intros userId date. rewrite moodEntriesFor_filter. simpl.
      rewrite (length_filter_replace_row moods_store (sameUserAndDate userId date) id
                 (set_mood_updatedAt (clock w) (overwrittenFields updates m)) m _
                 Hnd Hin Hkey eq_refl).
      rewrite <- moodEntriesFor_filter. apply Hone.
    + refine (Hupdate id updates knownMood Hknown _).
      intros m Hin [Hamood _]. pose proof (Hknown m Hin) as Hcat.
      unfold knownMood, updatedEntry, overwrittenFields. simpl.
      destruct (up_mood updates) as [[|c name]|]; assumption.
  - intros id. rewrite deleteMood_run.
    destruct (available w); [|exact Hw].
    destruct (moodById w id) as [m|] eqn:Hfind; [|exact Hw].
    cbn [snd]. destruct Hkeys as [Hnd Hbelow]. simpl in Hnd, Hbelow.
    split; [split|split].
    + simpl. apply (keys_after_delete moods_store). exact Hnd.
    + simpl. intros r Hr. apply filter_In in Hr. apply Hbelow. tauto'.
    + intros userId date. rewrite moodEntriesFor_filter. simpl.
      eapply Nat.le_trans; [apply length_filter_filter_le|].
      rewrite <- moodEntriesFor_filter. apply Hone.
    + intros x Hx. simpl in Hx. apply filter_In in Hx. apply Hknown. tauto'.
  - intros Hvalid. split; [|split].
    + intros userId data i Hi.
      destruct (logMood_cases w userId data) as [Hsame|[Hav Hdata]];
        [rewrite Hsame; exact Hvalid|].
      destruct (logMood_new_rows w userId data Hav Hkeys Hdata)
        as [e [Hm [Hint [_ Hrows]]]].
      intros m Hin. destruct (Hrows m Hin) as [->|Hold]; [|exact (Hvalid m Hold)].
      split.
      * unfold knownMood. rewrite Hm. exact (proj1 Hdata).
      * exists i. split; [congruence|].
        destruct Hdata as [_ Hrange]. rewrite Hi in Hrange. exact Hrange.
    + intros id updates Hnan.
      refine (Hupdate id updates validEntry Hvalid _).
      intros m Hin [Hamood Haint]. destruct (Hvalid m Hin) as [Hcat Hint].
      unfold validEntry, knownMood, updatedEntry, overwrittenFields. simpl. split.
      * destruct (up_mood updates) as [[|c name]|]; assumption.
      * destruct (up_intensity updates) as [i| |]; [|congruence|exact Hint].
        exists i. split; [reflexivity|exact Haint].
    + intros id x. rewrite deleteMood_run.
      destruct (available w); [|apply Hvalid].
      destruct (moodById w id) as [m|]; [|apply Hvalid].
      cbn [snd]. simpl. intro Hx. apply filter_In in Hx. apply Hvalid. tauto'.
  - intros userId data Hav Hmood Hmissing Hvalid.
    assert (validMoodData data) as Hdata.
    { split; [exact Hmood|]. destruct Hmissing as [-> | ->]; exact I. }
    destruct (logMood_new_rows w userId data Hav Hkeys Hdata) as [e [_ [Hint [Hin _]]]].
    destruct (Hvalid e Hin) as [_ [i [Hi _]]]. rewrite Hint in Hi.
    destruct Hmissing as [H | H]; rewrite H in Hi; discriminate.
Qed.

(** ** getMoodHistory, getMoodStats and exportMoodData *)

Lemma getMoodHistory_run (w : World) (userId : Z) :
  getMoodHistory userId w =
    (Returned (if available w
               then sort (fun a b => Some (mood_timestamp b - mood_timestamp a))
                      (moodsOfUser w userId)
               else []),
     w).
Proof.
  unfold getMoodHistory. rewrite getByIndex_then.
  destruct (available w); reflexivity.
Qed.

Lemma StronglySorted_app_inv {A : Type} (R : A -> A -> Prop) (l1 l2 : list A) :
  StronglySorted R (l1 ++ l2) ->
  forall x y, In x l1 -> In y l2 -> R x y.
Proof.
  induction l1 as [|a l1 IH]; simpl; intros Hs x y Hx Hy; [contradiction|].
  inversion Hs as [|? ? Hs' Hall]; subst.
  destruct Hx as [<-|Hx].
  - rewrite Forall_forall in Hall. apply Hall. apply in_or_app. now right.
  - now apply IH.
Qed.

(** X19: getMoodHistory returns exactly the user's stored entries, newest
    timestamp first; an unreadable database gives the empty list. *)
Theorem getMoodHistory_newest_first :
  forall (w : World) (userId : Z),
    exists history,
      getMoodHistory userId w = (Returned history, w)
      /\ (available w = false -> history = [])
      /\ (available w = true ->
          Permutation history (moodsOfUser w userId)
          /\ StronglySorted (fun a b => mood_timestamp b <= mood_timestamp a) history).
Proof.
  intros w userId. rewrite getMoodHistory_run.
  eexists. split; [reflexivity|]. split; intro Hav; rewrite Hav; [reflexivity|].
  split; [apply sort_perm|].
  apply (sort_sorted mood_timestamp). intros; reflexivity.
Qed.

(** X20: getMoodStats hands the newest-first history to getMoodTrend,
    which takes the last seven entries of its argument as the recent ones.
    So the entries the trend treats as recent are the oldest of the
    history: none of them is newer than any entry outside that window. *)
Theorem getMoodStats_trend_reads_oldest_as_recent :
  forall (w : World) (userId : Z),
    available w = true ->
    exists history,
      getMoodHistory userId w = (Returned history, w)
      /\ getMoodStats userId w =
           (Returned
              (match history with
               | [] => mkMoodStats 0 0 (AvgNumber 0) stable
               | _ :: _ =>
                   mkMoodStats (List.length history) (calculateStreak (clock w) history)
                     (calculateAverage history) (getMoodTrend history)
               end),
            w)
      /\ List.length history = List.length (moodsOfUser w userId)
      /\ history = firstn (List.length history - 7) history ++ recentWindow history
      /\ forall a b,
           In a (recentWindow history) ->
           In b (firstn (List.length history - 7) history) ->
           mood_timestamp a <= mood_timestamp b.
Proof.
  intros w userId Hav.
  pose proof (getMoodHistory_run w userId) as Hrun. rewrite Hav in Hrun.
  set (history := sort _ _) in Hrun.
  exists history. split; [exact Hrun|]. split; [|split; [|split]].
  - unfold getMoodStats, try_catch, bind. rewrite Hrun.
    destruct history; reflexivity.
  - apply Permutation_length, sort_perm.
  - unfold recentWindow. symmetry. apply firstn_skipn.
  - intros a b Ha Hb.
    assert (StronglySorted (fun a b => mood_timestamp b <= mood_timestamp a) history)
      as Hsorted.
    { apply (sort_sorted mood_timestamp). intros; reflexivity. }
    rewrite <- (firstn_skipn (List.length history - 7) history) in Hsorted.
    exact (StronglySorted_app_inv _ _ _ Hsorted b a Hb Ha).
Qed.

Lemma export_rows_all (moods : list MoodEntry) :
  (forall m, In m moods -> mood_notes m <> None) ->
  export_rows moods = Some (map exportLine moods).
Proof.
  induction moods as [|m l IH]; intro Hall; [reflexivity|].
  simpl. unfold export_row, exportLine.
  pose proof (Hall m (or_introl eq_refl)) as Hm.
  destruct (mood_notes m) as [n|]; [|congruence].
  rewrite IH by (intros x Hx; apply Hall; now right). reflexivity.
Qed.

Lemma export_rows_some (moods : list MoodEntry) (m : MoodEntry) :
  In m moods -> mood_notes m = None -> export_rows moods = None.
Proof.
  induction moods as [|x l IH]; simpl; intros Hin Hnone; [contradiction|].
  destruct Hin as [->|Hin].
  - unfold export_row. rewrite Hnone. reflexivity.
  - rewrite (IH Hin Hnone). destruct (export_row x); reflexivity.
Qed.

Lemma exportMoodData_run (w : World) (userId : Z) :
  exportMoodData userId w =
    let history := if available w
                   then sort (fun a b => Some (mood_timestamp b - mood_timestamp a))
                          (moodsOfUser w userId)
                   else [] in
    match export_rows history with
    | Some lines =>
        (Returned (mkExportResult true
                     (Some (join newline (map (join ",") (csvHeader :: lines))))
                     (Some "csv"%string) None), w)
    | None =>
        (Returned (mkExportResult false None None (Some "Failed to export data"%string)), w)
    end.
Proof.
  unfold exportMoodData, try_catch, bind. rewrite getMoodHistory_run.
  cbv zeta. destruct (export_rows _); reflexivity.
Qed.

(** X21: exportMoodData writes the header and then one row per entry of
    the history, newest first, when every entry of the user has notes; one
    entry whose notes are undefined makes the whole export fail.  When the
    database cannot be read the export still reports success, with the
    header alone. *)
Theorem exportMoodData_outcomes :
  forall (w : World) (userId : Z),
    (available w = false ->
     exportMoodData userId w =
       (Returned (mkExportResult true (Some "Date,Mood,Intensity,Notes"%string)
                    (Some "csv"%string) None), w))
    /\ (available w = true ->
        (forall m, In m (moodsOfUser w userId) -> mood_notes m <> None) ->
        exists history,
          getMoodHistory userId w = (Returned history, w)
          /\ exportMoodData userId w =
               (Returned (mkExportResult true
                            (Some (join newline
                                     (map (join ",") (csvHeader :: map exportLine history))))
                            (Some "csv"%string) None), w))
    /\ (available w = true ->
        (exists m, In m (moodsOfUser w userId) /\ mood_notes m = None) ->
        exportMoodData userId w =
          (Returned (mkExportResult false None None (Some "Failed to export data"%string)),
           w)).
Proof.
  intros w userId. split; [|split].
  - intro Hav. rewrite exportMoodData_run, Hav. reflexivity.
  - intros Hav Hall. rewrite exportMoodData_run, getMoodHistory_run, Hav. cbv zeta.
    eexists. split; [reflexivity|].
    rewrite export_rows_all; [reflexivity|].
    intros m Hm. apply Hall. apply In_sort in Hm. exact Hm.
  - intros Hav [m [Hm Hnone]]. rewrite exportMoodData_run, Hav. cbv zeta.
    rewrite (export_rows_some _ m); [reflexivity| |exact Hnone].
    apply In_sort. exact Hm.
Qed.

(** X22: logMood stores the notes of the request as they are when it
    overwrites the entry of a day, so a request without notes for a day
    that has an entry leaves that entry without notes, and from then on
    exportMoodData fails for the user. *)
Theorem logMood_without_notes_breaks_export :
  forall (w : World) (userId : Z) (data : MoodData),
    available w = true ->
    keysGenerated moods_store w ->
    validMoodData data ->
    moodEntriesFor w userId (md_date data) <> [] ->
    md_notes data = None ->
    let w' := snd (logMood userId data w) in
    (exists r, fst (logMood userId data w) = Returned r /\ success r = true)
    /\ (exists m, In m (moodsOfUser w' userId) /\ mood_notes m = None)
    /\ exportMoodData userId w' =
         (Returned (mkExportResult false None None (Some "Failed to export data"%string)),
          w').
Proof.
  intros w userId data Hav Hkeys Hdata Hentries Hnotes w'.
  destruct (moodEntriesFor w userId (md_date data)) as [|existing rest] eqn:Hfor;
    [congruence|].
  destruct (logMood_update_run w userId data existing rest Hav Hkeys Hdata Hfor)
    as [k [Hk Hrun]].
  unfold w'. clear w'. rewrite Hrun. cbn [fst snd].
  set (w' := withMoods w _).
  assert (In existing (rows (moods w)) /\ mood_userId existing = userId) as [Hin Huser].
  { assert (In existing (moodEntriesFor w userId (md_date data))) as H
      by (rewrite Hfor; now left).
    unfold moodEntriesFor in H. rewrite !filter_In in H.
    destruct H as [[H1 H2] _]. apply Z.eqb_eq in H2. tauto'. }
  assert (exists m, In m (moodsOfUser w' userId) /\ mood_notes m = None) as Hbad.
  { exists (overwrite_mood data (clock w) existing). split; [|exact Hnotes].
    unfold moodsOfUser. apply filter_In. split.
    - simpl. apply In_replace_row_data.
      apply existsb_exists. exists existing. split; [exact Hin|].
      unfold has_key. simpl. rewrite Hk. apply Z.eqb_refl.
    - simpl. apply Z.eqb_eq. exact Huser. }
  split; [eexists; split; reflexivity|]. split; [exact Hbad|].
  destruct Hbad as [m [Hm Hnone]].
  rewrite exportMoodData_run. change (available w') with (available w). rewrite Hav.
  cbv zeta. rewrite (export_rows_some _ m); [reflexivity| |exact Hnone].
  apply In_sort. exact Hm.
Qed.

(** ** AuthUtils.hashPassword *)

Ltac int32_constants :=
  change (2 ^ 31) with 2147483648 in *; change (2 ^ 32) with 4294967296 in *.

Lemma ToInt32_range (z : Z) : - 2 ^ 31 <= ToInt32 z < 2 ^ 31.
Proof.
  unfold ToInt32.
  pose proof (Z.mod_pos_bound (z + 2 ^ 31) (2 ^ 32) eq_refl).
  int32_constants. lia.
Qed.

Lemma ToInt32_mod (z : Z) : ToInt32 z mod 2 ^ 32 = z mod 2 ^ 32.
Proof.
  unfold ToInt32.
  rewrite Zminus_mod, Zmod_mod, <- Zminus_mod.
  replace (z + 2 ^ 31 - 2 ^ 31) with z by lia. reflexivity.
Qed.

Lemma ToInt32_congruent (a b : Z) : a mod 2 ^ 32 = b mod 2 ^ 32 -> ToInt32 a = ToInt32 b.
Proof.
  intro H. unfold ToInt32.
  rewrite (Zplus_mod a), (Zplus_mod b), H. reflexivity.
Qed.

Lemma ToInt32_small (z : Z) : - 2 ^ 31 <= z < 2 ^ 31 -> ToInt32 z = z.
Proof.
  intro H. unfold ToInt32. int32_constants. rewrite Z.mod_small; lia.
Qed.

Lemma hash_step (hash char : Z) :
  ToInt32 ((ToInt32 (ToInt32 hash * 2 ^ 5) - hash) + char) = ToInt32 (31 * hash + char).
Proof.
  apply ToInt32_congruent.
  rewrite (Zplus_mod (ToInt32 (ToInt32 hash * 2 ^ 5) - hash)).
  rewrite (Zminus_mod (ToInt32 (ToInt32 hash * 2 ^ 5))).
  rewrite ToInt32_mod.
  rewrite (Zmult_mod (ToInt32 hash)), ToInt32_mod, <- Zmult_mod.
  rewrite <- Zminus_mod, <- Zplus_mod.
  f_equal. lia.
Qed.

Lemma hashPassword_loop_polynomial (password : string) :
  forall hash hash',
    hash mod 2 ^ 32 = hash' mod 2 ^ 32 ->
    ToInt32 (hashPassword_loop password hash) = ToInt32 (polynomial31 password hash').
Proof.
  induction password as [|c rest IH]; intros hash hash' H; simpl.
  - apply ToInt32_congruent. exact H.
  - apply IH. rewrite hash_step, ToInt32_mod.
    rewrite (Zplus_mod (31 * hash)), (Zmult_mod 31 hash), H.
    rewrite <- Zmult_mod, <- Zplus_mod. reflexivity.
Qed.

Lemma hashPassword_loop_range (password : string) :
  forall hash,
    - 2 ^ 31 <= hash < 2 ^ 31 ->
    - 2 ^ 31 <= hashPassword_loop password hash < 2 ^ 31.
Proof.
  induction password as [|c rest IH]; intros hash H; simpl; [exact H|].
  apply IH. apply ToInt32_range.
Qed.

Lemma polynomial31_app (s t : string) (acc : Z) :
  polynomial31 (s ++ t) acc = polynomial31 t (polynomial31 s acc).
Proof.
  revert acc. induction s as [|c s IH]; intro acc; simpl; [reflexivity|apply IH].
Qed.

(** X23: hashPassword is the decimal numeral of the polynomial hash with
    base 31 of the character codes, wrapped to a signed 32-bit integer; so
    it lies between -2^31 and 2^31 - 1 and collides: replacing Aa by BB
    anywhere in a password leaves the hash the same. *)
Theorem hashPassword_is_polynomial31 :
  forall password : string,
    hashPassword password = toString (ToInt32 (polynomial31 password 0))
    /\ - 2 ^ 31 <= hashPassword_loop password 0 < 2 ^ 31
    /\ (hashPassword_loop password 0 - polynomial31 password 0) mod 2 ^ 32 = 0
    /\ forall before after : string,
         hashPassword (before ++ "Aa" ++ after) = hashPassword (before ++ "BB" ++ after).
Proof.
  intro password.
  assert (forall s, hashPassword_loop s 0 = ToInt32 (polynomial31 s 0)) as Hclosed.
  { intro s. rewrite <- (hashPassword_loop_polynomial s 0 0 eq_refl).
    symmetry. apply ToInt32_small. apply hashPassword_loop_range.
    int32_constants. lia. }
  split; [|split; [|split]].
  - unfold hashPassword. rewrite Hclosed. reflexivity.
  - apply hashPassword_loop_range. int32_constants. lia.
  - rewrite Hclosed. rewrite Zminus_mod, ToInt32_mod, <- Zminus_mod.
    rewrite Z.sub_diag. reflexivity.
  - intros before after. unfold hashPassword. rewrite !Hclosed.
    rewrite !polynomial31_app.
    assert (forall acc, polynomial31 "Aa" acc = polynomial31 "BB" acc) as ->;
      [|reflexivity].
    intro acc. cbn [polynomial31].
    change (charCode "A") with 65. change (charCode "a") with 97.
    change (charCode "B") with 66. lia.
Qed.

(** ** Slot labels *)

Lemma slotLabelCheck_from_all (n : nat) :
  forall minute, slotLabelCheck_from n minute = true ->
  forall k, minute <= k < minute + Z.of_nat n -> slotLabelCheck k = true.
Proof.
  induction n as [|n IH]; intros minute Hall k Hk; [lia|].
  cbn [slotLabelCheck_from] in Hall. apply andb_prop in Hall.
  destruct Hall as [Hminute Hrest].
  destruct (Z.eq_dec k minute) as [->|Hne]; [exact Hminute|].
  apply (IH (minute + 1) Hrest). lia.
Qed.

Lemma slotLabelCheck_day : slotLabelCheck_from 1440 0 = true.
Proof. vm_compute. reflexivity. Qed.

Lemma formatSlot_reads_back (minute : Z) :
  0 <= minute < 1440 ->
  parse_time_part (formatSlot minute) = Some (minute * 60000)
  /\ String.length (formatSlot minute) = 5%nat.
Proof.
  intro H.
  pose proof (slotLabelCheck_from_all _ _ slotLabelCheck_day minute) as Hall.
  assert (slotLabelCheck minute = true) as Hcheck by (apply Hall; lia).
  unfold slotLabelCheck in Hcheck.
  destruct (parse_time_part (formatSlot minute)) as [t|]; [|discriminate].
  apply andb_prop in Hcheck. destruct Hcheck as [Ht Hlen].
  apply Z.eqb_eq in Ht. apply Nat.eqb_eq in Hlen. subst t. split; [reflexivity|exact Hlen].
Qed.

(** X24: for a window inside one day and a positive duration, the labels
    generateTimeSlots writes have the form HH:MM and read back as the
    minute they stand for; so they are pairwise different, and comparing
    two labels as strings, as the slot checks do, is comparing their
    times. *)
Theorem generateTimeSlots_labels_read_back :
  forall (fuel : nat) (startHour endHour duration : Z),
    0 <= startHour -> endHour <= 24 -> 0 < duration ->
    (slotCount startHour endHour duration < fuel)%nat ->
    exists slots,
      generateTimeSlots fuel startHour endHour duration = Some slots
      /\ (forall (i : nat) slot,
            nth_error slots i = Some slot ->
            parse_time_part slot = Some ((startHour * 60 + Z.of_nat i * duration) * 60000)
            /\ String.length slot = 5%nat)
      /\ NoDup slots.
Proof.
  intros fuel startHour endHour duration Hstart Hend Hd Hfuel.
  rewrite (generateTimeSlots_enough_fuel startHour endHour duration fuel Hd Hfuel).
  set (n := slotCount startHour endHour duration).
  assert (forall k : nat, (k < n)%nat -> 0 <= startHour * 60 + Z.of_nat k * duration < 1440)
    as Hrange.
  { intros k Hk. apply (slotCount_fits startHour endHour duration k Hd) in Hk. nia. }
  eexists. split; [reflexivity|]. split.
  - intros i slot Hi.
    rewrite nth_error_map in Hi.
    destruct (nth_error (seq 0 n) i) as [k|] eqn:Hk; [|discriminate].
    assert (i < n)%nat as Hlt.
    { rewrite <- (length_seq n 0). apply nth_error_Some. congruence. }
    apply (nth_error_nth _ _ 0%nat) in Hk. rewrite seq_nth in Hk by exact Hlt.
    simpl in Hk. subst k. simpl in Hi. inversion Hi; subst slot.
    apply formatSlot_reads_back. apply Hrange. exact Hlt.
  - apply NoDup_map_NoDup_ForallPairs; [|apply seq_NoDup].
    intros x y Hx Hy Heq. apply in_seq in Hx, Hy.
    destruct (formatSlot_reads_back _ (Hrange x ltac:(lia))) as [Hpx _].
    destruct (formatSlot_reads_back _ (Hrange y ltac:(lia))) as [Hpy _].
    rewrite Heq, Hpy in Hpx. inversion Hpx. nia.
Qed.

(** X25: every slot getAvailableSlots offers can be booked by a connected
    user.  The converse fails: bookAppointment checks neither working days
    nor hours, so on a date for which nothing is offered because the
    therapist does not work, any free time is booked all the same. *)
Theorem offered_slots_are_bookable :
  forall (fuel : nat) (w : World) (userId therapistId : Z) (th : Therapist)
         (date : string) (duration : option Z),
    activeConnection w userId therapistId ->
    therapistById w therapistId = Some th ->
    (forall slots slot,
       getAvailableSlots fuel therapistId date duration w = (Returned slots, w) ->
       In slot slots ->
       forall d type notes,
         fst (bookAppointment userId (mkAppointmentData therapistId date slot d type notes) w)
         = Returned (mkResult true "Appointment booked successfully"
                       (Some (nextKey (appointments w)))))
    /\ (worksOn th date = false ->
        getAvailableSlots fuel therapistId date duration w = (Returned [], w)
        /\ forall time d type notes,
             ~ slotTaken w therapistId date time ->
             fst (bookAppointment userId
                    (mkAppointmentData therapistId date time d type notes) w)
             = Returned (mkResult true "Appointment booked successfully"
                           (Some (nextKey (appointments w))))).
Proof.
  intros fuel w userId therapistId th date duration Hact Hth.
  pose proof (getAvailableSlots_run fuel w therapistId date duration th (proj1 Hact) Hth)
    as Hrun.
  assert (forall time d type notes,
            ~ slotTaken w therapistId date time ->
            fst (bookAppointment userId
                   (mkAppointmentData therapistId date time d type notes) w)
            = Returned (mkResult true "Appointment booked successfully"
                          (Some (nextKey (appointments w))))) as Hbook.
  { intros time d type notes Hfree.
    rewrite (bookAppointment_success w userId
               (mkAppointmentData therapistId date time d type notes) Hact Hfree).
    reflexivity. }
  split.
  - intros slots slot Hslots Hin d type notes. apply Hbook.
    rewrite Hrun in Hslots.
    destruct (worksOn th date).
    + destruct (generateTimeSlots fuel 9 17 _) as [allSlots|]; [|discriminate].
      inversion Hslots; subst slots. apply filter_In in Hin. destruct Hin as [_ Hfree].
      apply negb_true_iff in Hfree.
      intros [a [Ha [Hat [Had [Hatime Hast]]]]].
      assert (In slot (bookedTimes w therapistId date)) as Hb.
      { apply bookedTimes_In. exists a. tauto'. }
      apply includes_In in Hb. congruence.
    + inversion Hslots; subst slots. contradiction.
  - intro Hoff. rewrite Hrun, Hoff. split; [reflexivity|exact Hbook].
Qed.

(** X26: updateNotes overwrites the notes of the stored appointment,
    whatever its status, and getAppointmentById then returns the
    appointment with the new notes and every other field as before. *)
Theorem updateNotes_then_getAppointmentById :
  forall (w : World) (id : Z) (notes : string),
    available w = true ->
    (appointmentById w id = None ->
     updateNotes id notes w = (Returned (failure "Appointment not found"), w)
     /\ getAppointmentById id w = (Returned None, w))
    /\ forall a, appointmentById w id = Some a ->
         exists w',
           updateNotes id notes w =
             (Returned (mkResult true "Notes updated successfully" None), w')
           /\ getAppointmentById id w' = (Returned (Some (notes_fields notes a)), w')
           /\ apt_notes (notes_fields notes a) = notes
           /\ apt_status (notes_fields notes a) = apt_status a
           /\ (forall k, k <> id ->
                 fst (getAppointmentById k w') = fst (getAppointmentById k w))
           /\ List.length (rows (appointments w')) = List.length (rows (appointments w)).
Proof.
  intros w id notes Hav.
  assert (forall k w0, available w0 = true ->
            getAppointmentById k w0 = (Returned (appointmentById w0 k), w0)) as Hget.
  { intros k w0 Hav0. unfold getAppointmentById, try_catch.
    rewrite (db_get_available appointments_store k w0 Hav0). reflexivity. }
  split.
  - intro Hnone. rewrite updateNotes_run, Hav, Hnone, (Hget id w Hav), Hnone.
    split; reflexivity.
  - intros a Hfind.
    destruct (find_has_key_some appointments_store id _ a Hfind) as [Hin Hkey].
    pose proof (existsb_has_key_of_find appointments_store id _ a Hfind) as Hex.
    rewrite updateNotes_run, Hav, Hfind.
    set (w' := withAppointments w _).
    exists w'. split; [reflexivity|]. split; [|split; [|split; [|split]]].
    + rewrite (Hget id w' Hav). f_equal. f_equal.
      unfold appointmentById. simpl. apply find_replace_row_same; [exact Hkey|exact Hex].
    + reflexivity.
    + reflexivity.
    + intros k Hk. rewrite (Hget k w' Hav), (Hget k w Hav).
      unfold appointmentById. cbn [fst]. simpl.
      rewrite (find_replace_row_other appointments_store id k (notes_fields notes a) _ Hk Hkey).
      reflexivity.
    + simpl. apply length_replace_row.
Qed.

End Core.

(** ** The properties on the example world *)

(** With a duration of one hour the 9-17 window gives the eight slots on
    the hour. *)
Lemma generateTimeSlots_hourly :
  generateTimeSlots 9 9 17 60 =
    Some ["09:00"; "10:00"; "11:00"; "12:00"; "13:00"; "14:00"; "15:00"; "16:00"]%string.
Proof.
  exact (proj1 (generateTimeSlots_positive_duration 9 17 60 eq_refl) 9%nat
           (le_n 9)).
Defined.

(** C5, the claim as stated fails for a duration of zero: the loop test
    [540 + 0 <= 1020] stays true, so the call never returns, whatever
    fuel it is given. *)
Lemma generateTimeSlots_zero_duration_never_returns :
  generateTimeSlots 1000 9 17 0 = None
  /\ (forall fuel, generateTimeSlots fuel 9 17 0 = None).
Proof.
  split.
  - apply generateTimeSlots_loop_diverges; lia.
  - intro fuel. apply generateTimeSlots_loop_diverges; lia.
Qed.

(** Fourteen entries, the last seven of total intensity 15 after seven of
    total 11: the trend is decided by the rounded means 2.1 and 1.6. *)
Lemma getMoodTrend_on_fourteen_entries :
  getMoodTrend moods_11_then_15 =
    (if (0.5 <? roundedMean (recentWindow moods_11_then_15)
                - roundedMean (olderWindow moods_11_then_15))%float
     then improving
     else if (roundedMean (recentWindow moods_11_then_15)
              - roundedMean (olderWindow moods_11_then_15) <? -0.5)%float
     then declining else stable).
Proof.
  exact (proj1 (proj2 (proj2 (proj2 (getMoodTrend_compares_rounded_means moods_11_then_15))))
           (proj1 (Nat.leb_le 8 14) eq_refl)).
Defined.

(** C2, the claim as stated fails: the mean intensity of the last seven
    entries (15/7) exceeds the mean of the seven before (11/7) by 4/7,
    which is more than 0.5, in exact arithmetic and in binary64 alike, yet
    the trend is [stable]: the rounded means 2.1 and 1.6 differ by 0.5. *)
Lemma getMoodTrend_ignores_a_difference_above_half :
  getMoodTrend moods_11_then_15 = stable
  /\ (1 # 2 < exactMean (recentWindow moods_11_then_15)
              - exactMean (olderWindow moods_11_then_15))%Q
  /\ (0.5 <? Z2float 15 / Z2float 7 - Z2float 11 / Z2float 7)%float = true
  /\ sumIntensity (recentWindow moods_11_then_15) = Integer 15
  /\ sumIntensity (olderWindow moods_11_then_15) = Integer 11
  /\ toFixed1 (Z2float 15 / Z2float 7) = Fixed1 false 21
  /\ toFixed1 (Z2float 11 / Z2float 7) = Fixed1 false 16.
Proof.
  repeat split; vm_compute; reflexivity.
Qed.

(** The three queries on the example world. *)
Lemma appointment_queries_on_example :
  exists upcoming past cancelled_ : list Appointment,
    getUpcomingAppointments naiveDateParse 1 exampleWorld = (Returned upcoming, exampleWorld)
    /\ getPastAppointments naiveDateParse 1 exampleWorld = (Returned past, exampleWorld)
    /\ getCancelledAppointments naiveDateParse 1 exampleWorld
       = (Returned cancelled_, exampleWorld)
    /\ (forall a, In a upcoming \/ In a past \/ In a cancelled_ ->
                  In a (appointmentsOfUser exampleWorld 1))
    /\ forall a, In a (appointmentsOfUser exampleWorld 1) ->
         let start := aptDateTime naiveDateParse a in
         let now := Some (clock exampleWorld) in
         (In a upcoming <-> instantBefore now start /\ apt_status a = confirmed)
         /\ (In a past <-> instantBefore start now \/ apt_status a = completed)
         /\ (In a cancelled_ <-> apt_status a = cancelled)
         /\ (apt_status a = completed -> In a past)
         /\ ~ (In a upcoming /\ In a past)
         /\ ~ (In a upcoming /\ In a cancelled_)
         /\ (In a past /\ In a cancelled_ <->
             apt_status a = cancelled /\ instantBefore start now).
Proof.
  exact (appointment_queries_classification naiveDateParse exampleWorld 1 eq_refl).
Defined.

(** C1, the claim as stated fails: the appointment of 2025-07-01, which is
    cancelled and lies in the past, is returned by [getPastAppointments]
    and by [getCancelledAppointments]. *)
Lemma cancelled_past_appointment_is_listed_twice :
  getPastAppointments naiveDateParse 1 exampleWorld
    = (Returned [appointment4; appointment3], exampleWorld)
  /\ getCancelledAppointments naiveDateParse 1 exampleWorld
     = (Returned [appointment2; appointment3], exampleWorld)
  /\ In appointment3 [appointment4; appointment3]
  /\ In appointment3 [appointment2; appointment3]
  /\ apt_status appointment3 = cancelled
  /\ aptDateTime naiveDateParse appointment3 = Some 1751360400000
  /\ clock exampleWorld = 1752148800000.
Proof.
  repeat split; try (vm_compute; reflexivity); simpl; tauto.
Qed.

(** C3.  In a readable database [hasConflict] reports a conflict iff some
    appointment of the user on that date that is not cancelled overlaps
    the proposed half-open interval (proposed start before its end and
    proposed end after its start); with an existing [09:00,09:50) a new
    [09:49,10:39) conflicts and a new [09:50,10:40) does not.  But on a
    failure of the database it reports NO conflict, for every request: the
    failure is caught inside [getAppointmentsByDate], so the fail-safe
    [catch] of [hasConflict] never runs.  On the example world with a
    broken database, the request for the very slot of the confirmed
    appointment is answered with [false]. *)
Theorem hasConflict_overlap_but_not_fail_safe :
  (forall (Date_parse : string -> option Z) (w : World) (userId : Z)
          (date time : string) (duration : Z),
     (available w = true ->
      exists b : bool,
        hasConflict Date_parse userId date time duration w = (Returned b, w)
        /\ (b = true <->
            exists apt, In apt (rows (appointments w))
                        /\ apt_userId apt = userId
                        /\ apt_date apt = date
                        /\ apt_status apt <> cancelled
                        /\ instantBefore (dateTimeOf Date_parse date time)
                             (intervalEnd (aptDateTime Date_parse apt) (apt_duration apt))
                        /\ instantBefore (aptDateTime Date_parse apt)
                             (intervalEnd (dateTimeOf Date_parse date time) duration)))
     /\ (available w = false ->
         hasConflict Date_parse userId date time duration w = (Returned false, w)))
  /\ hasConflict naiveDateParse 1 "2025-07-14" "09:49" 50 exampleWorld
     = (Returned true, exampleWorld)
  /\ hasConflict naiveDateParse 1 "2025-07-14" "09:50" 50 exampleWorld
     = (Returned false, exampleWorld)
  /\ hasConflict naiveDateParse 1 "2025-07-14" "09:00" 50 brokenWorld
     = (Returned false, brokenWorld).
Proof.
  split; [exact hasConflict_semantics|].
  repeat split; vm_compute; reflexivity.
Qed.

(** The conflict check on the broken example world, for any request. *)
Lemma hasConflict_on_broken_database :
  hasConflict naiveDateParse 1 "2025-07-14" "09:20" 30 brokenWorld
    = (Returned false, brokenWorld).
Proof.
  exact (proj2 (proj1 hasConflict_overlap_but_not_fail_safe naiveDateParse brokenWorld 1
                  "2025-07-14"%string "09:20"%string 30) eq_refl).
Defined.

(** The free slots of therapist 1 on Monday 2025-07-14: the confirmed
    appointment at 09:00 blocks its slot, the cancelled one at 09:50 does
    not. *)
Lemma getAvailableSlots_on_example :
  exists allSlots slots,
    generateTimeSlots 20 9 17 50 = Some allSlots
    /\ getAvailableSlots naiveDateParse 20 1 "2025-07-14" (Some 50) exampleWorld
       = (Returned slots, exampleWorld)
    /\ slots = filter (fun slot => negb (includes (bookedTimes exampleWorld 1 "2025-07-14") slot))
                 allSlots
    /\ (forall slot, In slot slots <->
          In slot allSlots
          /\ ~ exists a, In a (rows (appointments exampleWorld))
                         /\ apt_therapistId a = 1
                         /\ apt_date a = "2025-07-14"%string
                         /\ apt_status a <> cancelled
                         /\ apt_time a = slot)
    /\ ((forall a, In a (rows (appointments exampleWorld)) ->
                   apt_therapistId a = 1 -> apt_date a = "2025-07-14"%string ->
                   apt_status a = cancelled) ->
        slots = allSlots).
Proof.
  exact (proj1 (proj2 (getAvailableSlots_resolves naiveDateParse 20 exampleWorld 1
                         (mkTherapist (Some 1) "Dr. Sarah Mitchell"
                            "Anxiety & Stress Management"
                            ["Monday"; "Tuesday"; "Wednesday"; "Thursday"]%string)
                         "2025-07-14"%string (Some 50) eq_refl eq_refl))
           eq_refl eq_refl (proj1 (Nat.ltb_lt 9 20) eq_refl)).
Defined.

(** What the resolver answers on that Monday. *)
Lemma getAvailableSlots_monday_slots :
  getAvailableSlots naiveDateParse 20 1 "2025-07-14" (Some 50) exampleWorld
    = (Returned ["09:50"; "10:40"; "11:30"; "12:20"; "13:10"; "14:00"; "14:50"; "15:40"]%string,
       exampleWorld)
  /\ getAvailableSlots naiveDateParse 20 1 "2025-07-11" (Some 50) exampleWorld
     = (Returned [], exampleWorld).
Proof. split; vm_compute; reflexivity. Qed.

(** C4, the claim as stated fails for a duration of zero on a working
    day: the slot generator never leaves its loop, so the resolver never
    returns, whatever fuel it is given. *)
Lemma getAvailableSlots_zero_duration_never_returns :
  getAvailableSlots naiveDateParse 1000 1 "2025-07-14" (Some 0) exampleWorld
    = (OutOfFuel, exampleWorld)
  /\ (forall fuel,
        getAvailableSlots naiveDateParse fuel 1 "2025-07-14" (Some 0) exampleWorld
          = (OutOfFuel, exampleWorld)).
Proof.
  assert (H : forall fuel,
            getAvailableSlots naiveDateParse fuel 1 "2025-07-14" (Some 0) exampleWorld
              = (OutOfFuel, exampleWorld)).
  { intro fuel.
    rewrite (getAvailableSlots_run naiveDateParse fuel exampleWorld 1 "2025-07-14" (Some 0)
               (mkTherapist (Some 1) "Dr. Sarah Mitchell" "Anxiety & Stress Management"
                  ["Monday"; "Tuesday"; "Wednesday"; "Thursday"]%string)
               eq_refl eq_refl).
    replace (worksOn naiveDateParse _ "2025-07-14") with true by (vm_compute; reflexivity).
    unfold generateTimeSlots.
    rewrite generateTimeSlots_loop_diverges by lia. reflexivity. }
  split; [apply H|exact H].
Qed.

Lemma exampleWorld_connected : activeConnection exampleWorld 1 1.
Proof.
  split; [reflexivity|].
  exists (mkConnection (Some 1) 1 1 1751800000000 active).
  repeat split. now left.
Defined.

(** Booking the slot of the cancelled appointment succeeds. *)
Lemma bookAppointment_on_cancelled_slot :
  exists (id : Z) (w' : World),
    bookAppointment 1 requestCancelledSlot exampleWorld =
      (Returned (mkResult true "Appointment booked successfully" (Some id)), w').
Proof.
  refine (proj2 (proj2 (proj2 (bookAppointment_outcomes exampleWorld 1 requestCancelledSlot)))
            exampleWorld_connected _).
  intros a Hin Ht Hd Htm.
  destruct Hin as [<-|[<-|[<-|[<-|[]]]]]; try reflexivity; discriminate.
Defined.

(** A request with a zero duration and neither type nor notes. *)
Lemma bookAppointment_defaults_on_example :
  exists (a : Appointment) (r : Result) (w' : World),
    bookAppointment 1 requestWithoutOptions exampleWorld = (Returned r, w')
    /\ success r = true
    /\ rows (appointments w') = rows (appointments exampleWorld) ++ [a]
    /\ apt_duration a = 50
    /\ apt_type a = "Regular Session"%string
    /\ apt_notes a = EmptyString.
Proof.
  refine (bookAppointment_defaults exampleWorld 1 requestWithoutOptions
            exampleWorld_connected _).
  intros [a [Hin [Ht [Hd [Htm Hs]]]]].
  destruct Hin as [<-|[<-|[<-|[<-|[]]]]]; discriminate.
Defined.

(** Cancelling the confirmed appointment 1, and the cancelled one 2. *)
Lemma cancelAppointment_on_example :
  (apt_status appointment2 = cancelled ->
   cancelAppointment 2 exampleWorld =
     (Returned (failure "Appointment is already cancelled"), exampleWorld))
  /\ (apt_status appointment2 <> cancelled ->
      exists w' a',
        cancelAppointment 2 exampleWorld =
          (Returned (mkResult true "Appointment cancelled successfully" None), w')
        /\ appointmentById w' 2 = Some a'
        /\ apt_status a' = cancelled
        /\ apt_cancelledAt a' = Some (clock exampleWorld)
        /\ a' = cancel_fields (clock exampleWorld) appointment2
        /\ (forall k, k <> 2 -> appointmentById w' k = appointmentById exampleWorld k)
        /\ List.length (rows (appointments w')) = List.length (rows (appointments exampleWorld))
        /\ moods w' = moods exampleWorld
        /\ userTherapists w' = userTherapists exampleWorld
        /\ therapists w' = therapists exampleWorld).
Proof.
  exact (cancelAppointment_guard exampleWorld 2 appointment2 eq_refl eq_refl).
Defined.

Lemma exampleWorld_keysGenerated : keysGenerated moods_store exampleWorld.
Proof.
  split.
  - simpl. constructor.
    + intros [H|[]]. discriminate.
    + constructor; [intros []|constructor].
  - intros r [<-|[<-|[]]]; simpl.
    + exists 1. split; [reflexivity|reflexivity].
    + exists 2. split; [reflexivity|reflexivity].
Defined.

Lemma exampleWorld_oneEntryPerDay : oneEntryPerDay exampleWorld.
Proof.
  intros userId date. rewrite moodEntriesFor_filter.
  change (rows (moods exampleWorld)) with [mood1; mood2]. cbn [filter].
  destruct (sameUserAndDate userId date mood1) eqn:H1;
    destruct (sameUserAndDate userId date mood2) eqn:H2; simpl; try lia.
  unfold sameUserAndDate in H1, H2.
  apply andb_true_iff in H1 as [_ H1]. apply andb_true_iff in H2 as [_ H2].
  apply String.eqb_eq in H1. apply String.eqb_eq in H2.
  simpl in H1, H2. congruence.
Qed.

Lemma moodRequest1_valid : validMoodData moodRequest1.
Proof.
  split.
  - exists (mkMoodCategory "Happy" "#52B788"). split; [now left|reflexivity].
  - simpl. split; discriminate.
Defined.

Lemma moodRequest2_valid : validMoodData moodRequest2.
Proof.
  split.
  - exists (mkMoodCategory "Anxious" "#FFC107"). split; [right; right; now left|reflexivity].
  - simpl. split; discriminate.
Defined.

(** Two logs of user 1 for 2025-07-11 leave one entry, with the values of
    the second; and a log for that day without an intensity is stored and
    reported as a success. *)
Lemma logMood_twice_on_example :
  (exists r1 w1 r2 w2 e,
     logMood 1 moodRequest1 exampleWorld = (Returned r1, w1)
     /\ logMood 1 moodRequest2 w1 = (Returned r2, w2)
     /\ success r1 = true /\ success r2 = true
     /\ moodEntriesFor w2 1 "2025-07-11" = [e]
     /\ mood_mood e = "Anxious"%string
     /\ mood_intensity e = Integer 3
     /\ mood_notes e = None
     /\ mood_timestamp e = clock w1)
  /\ (exists r w' e,
        logMood 1 moodRequestNoIntensity exampleWorld = (Returned r, w')
        /\ success r = true
        /\ moodEntriesFor w' 1 "2025-07-11" = [e]
        /\ mood_mood e = "Calm"%string
        /\ mood_intensity e = Undefined
        /\ ~ exists i, mood_intensity e = Integer i).
Proof.
  split.
  - exact (proj1 (proj2 (proj2 (proj2 (proj2 (proj2
             (logMood_upsert exampleWorld 1 moodRequest1))))))
             eq_refl exampleWorld_keysGenerated exampleWorld_oneEntryPerDay
             moodRequest1_valid moodRequest2 moodRequest2_valid eq_refl).
  - refine (proj2 (proj2 (proj2 (proj2 (proj2 (proj2
              (logMood_upsert exampleWorld 1 moodRequestNoIntensity))))))
              eq_refl exampleWorld_keysGenerated exampleWorld_oneEntryPerDay _
              (or_introl eq_refl)).
    exists (mkMoodCategory "Calm" "#B7E4C7"). split; [simpl; tauto|reflexivity].
Defined.

(** What the store holds after the log without an intensity: the new entry
    has no intensity, and the average over the entries of the user is NaN. *)
Lemma logMood_without_intensity_is_stored :
  logMood 1 moodRequestNoIntensity exampleWorld
  = (Returned (mkResult true "Mood logged successfully" (Some 3)),
     withMoods exampleWorld
       (mkStore [mood1; mood2;
                 mkMoodEntry (Some 3) 1 "Calm" Undefined (Some "no slider"%string)
                   "2025-07-11" (clock exampleWorld) None] 4))
  /\ logMood 1 moodRequestNaN exampleWorld
     = (Returned (mkResult true "Mood logged successfully" (Some 3)),
        withMoods exampleWorld
          (mkStore [mood1; mood2;
                    mkMoodEntry (Some 3) 1 "Calm" NaN (Some "no slider"%string)
                      "2025-07-11" (clock exampleWorld) None] 4)).
Proof. split; vm_compute; reflexivity. Qed.




(** ** Further worked examples *)

Lemma exampleWorld_appointment_keys : keysGenerated appointments_store exampleWorld.
Proof.
  split.
  - simpl. repeat (constructor; [simpl; intuition discriminate|]). constructor.
  - simpl. intros r [<-|[<-|[<-|[<-|[]]]]]; eexists; (split; [reflexivity|lia]).
Qed.

Lemma exampleWorld_noDoubleBooking : noDoubleBooking exampleWorld.
Proof.
  intros a b Ha Hb Hth Hd Ht Hsa Hsb. simpl in Ha, Hb.
  destruct Ha as [<-|[<-|[<-|[<-|[]]]]], Hb as [<-|[<-|[<-|[<-|[]]]]];
    try reflexivity; try discriminate;
    try (exfalso; apply Hsa; reflexivity); try (exfalso; apply Hsb; reflexivity).
Qed.

Lemma exampleWorld_connection_keys : keysGenerated userTherapists_store exampleWorld.
Proof.
  split.
  - simpl. constructor; [intros []|constructor].
  - simpl. intros r [<-|[]]. exists 1. split; [reflexivity|lia].
Qed.

Lemma exampleWorld_allEntriesValid : allEntriesValid exampleWorld.
Proof.
  intros m Hm. simpl in Hm. destruct Hm as [<-|[<-|[]]]; split.
  - exists (mkMoodCategory "Calm" "#B7E4C7"). split; [simpl; tauto|reflexivity].
  - exists 6. split; [reflexivity|lia].
  - exists (mkMoodCategory "Tired" "#95A5A6"). split; [simpl; tauto|reflexivity].
  - exists 4. split; [reflexivity|lia].
Qed.

Lemma exampleWorld_allMoodsKnown : allMoodsKnown exampleWorld.
Proof.
  intros m Hm. exact (proj1 (exampleWorld_allEntriesValid m Hm)).
Qed.

Lemma exampleWorld_cancelled_slot_free : ~ slotTaken exampleWorld 1 "2025-07-14" "09:50".
Proof.
  intros [a [Ha [_ [Hd [Ht Hst]]]]]. simpl in Ha.
  destruct Ha as [<-|[<-|[<-|[<-|[]]]]]; try discriminate. apply Hst. reflexivity.
Qed.

Lemma exampleWorld_not_connected_to_2 : ~ connectionRecord exampleWorld 1 2.
Proof.
  intros [c [Hc [_ Ht]]]. simpl in Hc. destruct Hc as [<-|[]]. discriminate.
Qed.

Lemma twoTherapistsWorld_connected : activeConnection twoTherapistsWorld 1 2.
Proof.
  split; [reflexivity|].
  exists (mkConnection (Some 2) 1 2 1751800000000 active).
  repeat split. simpl. tauto.
Qed.

Lemma twoTherapistsWorld_slot_free : ~ slotTaken twoTherapistsWorld 2 "2025-07-14" "09:00".
Proof.
  intros [a [Ha [Hth _]]]. simpl in Ha.
  destruct Ha as [<-|[<-|[<-|[<-|[]]]]]; discriminate.
Qed.

Lemma moodUpdateValid_acceptable : acceptableUpdates moodUpdateValid.
Proof.
  split; simpl; [|lia].
  exists (mkMoodCategory "Happy" "#52B788"). split; [simpl; tauto|reflexivity].
Qed.

Lemma moodRequestNoNotes_valid : validMoodData moodRequestNoNotes.
Proof.
  split; simpl; [|lia].
  exists (mkMoodCategory "Calm" "#B7E4C7"). split; [simpl; tauto|reflexivity].
Qed.

(** Moving the confirmed appointment 1 to the slot it already has is
    refused. *)
Lemma rescheduleAppointment_to_own_slot :
  rescheduleAppointment 1 "2025-07-14" "09:00" exampleWorld
  = (Returned (failure "The new time slot is not available"), exampleWorld).
Proof.
  refine (proj1 (proj2 (proj2 (proj2 (rescheduleAppointment_outcomes exampleWorld 1
                                        "2025-07-14" "09:00" eq_refl)
                                 appointment1 eq_refl))) _).
  discriminate.
Defined.

(** Booking the slot of the cancelled appointment keeps the invariant. *)
Lemma appointment_updates_on_example :
  keysGenerated appointments_store (snd (bookAppointment 1 requestCancelledSlot exampleWorld))
  /\ noDoubleBooking (snd (bookAppointment 1 requestCancelledSlot exampleWorld)).
Proof.
  exact (proj1 (appointment_updates_keep_noDoubleBooking exampleWorld
                  exampleWorld_appointment_keys exampleWorld_noDoubleBooking)
           1 requestCancelledSlot).
Defined.

(** The cancelled appointment 2 is marked completed all the same. *)
Lemma completeAppointment_on_cancelled_appointment :
  exists w',
    completeAppointment 2 exampleWorld =
      (Returned (mkResult true "Appointment marked as completed" None), w')
    /\ appointmentById w' 2 = Some (complete_fields (clock exampleWorld) appointment2).
Proof.
  destruct (completeAppointment_is_unconditional naiveDateParse exampleWorld 2 appointment2
              eq_refl eq_refl) as [w' [past [Hrun [Hfind _]]]].
  exists w'. split; [exact Hrun|exact Hfind].
Defined.

Lemma bookAppointment_takes_the_slot_on_example :
  isSlotAvailable 1 "2025-07-14" "09:50"
    (snd (bookAppointment 1 requestCancelledSlot exampleWorld))
  = (Returned false, snd (bookAppointment 1 requestCancelledSlot exampleWorld)).
Proof.
  exact (proj1 (bookAppointment_takes_the_slot naiveDateParse exampleWorld 1
                  requestCancelledSlot exampleWorld_connected
                  exampleWorld_cancelled_slot_free)).
Defined.

Lemma cancelAppointment_frees_the_slot_on_example :
  isSlotAvailable 1 "2025-07-14" "09:00" (snd (cancelAppointment 1 exampleWorld))
  = (Returned true, snd (cancelAppointment 1 exampleWorld)).
Proof.
  refine (proj1 (proj2 (cancelAppointment_frees_the_slot exampleWorld 1 appointment1 eq_refl
                          exampleWorld_appointment_keys exampleWorld_noDoubleBooking
                          eq_refl _))).
  discriminate.
Defined.

(** User 1, who sees therapist 1 on 2025-07-14 at 09:00, is booked with
    therapist 2 for the same time. *)
Lemma bookAppointment_ignores_hasConflict_on_example :
  hasConflict naiveDateParse 1 "2025-07-14" "09:00" 50 twoTherapistsWorld
  = (Returned true, twoTherapistsWorld)
  /\ exists w',
       bookAppointment 1 requestOtherTherapist twoTherapistsWorld =
         (Returned (mkResult true "Appointment booked successfully" (Some 5)), w')
       /\ In appointment1 (rows (appointments w'))
       /\ In (bookedAppointment twoTherapistsWorld 1 requestOtherTherapist)
            (rows (appointments w')).
Proof.
  refine (bookAppointment_ignores_hasConflict naiveDateParse twoTherapistsWorld 1
            requestOtherTherapist appointment1 twoTherapistsWorld_connected
            twoTherapistsWorld_slot_free _ eq_refl eq_refl _ _ _).
  - simpl. tauto.
  - discriminate.
  - apply Date_lt_iff. reflexivity.
  - apply Date_lt_iff. reflexivity.
Defined.

(** On Wednesday 2025-07-02 at 10:30 the range starts on Sunday 2025-06-29
    and ends before it starts. *)
Lemma getWeekRange_on_early_july :
  fst (getWeekRange 1751452200000) = 1751193000000
  /\ snd (getWeekRange 1751452200000) < fst (getWeekRange 1751452200000).
Proof.
  refine (proj2 (getWeekRange_outcomes 1751452200000 _) _).
  - split; [discriminate|reflexivity].
  - vm_compute. discriminate.
Defined.

(** That week the confirmed appointment on Thursday is not listed. *)
Lemma getWeekAppointments_on_early_july :
  getWeekAppointments naiveDateParse 1 earlyJulyWorld = (Returned [], earlyJulyWorld).
Proof.
  refine (proj1 (getWeekAppointments_outcomes naiveDateParse earlyJulyWorld 1 _) _).
  - split; [discriminate|reflexivity].
  - vm_compute. discriminate.
Defined.

Lemma connectTherapist_twice_on_example :
  connectTherapist 1 1 exampleWorld
  = (Returned (failure "You are already connected with this therapist"), exampleWorld).
Proof.
  refine (proj1 (connectTherapist_outcomes exampleWorld 1 1 eq_refl) _).
  exists (mkConnection (Some 1) 1 1 1751800000000 active). simpl. tauto.
Defined.

Lemma disconnectTherapist_on_example :
  exists w',
    disconnectTherapist 1 1 exampleWorld =
      (Returned (mkResult true "Successfully disconnected from therapist" None), w')
    /\ appointments w' = appointments exampleWorld
    /\ TherapistManager_isConnected 1 1 w' = (Returned false, w').
Proof.
  assert (connectionRecord exampleWorld 1 1) as Hrec.
  { exists (mkConnection (Some 1) 1 1 1751800000000 active). simpl. tauto. }
  assert (oneConnectionPerPair exampleWorld) as Hone.
  { intros a b Ha Hb _ _. simpl in Ha, Hb.
    destruct Ha as [<-|[]], Hb as [<-|[]]. reflexivity. }
  destruct (proj2 (disconnectTherapist_outcomes exampleWorld 1 1 eq_refl
                     exampleWorld_connection_keys) Hrec)
    as [w' [Hrun [Happ [_ [_ Hafter]]]]].
  exists w'. split; [exact Hrun|]. split; [exact Happ|].
  exact (proj1 (proj2 (Hafter Hone))).
Defined.

Lemma connect_then_disconnect_on_example :
  rows (userTherapists (snd (disconnectTherapist 1 2 (snd (connectTherapist 1 2 exampleWorld)))))
  = rows (userTherapists exampleWorld).
Proof.
  exact (proj1 (proj2 (connect_then_disconnect_restores exampleWorld 1 2 eq_refl
                         exampleWorld_connection_keys exampleWorld_not_connected_to_2))).
Defined.

Lemma moodUpdateNaN_acceptable : acceptableUpdates moodUpdateNaN.
Proof. split; exact I. Qed.

(** Entry 1 gets a new mood and intensity and is stamped with the clock;
    an update whose intensity is NaN is stored as well. *)
Lemma updateMood_on_example :
  (exists w',
     updateMood 1 moodUpdateValid exampleWorld =
       (Returned (mkResult true "Mood updated successfully" None), w')
     /\ moodById w' 1
        = Some (mkMoodEntry (Some 1) 1 "Happy" (Integer 9) (Some EmptyString) "2025-07-09"
                  1752062400000 (Some 1752148800000)))
  /\ (exists w',
        updateMood 1 moodUpdateNaN exampleWorld =
          (Returned (mkResult true "Mood updated successfully" None), w')
        /\ moodById w' 1
           = Some (mkMoodEntry (Some 1) 1 "Calm" NaN (Some EmptyString) "2025-07-09"
                     1752062400000 (Some 1752148800000))).
Proof.
  split.
  - destruct (proj2 (proj2 (proj2 (updateMood_outcomes exampleWorld 1 moodUpdateValid eq_refl)
                              mood1 eq_refl)) moodUpdateValid_acceptable)
      as [w' [m' [Hrun [Hfind [Hm' _]]]]].
    exists w'. split; [exact Hrun|]. rewrite Hfind, Hm'. reflexivity.
  - destruct (proj2 (proj2 (proj2 (updateMood_outcomes exampleWorld 1 moodUpdateNaN eq_refl)
                              mood1 eq_refl)) moodUpdateNaN_acceptable)
      as [w' [m' [Hrun [Hfind [Hm' _]]]]].
    exists w'. split; [exact Hrun|]. rewrite Hfind, Hm'. reflexivity.
Defined.

Lemma deleteMood_on_example :
  exists w',
    deleteMood 1 exampleWorld = (Returned (mkResult true "Mood entry deleted" None), w')
    /\ getMoodById 1 w' = (Returned None, w').
Proof.
  destruct (proj2 (deleteMood_outcomes exampleWorld 1 eq_refl) mood1 eq_refl)
    as [w' [Hrun [Hget _]]].
  exists w'. split; [exact Hrun|exact Hget].
Defined.

(** A log with intensity 8 keeps all four properties; a log without an
    intensity keeps three of them and breaks the fourth. *)
Lemma mood_updates_on_example :
  (keysGenerated moods_store (snd (logMood 1 moodRequest1 exampleWorld))
   /\ oneEntryPerDay (snd (logMood 1 moodRequest1 exampleWorld))
   /\ allMoodsKnown (snd (logMood 1 moodRequest1 exampleWorld)))
  /\ allEntriesValid (snd (logMood 1 moodRequest1 exampleWorld))
  /\ (keysGenerated moods_store (snd (logMood 1 moodRequestNoIntensity exampleWorld))
      /\ oneEntryPerDay (snd (logMood 1 moodRequestNoIntensity exampleWorld))
      /\ allMoodsKnown (snd (logMood 1 moodRequestNoIntensity exampleWorld)))
  /\ ~ allEntriesValid (snd (logMood 1 moodRequestNoIntensity exampleWorld)).
Proof.
  pose proof (mood_updates_keep_invariants exampleWorld exampleWorld_keysGenerated
                exampleWorld_oneEntryPerDay exampleWorld_allMoodsKnown)
    as [Hlog [_ [_ [Hvalid Hbreak]]]].
  split; [exact (Hlog 1 moodRequest1)|].
  split; [exact (proj1 (Hvalid exampleWorld_allEntriesValid) 1 moodRequest1 8 eq_refl)|].
  split; [exact (Hlog 1 moodRequestNoIntensity)|].
  apply (Hbreak 1 moodRequestNoIntensity eq_refl); [|left; reflexivity].
  exists (mkMoodCategory "Calm" "#B7E4C7"). split; [simpl; tauto|reflexivity].
Defined.

(** Fourteen days with the intensity rising from 4 to 8: the trend of the
    statistics is reported as declining. *)
Lemma getMoodStats_on_rising_moods :
  (exists history,
     getMoodHistory 1 risingWorld = (Returned history, risingWorld)
     /\ List.length history = 14%nat
     /\ forall a b,
          In a (recentWindow history) ->
          In b (firstn (List.length history - 7) history) ->
          mood_timestamp a <= mood_timestamp b)
  /\ getMoodStats naiveDateParse naiveStartOfDay 1 risingWorld
     = (Returned (mkMoodStats 14 14 (AvgString (Fixed1 false 60)) declining), risingWorld).
Proof.
  split.
  - destruct (getMoodStats_trend_reads_oldest_as_recent naiveDateParse naiveStartOfDay
                risingWorld 1 eq_refl)
      as [history [Hrun [_ [Hlen [_ Hwindow]]]]].
    exists history. split; [exact Hrun|]. split; [exact Hlen|exact Hwindow].
  - vm_compute. reflexivity.
Defined.

Lemma logMood_without_notes_on_example :
  exportMoodData 1 (snd (logMood 1 moodRequestNoNotes exampleWorld))
  = (Returned (mkExportResult false None None (Some "Failed to export data"%string)),
     snd (logMood 1 moodRequestNoNotes exampleWorld)).
Proof.
  refine (proj2 (proj2 (logMood_without_notes_breaks_export exampleWorld 1 moodRequestNoNotes
                          eq_refl exampleWorld_keysGenerated moodRequestNoNotes_valid _
                          eq_refl))).
  discriminate.
Defined.

Lemma generateTimeSlots_labels_on_example :
  exists slots,
    generateTimeSlots 20 9 17 50 = Some slots
    /\ (forall (i : nat) slot,
          nth_error slots i = Some slot ->
          parse_time_part slot = Some ((9 * 60 + Z.of_nat i * 50) * 60000)
          /\ String.length slot = 5%nat)
    /\ NoDup slots.
Proof.
  refine (generateTimeSlots_labels_read_back 20 9 17 50 _ _ _ _).
  - discriminate.
  - discriminate.
  - reflexivity.
  - exact (proj1 (Nat.ltb_lt 9 20) eq_refl).
Defined.

(** The slot at 10:40 that is offered for Monday 2025-07-14 is booked. *)
Lemma offered_slot_on_example :
  fst (bookAppointment 1 (mkAppointmentData 1 "2025-07-14" "10:40" None None None)
         exampleWorld)
  = Returned (mkResult true "Appointment booked successfully" (Some 5)).
Proof.
  refine (proj1 (offered_slots_are_bookable naiveDateParse 20 exampleWorld 1 1
                   (mkTherapist (Some 1) "Dr. Sarah Mitchell" "Anxiety & Stress Management"
                      ["Monday"; "Tuesday"; "Wednesday"; "Thursday"]%string)
                   "2025-07-14" (Some 50) exampleWorld_connected eq_refl)
            _ "10:40"%string (proj1 getAvailableSlots_monday_slots) _ None None None).
  simpl. tauto.
Defined.

Lemma updateNotes_on_example :
  exists w',
    updateNotes 2 "moved" exampleWorld =
      (Returned (mkResult true "Notes updated successfully" None), w')
    /\ getAppointmentById 2 w' = (Returned (Some (notes_fields "moved" appointment2)), w').
Proof.
  destruct (proj2 (updateNotes_then_getAppointmentById exampleWorld 2 "moved" eq_refl)
              appointment2 eq_refl) as [w' [Hrun [Hget _]]].
  exists w'. split; [exact Hrun|exact Hget].
Defined.
